(** * Expense tracker: a shallow embedding of [expense_tracker.py]

    The development follows the layout of the Python source:
    text helpers and the library functions the program calls
    ([str.strip], [str.lower], [float], [int], [round] and
    [datetime.strptime]), the JSON values that [expenses.json] holds,
    a small state-and-exception monad for the file system and the
    console, and then the program's own functions under their own
    names. *)

From Stdlib Require Import ZArith List String Ascii Bool Lia.
From Stdlib Require Import Sorted Permutation.
From Stdlib Require Import Floats.SpecFloat.
From stdpp Require Import base option gmap strings.

Import ListNotations.
Set Warnings "-register-all".
Local Open Scope string_scope.
Local Open Scope Z_scope.

(** ** Text

    A Python [str] is a sequence of code points.  It is modelled by
    the bytes of its UTF-8 encoding: [characters] cuts the bytes into
    the encodings of the single code points and [point] decodes one.
    The character tables are those of Unicode 14.0.0, the version
    CPython 3.11 is built with. *)

Module Text.

Definition chars (s : string) : list ascii := list_ascii_of_string s.
Definition text (l : list ascii) : string := string_of_list_ascii l.

Definition code (c : ascii) : Z := Z.of_nat (nat_of_ascii c).
Definition byte (n : Z) : ascii := ascii_of_nat (Z.to_nat n).

(** *** UTF-8 *)

(** A byte of the form 10xxxxxx continues a character. *)
Definition is_continuation (c : ascii) : bool :=
  (128 <=? code c) && (code c <? 192).

Definition continued (l : list ascii) : bool :=
  match l with
  | c :: _ => is_continuation c
  | [] => false
  end.

(** The characters of a text, each as the bytes that encode it: a
    byte belongs to the character of the bytes after it when these
    start with a continuation byte. *)
Fixpoint characters (l : list ascii) : list (list ascii) :=
  match l with
  | [] => []
  | c :: r =>
      match characters r with
      | g :: gs => if continued r then (c :: g) :: gs else [c] :: g :: gs
      | [] => [[c]]
      end
  end.

(** The code point a character encodes; [-1] for bytes that encode
    none. *)
Definition point (g : list ascii) : Z :=
  match map code g with
  | [a] => if a <? 128 then a else -1
  | [a; b] =>
      if (192 <=? a) && (a <? 224) then (a - 192) * 64 + (b - 128) else -1
  | [a; b; c] =>
      if (224 <=? a) && (a <? 240)
      then (a - 224) * 4096 + (b - 128) * 64 + (c - 128)
      else -1
  | [a; b; c; d] =>
      if (240 <=? a) && (a <? 248)
      then (a - 240) * 262144 + (b - 128) * 4096 + (c - 128) * 64 + (d - 128)
      else -1
  | _ => -1
  end.

(** The bytes that encode a code point. *)
Definition encode (p : Z) : list ascii :=
  if p <? 128 then [byte p]
  else if p <? 2048 then [byte (192 + p / 64); byte (128 + p mod 64)]
  else if p <? 65536 then
    [byte (224 + p / 4096); byte (128 + (p / 64) mod 64);
     byte (128 + p mod 64)]
  else
    [byte (240 + p / 262144); byte (128 + (p / 4096) mod 64);
     byte (128 + (p / 64) mod 64); byte (128 + p mod 64)].

(** The code points of a text. *)
Definition points (s : string) : list Z := map point (characters (chars s)).

Definition in_ranges (p : Z) (l : list (Z * Z)) : bool :=
  existsb (fun r => (fst r <=? p) && (p <=? snd r)) l.

(** *** Whitespace and digits *)

(** [str.isspace] of a character: the characters [str.strip] and
    [str.split] take for whitespace. *)
Definition space_ranges : list (Z * Z) :=
  [(9, 13); (28, 32); (133, 133); (160, 160); (5760, 5760); (8192, 8202);
   (8232, 8233); (8239, 8239); (8287, 8287); (12288, 12288)].

Definition is_space_point (p : Z) : bool := in_ranges p space_ranges.

Definition is_space (g : list ascii) : bool := is_space_point (point g).

(** The code points of the digit zero in the scripts that have decimal
    digits (category Nd); the digits one to nine follow each. *)
Definition decimal_zeros : list Z :=
  [
   48; 1632; 1776; 1984; 2406; 2534; 2662; 2790; 2918; 3046; 3174; 3302;
   3430; 3558; 3664; 3792; 3872; 4160; 4240; 6112; 6160; 6470; 6608; 6784;
   6800; 6992; 7088; 7232; 7248; 42528; 43216; 43264; 43472; 43504; 43600;
   44016; 65296; 66720; 68912; 69734; 69872; 69942; 70096; 70384; 70736;
   70864; 71248; 71360; 71472; 71904; 72016; 72784; 73040; 73120; 92768;
   92864; 93008; 120782; 120792; 120802; 120812; 120822; 123200; 123632;
   125264; 130032
  ].

(** The value of a decimal digit: what [\d] matches and [int] reads. *)
Definition decimal_value (p : Z) : option Z :=
  match List.find (fun z => (z <=? p) && (p <=? z + 9)) decimal_zeros with
  | Some z => Some (p - z)
  | None => None
  end.

(** The ASCII classes of the C library, which the number parsers use
    once a text is brought to ASCII: [Py_ISSPACE], [Py_ISDIGIT],
    [Py_TOLOWER]. *)
Definition c_space (c : ascii) : bool :=
  let n := code c in ((9 <=? n) && (n <=? 13)) || (n =? 32).

Definition is_digit (c : ascii) : bool :=
  let n := code c in (48 <=? n) && (n <=? 57).

Definition digit_val (c : ascii) : Z := code c - 48.

Definition lower_char (c : ascii) : ascii :=
  let n := code c in
  if (65 <=? n) && (n <=? 90) then byte (n + 32) else c.

Definition in_range (lo hi : Z) (p : Z) : bool := (lo <=? p) && (p <=? hi).

(** *** [str.strip] and [str.split] *)

Fixpoint lstrip (l : list (list ascii)) : list (list ascii) :=
  match l with
  | g :: r => if is_space g then lstrip r else l
  | [] => []
  end.

Definition rstrip (l : list (list ascii)) : list (list ascii) :=
  rev (lstrip (rev l)).

(** [s.strip()] *)
Definition strip (s : string) : string :=
  text (concat (rstrip (lstrip (characters (chars s))))).

(** [s.split()]: the words between runs of whitespace.  [word] holds
    the characters of the word being read, last one first. *)
Fixpoint split_from (l : list (list ascii)) (word : list (list ascii))
  : list string :=
  match l with
  | [] =>
      match word with
      | [] => []
      | _ => [text (concat (rev word))]
      end
  | g :: r =>
      if is_space g then
        match word with
        | [] => split_from r []
        | _ => text (concat (rev word)) :: split_from r []
        end
      else split_from r (g :: word)
  end.

Definition split (s : string) : list string :=
  split_from (characters (chars s)) [].

(** *** [str.lower] *)

(** The simple lowercase mappings: [(first, last, step, delta)] maps
    every [step]-th code point from [first] to [last] to itself plus
    [delta]. *)
Definition lower_runs : list (Z * Z * Z * Z) :=
  [
   (65, 90, 1, 32); (192, 214, 1, 32); (216, 222, 1, 32); (256, 302, 2, 1);
   (306, 310, 2, 1); (313, 327, 2, 1); (330, 374, 2, 1);
   (376, 376, 1, -121); (377, 381, 2, 1); (385, 385, 1, 210);
   (386, 388, 2, 1); (390, 390, 1, 206); (391, 391, 1, 1);
   (393, 394, 1, 205); (395, 395, 1, 1); (398, 398, 1, 79);
   (399, 399, 1, 202); (400, 400, 1, 203); (401, 401, 1, 1);
   (403, 403, 1, 205); (404, 404, 1, 207); (406, 406, 1, 211);
   (407, 407, 1, 209); (408, 408, 1, 1); (412, 412, 1, 211);
   (413, 413, 1, 213); (415, 415, 1, 214); (416, 420, 2, 1);
   (422, 422, 1, 218); (423, 423, 1, 1); (425, 425, 1, 218);
   (428, 428, 1, 1); (430, 430, 1, 218); (431, 431, 1, 1);
   (433, 434, 1, 217); (435, 437, 2, 1); (439, 439, 1, 219);
   (440, 440, 1, 1); (444, 444, 1, 1); (452, 452, 1, 2); (453, 453, 1, 1);
   (455, 455, 1, 2); (456, 456, 1, 1); (458, 458, 1, 2); (459, 475, 2, 1);
   (478, 494, 2, 1); (497, 497, 1, 2); (498, 500, 2, 1);
   (502, 502, 1, -97); (503, 503, 1, -56); (504, 542, 2, 1);
   (544, 544, 1, -130); (546, 562, 2, 1); (570, 570, 1, 10795);
   (571, 571, 1, 1); (573, 573, 1, -163); (574, 574, 1, 10792);
   (577, 577, 1, 1); (579, 579, 1, -195); (580, 580, 1, 69);
   (581, 581, 1, 71); (582, 590, 2, 1); (880, 882, 2, 1); (886, 886, 1, 1);
   (895, 895, 1, 116); (902, 902, 1, 38); (904, 906, 1, 37);
   (908, 908, 1, 64); (910, 911, 1, 63); (913, 929, 1, 32);
   (931, 939, 1, 32); (975, 975, 1, 8); (984, 1006, 2, 1);
   (1012, 1012, 1, -60); (1015, 1015, 1, 1); (1017, 1017, 1, -7);
   (1018, 1018, 1, 1); (1021, 1023, 1, -130); (1024, 1039, 1, 80);
   (1040, 1071, 1, 32); (1120, 1152, 2, 1); (1162, 1214, 2, 1);
   (1216, 1216, 1, 15); (1217, 1229, 2, 1); (1232, 1326, 2, 1);
   (1329, 1366, 1, 48); (4256, 4293, 1, 7264); (4295, 4295, 1, 7264);
   (4301, 4301, 1, 7264); (5024, 5103, 1, 38864); (5104, 5109, 1, 8);
   (7312, 7354, 1, -3008); (7357, 7359, 1, -3008); (7680, 7828, 2, 1);
   (7838, 7838, 1, -7615); (7840, 7934, 2, 1); (7944, 7951, 1, -8);
   (7960, 7965, 1, -8); (7976, 7983, 1, -8); (7992, 7999, 1, -8);
   (8008, 8013, 1, -8); (8025, 8031, 2, -8); (8040, 8047, 1, -8);
   (8072, 8079, 1, -8); (8088, 8095, 1, -8); (8104, 8111, 1, -8);
   (8120, 8121, 1, -8); (8122, 8123, 1, -74); (8124, 8124, 1, -9);
   (8136, 8139, 1, -86); (8140, 8140, 1, -9); (8152, 8153, 1, -8);
   (8154, 8155, 1, -100); (8168, 8169, 1, -8); (8170, 8171, 1, -112);
   (8172, 8172, 1, -7); (8184, 8185, 1, -128); (8186, 8187, 1, -126);
   (8188, 8188, 1, -9); (8486, 8486, 1, -7517); (8490, 8490, 1, -8383);
   (8491, 8491, 1, -8262); (8498, 8498, 1, 28); (8544, 8559, 1, 16);
   (8579, 8579, 1, 1); (9398, 9423, 1, 26); (11264, 11311, 1, 48);
   (11360, 11360, 1, 1); (11362, 11362, 1, -10743);
   (11363, 11363, 1, -3814); (11364, 11364, 1, -10727);
   (11367, 11371, 2, 1); (11373, 11373, 1, -10780);
   (11374, 11374, 1, -10749); (11375, 11375, 1, -10783);
   (11376, 11376, 1, -10782); (11378, 11378, 1, 1); (11381, 11381, 1, 1);
   (11390, 11391, 1, -10815); (11392, 11490, 2, 1); (11499, 11501, 2, 1);
   (11506, 11506, 1, 1); (42560, 42604, 2, 1); (42624, 42650, 2, 1);
   (42786, 42798, 2, 1); (42802, 42862, 2, 1); (42873, 42875, 2, 1);
   (42877, 42877, 1, -35332); (42878, 42886, 2, 1); (42891, 42891, 1, 1);
   (42893, 42893, 1, -42280); (42896, 42898, 2, 1); (42902, 42920, 2, 1);
   (42922, 42922, 1, -42308); (42923, 42923, 1, -42319);
   (42924, 42924, 1, -42315); (42925, 42925, 1, -42305);
   (42926, 42926, 1, -42308); (42928, 42928, 1, -42258);
   (42929, 42929, 1, -42282); (42930, 42930, 1, -42261);
   (42931, 42931, 1, 928); (42932, 42946, 2, 1); (42948, 42948, 1, -48);
   (42949, 42949, 1, -42307); (42950, 42950, 1, -35384);
   (42951, 42953, 2, 1); (42960, 42960, 1, 1); (42966, 42968, 2, 1);
   (42997, 42997, 1, 1); (65313, 65338, 1, 32); (66560, 66599, 1, 40);
   (66736, 66771, 1, 40); (66928, 66938, 1, 39); (66940, 66954, 1, 39);
   (66956, 66962, 1, 39); (66964, 66965, 1, 39); (68736, 68786, 1, 64);
   (71840, 71871, 1, 32); (93760, 93791, 1, 32); (125184, 125217, 1, 34)
  ].

(** The lowercase of a code point, where it is another single code
    point. *)
Definition simple_lower (p : Z) : option Z :=
  match List.find (fun r => let '(first, last, step, _) := r in
                            (first <=? p) && (p <=? last)
                            && ((p - first) mod step =? 0)) lower_runs with
  | Some (_, _, _, delta) => Some (p + delta)
  | None => None
  end.

(** The cased characters that are not case-ignorable, and the
    case-ignorable ones: the context of a capital sigma. *)
Definition cased_ranges : list (Z * Z) :=
  [
   (65, 90); (97, 122); (170, 170); (181, 181); (186, 186); (192, 214);
   (216, 246); (248, 442); (444, 447); (452, 659); (661, 687); (880, 883);
   (886, 887); (891, 893); (895, 895); (902, 902); (904, 906); (908, 908);
   (910, 929); (931, 1013); (1015, 1153); (1162, 1327); (1329, 1366);
   (1376, 1416); (4256, 4293); (4295, 4295); (4301, 4301); (4304, 4346);
   (4349, 4351); (5024, 5109); (5112, 5117); (7296, 7304); (7312, 7354);
   (7357, 7359); (7424, 7467); (7531, 7543); (7545, 7578); (7680, 7957);
   (7960, 7965); (7968, 8005); (8008, 8013); (8016, 8023); (8025, 8025);
   (8027, 8027); (8029, 8029); (8031, 8061); (8064, 8116); (8118, 8124);
   (8126, 8126); (8130, 8132); (8134, 8140); (8144, 8147); (8150, 8155);
   (8160, 8172); (8178, 8180); (8182, 8188); (8450, 8450); (8455, 8455);
   (8458, 8467); (8469, 8469); (8473, 8477); (8484, 8484); (8486, 8486);
   (8488, 8488); (8490, 8493); (8495, 8500); (8505, 8505); (8508, 8511);
   (8517, 8521); (8526, 8526); (8544, 8575); (8579, 8580); (9398, 9449);
   (11264, 11387); (11390, 11492); (11499, 11502); (11506, 11507);
   (11520, 11557); (11559, 11559); (11565, 11565); (42560, 42605);
   (42624, 42651); (42786, 42863); (42865, 42887); (42891, 42894);
   (42896, 42954); (42960, 42961); (42963, 42963); (42965, 42969);
   (42997, 42998); (43002, 43002); (43824, 43866); (43872, 43880);
   (43888, 43967); (64256, 64262); (64275, 64279); (65313, 65338);
   (65345, 65370); (66560, 66639); (66736, 66771); (66776, 66811);
   (66928, 66938); (66940, 66954); (66956, 66962); (66964, 66965);
   (66967, 66977); (66979, 66993); (66995, 67001); (67003, 67004);
   (68736, 68786); (68800, 68850); (71840, 71903); (93760, 93823);
   (119808, 119892); (119894, 119964); (119966, 119967); (119970, 119970);
   (119973, 119974); (119977, 119980); (119982, 119993); (119995, 119995);
   (119997, 120003); (120005, 120069); (120071, 120074); (120077, 120084);
   (120086, 120092); (120094, 120121); (120123, 120126); (120128, 120132);
   (120134, 120134); (120138, 120144); (120146, 120485); (120488, 120512);
   (120514, 120538); (120540, 120570); (120572, 120596); (120598, 120628);
   (120630, 120654); (120656, 120686); (120688, 120712); (120714, 120744);
   (120746, 120770); (120772, 120779); (122624, 122633); (122635, 122654);
   (125184, 125251); (127280, 127305); (127312, 127337); (127344, 127369)
  ].

Definition ignorable_ranges : list (Z * Z) :=
  [
   (39, 39); (46, 46); (58, 58); (94, 94); (96, 96); (168, 168);
   (173, 173); (175, 175); (180, 180); (183, 184); (688, 879); (884, 885);
   (890, 890); (900, 901); (903, 903); (1155, 1161); (1369, 1369);
   (1375, 1375); (1425, 1469); (1471, 1471); (1473, 1474); (1476, 1477);
   (1479, 1479); (1524, 1524); (1536, 1541); (1552, 1562); (1564, 1564);
   (1600, 1600); (1611, 1631); (1648, 1648); (1750, 1757); (1759, 1768);
   (1770, 1773); (1807, 1807); (1809, 1809); (1840, 1866); (1958, 1968);
   (2027, 2037); (2042, 2042); (2045, 2045); (2070, 2093); (2137, 2139);
   (2184, 2184); (2192, 2193); (2200, 2207); (2249, 2306); (2362, 2362);
   (2364, 2364); (2369, 2376); (2381, 2381); (2385, 2391); (2402, 2403);
   (2417, 2417); (2433, 2433); (2492, 2492); (2497, 2500); (2509, 2509);
   (2530, 2531); (2558, 2558); (2561, 2562); (2620, 2620); (2625, 2626);
   (2631, 2632); (2635, 2637); (2641, 2641); (2672, 2673); (2677, 2677);
   (2689, 2690); (2748, 2748); (2753, 2757); (2759, 2760); (2765, 2765);
   (2786, 2787); (2810, 2815); (2817, 2817); (2876, 2876); (2879, 2879);
   (2881, 2884); (2893, 2893); (2901, 2902); (2914, 2915); (2946, 2946);
   (3008, 3008); (3021, 3021); (3072, 3072); (3076, 3076); (3132, 3132);
   (3134, 3136); (3142, 3144); (3146, 3149); (3157, 3158); (3170, 3171);
   (3201, 3201); (3260, 3260); (3263, 3263); (3270, 3270); (3276, 3277);
   (3298, 3299); (3328, 3329); (3387, 3388); (3393, 3396); (3405, 3405);
   (3426, 3427); (3457, 3457); (3530, 3530); (3538, 3540); (3542, 3542);
   (3633, 3633); (3636, 3642); (3654, 3662); (3761, 3761); (3764, 3772);
   (3782, 3782); (3784, 3789); (3864, 3865); (3893, 3893); (3895, 3895);
   (3897, 3897); (3953, 3966); (3968, 3972); (3974, 3975); (3981, 3991);
   (3993, 4028); (4038, 4038); (4141, 4144); (4146, 4151); (4153, 4154);
   (4157, 4158); (4184, 4185); (4190, 4192); (4209, 4212); (4226, 4226);
   (4229, 4230); (4237, 4237); (4253, 4253); (4348, 4348); (4957, 4959);
   (5906, 5908); (5938, 5939); (5970, 5971); (6002, 6003); (6068, 6069);
   (6071, 6077); (6086, 6086); (6089, 6099); (6103, 6103); (6109, 6109);
   (6155, 6159); (6211, 6211); (6277, 6278); (6313, 6313); (6432, 6434);
   (6439, 6440); (6450, 6450); (6457, 6459); (6679, 6680); (6683, 6683);
   (6742, 6742); (6744, 6750); (6752, 6752); (6754, 6754); (6757, 6764);
   (6771, 6780); (6783, 6783); (6823, 6823); (6832, 6862); (6912, 6915);
   (6964, 6964); (6966, 6970); (6972, 6972); (6978, 6978); (7019, 7027);
   (7040, 7041); (7074, 7077); (7080, 7081); (7083, 7085); (7142, 7142);
   (7144, 7145); (7149, 7149); (7151, 7153); (7212, 7219); (7222, 7223);
   (7288, 7293); (7376, 7378); (7380, 7392); (7394, 7400); (7405, 7405);
   (7412, 7412); (7416, 7417); (7468, 7530); (7544, 7544); (7579, 7679);
   (8125, 8125); (8127, 8129); (8141, 8143); (8157, 8159); (8173, 8175);
   (8189, 8190); (8203, 8207); (8216, 8217); (8228, 8228); (8231, 8231);
   (8234, 8238); (8288, 8292); (8294, 8303); (8305, 8305); (8319, 8319);
   (8336, 8348); (8400, 8432); (11388, 11389); (11503, 11505);
   (11631, 11631); (11647, 11647); (11744, 11775); (11823, 11823);
   (12293, 12293); (12330, 12333); (12337, 12341); (12347, 12347);
   (12441, 12446); (12540, 12542); (40981, 40981); (42232, 42237);
   (42508, 42508); (42607, 42610); (42612, 42621); (42623, 42623);
   (42652, 42655); (42736, 42737); (42752, 42785); (42864, 42864);
   (42888, 42890); (42994, 42996); (43000, 43001); (43010, 43010);
   (43014, 43014); (43019, 43019); (43045, 43046); (43052, 43052);
   (43204, 43205); (43232, 43249); (43263, 43263); (43302, 43309);
   (43335, 43345); (43392, 43394); (43443, 43443); (43446, 43449);
   (43452, 43453); (43471, 43471); (43493, 43494); (43561, 43566);
   (43569, 43570); (43573, 43574); (43587, 43587); (43596, 43596);
   (43632, 43632); (43644, 43644); (43696, 43696); (43698, 43700);
   (43703, 43704); (43710, 43711); (43713, 43713); (43741, 43741);
   (43756, 43757); (43763, 43764); (43766, 43766); (43867, 43871);
   (43881, 43883); (44005, 44005); (44008, 44008); (44013, 44013);
   (64286, 64286); (64434, 64450); (65024, 65039); (65043, 65043);
   (65056, 65071); (65106, 65106); (65109, 65109); (65279, 65279);
   (65287, 65287); (65294, 65294); (65306, 65306); (65342, 65342);
   (65344, 65344); (65392, 65392); (65438, 65439); (65507, 65507);
   (65529, 65531); (66045, 66045); (66272, 66272); (66422, 66426);
   (67456, 67461); (67463, 67504); (67506, 67514); (68097, 68099);
   (68101, 68102); (68108, 68111); (68152, 68154); (68159, 68159);
   (68325, 68326); (68900, 68903); (69291, 69292); (69446, 69456);
   (69506, 69509); (69633, 69633); (69688, 69702); (69744, 69744);
   (69747, 69748); (69759, 69761); (69811, 69814); (69817, 69818);
   (69821, 69821); (69826, 69826); (69837, 69837); (69888, 69890);
   (69927, 69931); (69933, 69940); (70003, 70003); (70016, 70017);
   (70070, 70078); (70089, 70092); (70095, 70095); (70191, 70193);
   (70196, 70196); (70198, 70199); (70206, 70206); (70367, 70367);
   (70371, 70378); (70400, 70401); (70459, 70460); (70464, 70464);
   (70502, 70508); (70512, 70516); (70712, 70719); (70722, 70724);
   (70726, 70726); (70750, 70750); (70835, 70840); (70842, 70842);
   (70847, 70848); (70850, 70851); (71090, 71093); (71100, 71101);
   (71103, 71104); (71132, 71133); (71219, 71226); (71229, 71229);
   (71231, 71232); (71339, 71339); (71341, 71341); (71344, 71349);
   (71351, 71351); (71453, 71455); (71458, 71461); (71463, 71467);
   (71727, 71735); (71737, 71738); (71995, 71996); (71998, 71998);
   (72003, 72003); (72148, 72151); (72154, 72155); (72160, 72160);
   (72193, 72202); (72243, 72248); (72251, 72254); (72263, 72263);
   (72273, 72278); (72281, 72283); (72330, 72342); (72344, 72345);
   (72752, 72758); (72760, 72765); (72767, 72767); (72850, 72871);
   (72874, 72880); (72882, 72883); (72885, 72886); (73009, 73014);
   (73018, 73018); (73020, 73021); (73023, 73029); (73031, 73031);
   (73104, 73105); (73109, 73109); (73111, 73111); (73459, 73460);
   (78896, 78904); (92912, 92916); (92976, 92982); (92992, 92995);
   (94031, 94031); (94095, 94111); (94176, 94177); (94179, 94180);
   (110576, 110579); (110581, 110587); (110589, 110590); (113821, 113822);
   (113824, 113827); (118528, 118573); (118576, 118598); (119143, 119145);
   (119155, 119170); (119173, 119179); (119210, 119213); (119362, 119364);
   (121344, 121398); (121403, 121452); (121461, 121461); (121476, 121476);
   (121499, 121503); (121505, 121519); (122880, 122886); (122888, 122904);
   (122907, 122913); (122915, 122916); (122918, 122922); (123184, 123197);
   (123566, 123566); (123628, 123631); (125136, 125142); (125252, 125259);
   (127995, 127999); (917505, 917505); (917536, 917631); (917760, 917999)
  ].

Definition is_cased (p : Z) : bool := in_ranges p cased_ranges.
Definition is_ignorable (p : Z) : bool := in_ranges p ignorable_ranges.

(** The first code point that is not case-ignorable. *)
Fixpoint skip_ignorable (l : list Z) : option Z :=
  match l with
  | [] => None
  | p :: r => if is_ignorable p then skip_ignorable r else Some p
  end.

(** A capital sigma is in final position when a cased letter stands
    before it and none after it, case-ignorable characters apart.
    [before] is the text before it, last character first. *)
Definition final_sigma (before after : list Z) : bool :=
  match skip_ignorable before with
  | Some p =>
      is_cased p
      && match skip_ignorable after with
         | Some q => negb (is_cased q)
         | None => true
         end
  | None => false
  end.

Fixpoint lower_from (before : list Z) (l : list (list ascii)) : list ascii :=
  match l with
  | [] => []
  | g :: r =>
      let p := point g in
      (if p =? 931 then
         encode (if final_sigma before (map point r) then 962 else 963)
       else if p =? 304 then (encode 105 ++ encode 775)%list
       else match simple_lower p with
            | Some q => encode q
            | None => g
            end)
      ++ lower_from (p :: before) r
  end.

(** [s.lower()] *)
Definition lower (s : string) : string :=
  text (lower_from [] (characters (chars s))).

(** Python's [not s] for a string. *)
Definition is_empty (s : string) : bool :=
  match s with EmptyString => true | _ => false end.

(** [s1 <= s2] on strings: lexicographic on code points, which on
    UTF-8 text is the lexicographic order of the bytes. *)
Fixpoint leb (a b : list ascii) : bool :=
  match a, b with
  | [], _ => true
  | _ :: _, [] => false
  | x :: a', y :: b' =>
      if code x <? code y then true
      else if code y <? code x then false
      else leb a' b'
  end.

Definition str_leb (a b : string) : bool := leb (chars a) (chars b).

(** *** Numerals *)

(** Decimal digits of a natural number, zero padded to [width]. *)
Fixpoint digits_fuel (fuel : nat) (n : Z) (acc : list ascii) : list ascii :=
  match fuel with
  | O => acc
  | S f =>
      let acc' := ascii_of_nat (Z.to_nat (48 + n mod 10)) :: acc in
      if n / 10 =? 0 then acc' else digits_fuel f (n / 10) acc'
  end.

Definition decimal (n : Z) : list ascii :=
  digits_fuel (S (Z.to_nat (Z.log2 n))) n [].

Definition pad0 (width : nat) (l : list ascii) : list ascii :=
  repeat "0"%char (width - length l)%nat ++ l.

(** ["%0<width>d" % n] for [0 <= n]. *)
Definition zfill (width : nat) (n : Z) : string := text (pad0 width (decimal n)).

(** The decimal numeral of an integer. *)
Definition of_Z (n : Z) : string :=
  if n <? 0 then text ("-"%char :: decimal (- n)) else text (decimal n).

(** The line feed character. *)
Definition nl : string := String (ascii_of_nat 10) EmptyString.

(** [c * n] for a one-character string. *)
Definition rule (c : ascii) (n : nat) : string := text (repeat c n).

(** *** From text to ASCII

    [float] and [int] first bring their argument to ASCII
    ([_PyUnicode_TransformDecimalAndSpaceToASCII]): an ASCII text is
    taken as it is; in any other text whitespace becomes a space, a
    decimal digit the ASCII digit of its value, and the first
    character that is neither ends the text with a question mark. *)

Definition is_ascii (l : list ascii) : bool :=
  forallb (fun c => code c <? 128) l.

Fixpoint transform (l : list (list ascii)) : list ascii :=
  match l with
  | [] => []
  | g :: r =>
      let p := point g in
      if (0 <=? p) && (p <? 127) then byte p :: transform r
      else if is_space_point p then " "%char :: transform r
      else
        match decimal_value p with
        | Some d => byte (48 + d) :: transform r
        | None => ["?"%char]
        end
  end.

Definition to_ascii (s : string) : list ascii :=
  let l := chars s in
  if is_ascii l then l else transform (characters l).

Fixpoint c_lstrip (l : list ascii) : list ascii :=
  match l with
  | c :: r => if c_space c then c_lstrip r else l
  | [] => []
  end.

Definition c_strip (l : list ascii) : list ascii :=
  rev (c_lstrip (rev (c_lstrip l))).

End Text.

(** ** Floats

    A Python [float] is an IEEE 754 binary64 number.  It is modelled by
    the standard library's [spec_float] at precision 53 and maximal
    exponent 1024; arithmetic is the library's round-to-nearest-even
    arithmetic on that type. *)

Module PyFloat.

Definition float : Type := spec_float.

Definition prec : Z := 53.
Definition emax : Z := 1024.

Definition zero : float := S754_zero false.
Definition nan : float := S754_nan.
Definition inf (neg : bool) : float := S754_infinity neg.

(** [x + y] *)
Definition add (x y : float) : float := SFadd prec emax x y.

(** [x < y] *)
Definition ltb (x y : float) : bool := SFltb x y.

(** [x == y] *)
Definition eqb (x y : float) : bool := SFeqb x y.

(** The float nearest to [p / q], ties to even, signed by [neg]. *)
Definition of_ratio (neg : bool) (p q : positive) : float :=
  let '(mz, ez, lz) := SFdiv_core_binary prec emax (Zpos p) 0 (Zpos q) 0 in
  binary_round_aux prec emax neg mz ez lz.

(** The float nearest to [m * 10 ^ k], signed by [neg]. *)
Definition of_decimal (neg : bool) (m : Z) (k : Z) : float :=
  match m with
  | Zpos p =>
      if 0 <=? k then of_ratio neg (p * Z.to_pos (10 ^ k)) 1
      else of_ratio neg p (Z.to_pos (10 ^ (- k)))
  | _ => S754_zero neg
  end.

(** [float(n)] for a Python [int]: [OverflowError] when out of range. *)
Definition of_int (n : Z) : option float :=
  match binary_normalize prec emax n 0 false with
  | S754_infinity _ => None
  | f => Some f
  end.

(** The integer a float is equal to, when there is one. *)
Definition to_int (x : float) : option Z :=
  match x with
  | S754_zero _ => Some 0
  | S754_finite s m e =>
      let v := if s then Zneg m else Zpos m in
      if 0 <=? e then Some (v * 2 ^ e)
      else if Zpos m mod 2 ^ (- e) =? 0 then Some (v / 2 ^ (- e))
      else None
  | _ => None
  end.

(** [round(x, 2)]: the exact value of [x] is rounded to two decimals,
    halves to even, and the float nearest to that decimal is returned;
    zeros, infinities, NaN and floats that are integers are returned
    unchanged. *)
Definition round2 (x : float) : float :=
  match x with
  | S754_finite s m e =>
      if 0 <=? e then x
      else
        let den := 2 ^ (- e) in
        let num := Zpos m * 100 in
        let q := num / den in
        let r := num mod den in
        let n := match 2 * r ?= den with
                 | Lt => q
                 | Gt => q + 1
                 | Eq => if Z.even q then q else q + 1
                 end in
        of_decimal s n (-2)
  | _ => x
  end.

(** *** [float(s)] for a string

    The text is brought to ASCII; underscores are allowed between
    digits only and are dropped; the whitespace of the C library is
    stripped from both ends; what remains is an optional sign followed
    by [inf], [infinity], [nan] (in any case) or by a decimal numeral
    with an optional fraction and an optional exponent.  [None] stands
    for [ValueError]. *)

Import Text.

Fixpoint drop_underscores (prev : option ascii) (l : list ascii)
  : option (list ascii) :=
  match l with
  | [] =>
      match prev with
      | Some "_"%char => None
      | _ => Some []
      end
  | c :: r =>
      if Ascii.eqb c "_" then
        match prev with
        | Some p => if is_digit p then drop_underscores (Some c) r else None
        | None => None
        end
      else
        match prev with
        | Some "_"%char =>
            if is_digit c then option_map (cons c) (drop_underscores (Some c) r)
            else None
        | _ => option_map (cons c) (drop_underscores (Some c) r)
        end
  end.

Definition take_sign (l : list ascii) : bool * list ascii :=
  match l with
  | "-"%char :: r => (true, r)
  | "+"%char :: r => (false, r)
  | _ => (false, l)
  end.

(** Reads a run of digits: its value on top of [acc], its length, the rest. *)
Fixpoint take_digits (l : list ascii) (acc : Z) (n : nat)
  : Z * nat * list ascii :=
  match l with
  | c :: r =>
      if is_digit c then take_digits r (10 * acc + digit_val c) (S n)
      else (acc, n, l)
  | [] => (acc, n, [])
  end.

Definition parse_numeral (neg : bool) (l : list ascii) : option float :=
  let '(ip, ni, r1) := take_digits l 0 0%nat in
  let '(m, nf, r2) :=
    match r1 with
    | "."%char :: r' => take_digits r' ip 0%nat
    | _ => (ip, 0%nat, r1)
    end in
  if (ni + nf =? 0)%nat then None
  else
    match r2 with
    | [] => Some (of_decimal neg m (- Z.of_nat nf))
    | c :: r3 =>
        if Ascii.eqb (lower_char c) "e" then
          let '(eneg, r4) := take_sign r3 in
          let '(ev, ne, r5) := take_digits r4 0 0%nat in
          match ne, r5 with
          | S _, [] =>
              Some (of_decimal neg m ((if eneg then - ev else ev) - Z.of_nat nf))
          | _, _ => None
          end
        else None
    end.

Definition of_string (s : string) : option float :=
  match drop_underscores None (to_ascii s) with
  | None => None
  | Some l =>
      let '(neg, r) := take_sign (c_strip l) in
      let w := text (map lower_char r) in
      if String.eqb w "inf" || String.eqb w "infinity" then Some (inf neg)
      else if String.eqb w "nan" then Some nan
      else parse_numeral neg r
  end.

End PyFloat.

(** ** Integers

    [int(s)] for the text typed at a prompt, and the decimal numeral
    of an [int] in a formatted string. *)

Module PyInt.

Import Text.

(** [sys.get_int_max_str_digits()]: the most digits [int] reads and
    [str] writes. *)
Definition max_str_digits : nat := 4300.

(** The digits of a numeral, with single underscores between them:
    the value on top of [acc], the number of digits, the rest.  [None]
    for two underscores in a row or one at the end. *)
Fixpoint scan_digits (l : list ascii) (underscore : bool) (acc : Z) (n : nat)
  : option (Z * nat * list ascii) :=
  match l with
  | c :: r =>
      if is_digit c then scan_digits r false (10 * acc + digit_val c) (S n)
      else if Ascii.eqb c "_" then
        if underscore then None else scan_digits r true acc n
      else if underscore then None else Some (acc, n, l)
  | [] => if underscore then None else Some (acc, n, [])
  end.

(** [int(s)] for a string, in base 10: the text is brought to ASCII;
    between whitespace of the C library it is an optional sign and at
    least one digit.  [None] is [ValueError]. *)
Definition of_string (s : string) : option Z :=
  let '(neg, r) := PyFloat.take_sign (c_lstrip (to_ascii s)) in
  match r with
  | "_"%char :: _ => None
  | _ =>
      match scan_digits r false 0 0%nat with
      | Some (v, n, rest) =>
          match n, c_lstrip rest with
          | S _, [] =>
              if (n <=? max_str_digits)%nat
              then Some (if neg then - v else v)
              else None
          | _, _ => None
          end
      | None => None
      end
  end.

(** [str(n)], as in [f"{n}"]: [None] is the [ValueError] of an
    integer with more digits than the limit. *)
Definition to_string (n : Z) : option string :=
  if Z.abs n <? 10 ^ Z.of_nat max_str_digits then Some (of_Z n) else None.

End PyInt.

(** ** Dates

    [datetime.date] values, [datetime.strptime(s, "%Y-%m-%d").date()],
    [isoformat] and the [strftime] call of the backup name. *)

Module PyDate.

Import Text.

Record date := mkdate { year : Z; month : Z; day : Z }.

Definition is_leap (y : Z) : bool :=
  (y mod 4 =? 0) && (negb (y mod 100 =? 0) || (y mod 400 =? 0)).

Definition days_in_month (y m : Z) : Z :=
  match m with
  | 1 | 3 | 5 | 7 | 8 | 10 | 12 => 31
  | 4 | 6 | 9 | 11 => 30
  | 2 => if is_leap y then 29 else 28
  | _ => 0
  end.

(** What the [date] constructor accepts: [MINYEAR = 1], [MAXYEAR = 9999]. *)
Definition valid (y m d : Z) : bool :=
  (1 <=? y) && (y <=? 9999) && (1 <=? m) && (m <=? 12)
  && (1 <=? d) && (d <=? days_in_month y m).

(** [date.min] *)
Definition min : date := mkdate 1 1 1.

(** [a <= b] and [a < b] on dates. *)
Definition leb (a b : date) : bool :=
  if year a <? year b then true
  else if year b <? year a then false
  else if month a <? month b then true
  else if month b <? month a then false
  else day a <=? day b.

Definition ltb (a b : date) : bool := negb (leb b a).

(** [d.isoformat()] *)
Definition isoformat (d : date) : string :=
  zfill 4 (year d) ++ "-" ++ zfill 2 (month d) ++ "-" ++ zfill 2 (day d).

(** [strptime] matches the text against the regular expression of the
    format.  In it [\d] is any decimal digit, of whatever script, and
    a class such as [[0-2]] holds ASCII digits only.  The functions
    below work on code points: 48 to 57 are the digits 0 to 9, 45 is
    the hyphen and 32 the space. *)

(** The directive [%m]: [1[0-2]|0[1-9]|[1-9]], here followed by ["-"]. *)
Definition parse_month (l : list Z) : option (Z * list Z) :=
  match l with
  | c1 :: 45 :: r =>
      if in_range 49 57 c1 then Some (c1 - 48, r) else None
  | c1 :: c2 :: 45 :: r =>
      if ((c1 =? 49) && in_range 48 50 c2)
         || ((c1 =? 48) && in_range 49 57 c2)
      then Some (10 * (c1 - 48) + (c2 - 48), r)
      else None
  | _ => None
  end.

(** The directive [%d]: [3[0-1]|[1-2]\d|0[1-9]|[1-9]| [1-9]], which has
    to reach the end of the text. *)
Definition parse_day (l : list Z) : option Z :=
  match l with
  | [c1] => if in_range 49 57 c1 then Some (c1 - 48) else None
  | [c1; c2] =>
      if ((c1 =? 51) && in_range 48 49 c2)
         || ((c1 =? 48) && in_range 49 57 c2)
      then Some (10 * (c1 - 48) + (c2 - 48))
      else if in_range 49 50 c1 then
        match decimal_value c2 with
        | Some d2 => Some (10 * (c1 - 48) + d2)
        | None => None
        end
      else if (c1 =? 32) && in_range 49 57 c2 then Some (c2 - 48)
      else None
  | _ => None
  end.

(** [datetime.strptime(s, "%Y-%m-%d").date()]; [None] is [ValueError].
    The year is [\d\d\d\d]. *)
Definition strptime (s : string) : option date :=
  match points s with
  | y1 :: y2 :: y3 :: y4 :: 45 :: r =>
      match decimal_value y1, decimal_value y2,
            decimal_value y3, decimal_value y4 with
      | Some d1, Some d2, Some d3, Some d4 =>
          let y := 1000 * d1 + 100 * d2 + 10 * d3 + d4 in
          match parse_month r with
          | Some (m, r') =>
              match parse_day r' with
              | Some d => if valid y m d then Some (mkdate y m d) else None
              | None => None
              end
          | None => None
          end
      | _, _, _, _ => None
      end
  | _ => None
  end.

(** [datetime.now()] as the program sees it. *)
Record datetime := mkdatetime {
  on : date; hour : Z; minute : Z; second : Z; microsecond : Z }.

(** [dt.strftime("%Y%m%d_%H%M%S")], for a year of four digits. *)
Definition strftime_compact (t : datetime) : string :=
  zfill 4 (year (on t)) ++ zfill 2 (month (on t)) ++ zfill 2 (day (on t))
  ++ "_" ++ zfill 2 (hour t) ++ zfill 2 (minute t) ++ zfill 2 (second t).

(** [dt.isoformat()] *)
Definition datetime_isoformat (t : datetime) : string :=
  isoformat (on t) ++ "T" ++ zfill 2 (hour t) ++ ":" ++ zfill 2 (minute t)
  ++ ":" ++ zfill 2 (second t)
  ++ (if microsecond t =? 0 then "" else "." ++ zfill 6 (microsecond t)).

(** [calendar.month_name[m]] for [1 <= m <= 12]. *)
Definition month_name (m : Z) : string :=
  match m with
  | 1 => "January" | 2 => "February" | 3 => "March" | 4 => "April"
  | 5 => "May" | 6 => "June" | 7 => "July" | 8 => "August"
  | 9 => "September" | 10 => "October" | 11 => "November"
  | 12 => "December" | _ => ""
  end.

End PyDate.

(** ** JSON values

    What [json.load] returns and [json.dump] accepts.  An object is the
    list of its members in insertion order; a [dict] has no two members
    with the same key.  An integer of a document has no more digits
    than [int] reads: [json.load] raises on a longer numeral. *)

Inductive json :=
| JNull
| JBool (b : bool)
| JInt (n : Z)
| JFloat (x : PyFloat.float)
| JStr (s : string)
| JArr (items : list json)
| JObj (members : list (string * json)).

Module Json.

Fixpoint assoc {A} (k : string) (l : list (string * A)) : option A :=
  match l with
  | [] => None
  | (k', v) :: r => if String.eqb k k' then Some v else assoc k r
  end.

(** [e.get(k, default)]; [None] is the [AttributeError] of a value that
    is not a [dict]. *)
Definition get (e : json) (k : string) (default : json) : option json :=
  match e with
  | JObj members =>
      Some match assoc k members with Some v => v | None => default end
  | _ => None
  end.

(** [e[k]] for a string [k]; [None] is [KeyError], [TypeError] or
    [IndexError]. *)
Definition item (e : json) (k : string) : option json :=
  match e with
  | JObj members => assoc k members
  | _ => None
  end.

(** [float(v)]; [None] is [ValueError], [TypeError] or [OverflowError]. *)
Definition to_float (v : json) : option PyFloat.float :=
  match v with
  | JFloat x => Some x
  | JInt n => PyFloat.of_int n
  | JBool b => PyFloat.of_int (if b then 1 else 0)
  | JStr s => PyFloat.of_string s
  | JNull | JArr _ | JObj _ => None
  end.

(** [for e in v]: the items of a list, the characters of a string, the
    keys of a dict; [None] is [TypeError]. *)
Definition iter (v : json) : option (list json) :=
  match v with
  | JArr l => Some l
  | JStr s => Some (map (fun g => JStr (Text.text g))
                        (Text.characters (Text.chars s)))
  | JObj members => Some (map (fun kv => JStr (fst kv)) members)
  | JNull | JBool _ | JInt _ | JFloat _ => None
  end.

(** [isinstance(v, list)] *)
Definition is_list (v : json) : bool :=
  match v with JArr _ => true | _ => false end.

(** [format(v, "10")], as in [f"{d:10}"], is defined on strings and
    numbers and raises [TypeError] on the rest. *)
Definition formattable (v : json) : bool :=
  match v with
  | JStr _ | JInt _ | JFloat _ | JBool _ => true
  | JNull | JArr _ | JObj _ => false
  end.

End Json.

(** ** Sorting

    [sorted(l, key=f)] is a stable sort: elements with equal keys keep
    their order.  On keys that are totally ordered it is the insertion
    sort below. *)

Section Sorted.
Context {A K : Type}.
Variable key : A -> K.
Variable leb : K -> K -> bool.

Fixpoint insert_by (x : A) (l : list A) : list A :=
  match l with
  | [] => [x]
  | y :: r => if leb (key x) (key y) then x :: y :: r
              else y :: insert_by x r
  end.

Definition sorted_by (l : list A) : list A := fold_right insert_by [] l.

(** [x] may stand before [y]: its key is not greater. *)
Definition key_le (x y : A) : Prop := leb (key x) (key y) = true.
End Sorted.

(** ** The monthly summary dictionary

    [summary] is a Python [dict] from category to running total.  A
    [dict] keeps its keys in insertion order, and assigning to a key it
    already has keeps the key where it is.  Keys are the hashable JSON
    values; numbers that are equal are one key ([True == 1 == 1.0]).
    [json.load] returns one and the same object for every NaN of a
    document, and a [dict] finds a key that is the object looked up:
    NaN is one key. *)

Module Summary.

Inductive key :=
| KNull
| KNum (n : Z)
| KFloat (x : PyFloat.float)
| KStr (s : string).

(** [None] is the [TypeError] of an unhashable value. *)
Definition to_key (v : json) : option key :=
  match v with
  | JNull => Some KNull
  | JBool b => Some (KNum (if b then 1 else 0))
  | JInt n => Some (KNum n)
  | JFloat x => Some match PyFloat.to_int x with
                     | Some n => KNum n
                     | None => KFloat x
                     end
  | JStr s => Some (KStr s)
  | JArr _ | JObj _ => None
  end.

Definition key_eqb (a b : key) : bool :=
  match a, b with
  | KNull, KNull => true
  | KNum m, KNum n => m =? n
  | KFloat x, KFloat y =>
      match x, y with
      | S754_nan, S754_nan => true
      | _, _ => PyFloat.eqb x y
      end
  | KStr s, KStr t => String.eqb s t
  | _, _ => false
  end.

Definition t : Type := list (key * PyFloat.float).

(** [summary.get(k, default)] *)
Fixpoint get (d : t) (k : key) (default : PyFloat.float) : PyFloat.float :=
  match d with
  | [] => default
  | (k', v) :: r => if key_eqb k k' then v else get r k default
  end.

(** [summary[k] = v] *)
Fixpoint set (d : t) (k : key) (v : PyFloat.float) : t :=
  match d with
  | [] => [(k, v)]
  | (k', v') :: r => if key_eqb k k' then (k', v) :: r
                     else (k', v') :: set r k v
  end.

(** [k.lower()]; [None] is the [AttributeError] of a key that is not a
    string. *)
Definition key_lower (k : key) : option string :=
  match k with
  | KStr s => Some (Text.lower s)
  | _ => None
  end.

Definition is_str (k : key) : bool :=
  match k with KStr _ => true | _ => false end.

(** The member name [json.dump] writes for a key. Only string keys
    reach an export: see [display]. *)
Definition key_text (k : key) : string :=
  match k with
  | KStr s => s
  | KNull => "null"
  | KNum n => Text.of_Z n
  | KFloat _ => ""
  end.

End Summary.

(** ** The world the program runs in

    The working directory with its files, the console, and the clock.

    A file that holds JSON text is represented by the value [json.load]
    reads from it, and [json.dump] of a value leaves the file holding
    that value: the [json] module's encoder and decoder are taken to be
    inverse to each other on the values of type [json].  Everything
    [json.load] rejects is [Garbage].  A CSV file is represented by the
    rows given to [csv.writer]. *)

Inductive exn :=
| OSError          (* FileNotFoundError, PermissionError *)
| ValueError       (* json.JSONDecodeError, UnicodeDecodeError *)
| TypeError
| AttributeError
| EOFError.

Inductive cell :=
| CKey (k : Summary.key)
| CText (s : string)
| CNum (x : PyFloat.float).

Inductive content :=
| Garbage (raw : string)
| JsonText (v : json)
| CsvText (rows : list (list cell)).

Record file := mkfile { data : content; readable : bool; writable : bool }.

(** What the program prints.  Lines whose text formats a float are
    kept as the values they are formatted from. *)
Inductive printed :=
| Line (s : string)
| Report (s : string) (e : exn)
| Prompt (s : string)
| ExpenseRow (d c : json) (amt : PyFloat.float) (desc : json)
| ExpenseTotal (total : PyFloat.float)
| SummaryRow (cat : string) (amt : PyFloat.float)
| SummaryTotal (total : PyFloat.float).

Record world := mkworld {
  files : gmap string file;       (* the working directory *)
  dir_writable : bool;            (* may entries be created or renamed *)
  stdin : list string;            (* the lines still to be typed *)
  stdout : list printed;          (* what was printed, oldest first *)
  now : PyDate.datetime           (* datetime.now() *)
}.

Definition set_files (f : gmap string file) (w : world) : world :=
  mkworld f (dir_writable w) (stdin w) (stdout w) (now w).

Definition set_stdin (l : list string) (w : world) : world :=
  mkworld (files w) (dir_writable w) l (stdout w) (now w).

Definition set_stdout (l : list printed) (w : world) : world :=
  mkworld (files w) (dir_writable w) (stdin w) l (now w).

Inductive result (A : Type) :=
| Returned (a : A)
| Raised (e : exn).
Arguments Returned {A} a.
Arguments Raised {A} e.

(** A computation that may change the world and may raise. *)
Definition io (A : Type) : Type := world -> result A * world.

Definition ret {A} (a : A) : io A := fun w => (Returned a, w).

Definition raise {A} (e : exn) : io A := fun w => (Raised e, w).

Definition bind {A B} (m : io A) (k : A -> io B) : io B :=
  fun w =>
    match m w with
    | (Returned a, w') => k a w'
    | (Raised e, w') => (Raised e, w')
    end.

(** [try: m  except Exception: ...]: the outcome of [m] as a value. *)
Definition attempt {A} (m : io A) : io (result A) :=
  fun w => let '(r, w') := m w in (Returned r, w').

Notation "'let*' x ':=' m 'in' k" := (bind m (fun x => k))
  (at level 10, x pattern, m at level 100, k at level 200).
Notation "m ';;' k" := (bind m (fun _ => k))
  (at level 100, k at level 200, right associativity).

Definition lift {A} (r : result A) : io A := fun w => (r, w).

Definition of_option {A} (e : exn) (o : option A) : result A :=
  match o with Some a => Returned a | None => Raised e end.

(** [print(...)] *)
Definition print (p : printed) : io unit :=
  fun w => (Returned tt, set_stdout (stdout w ++ [p]) w).

(** [input(prompt)]: [EOFError] when the console has no line left. *)
Definition input (prompt : string) : io string :=
  fun w =>
    let w := set_stdout (stdout w ++ [Prompt prompt]) w in
    match stdin w with
    | [] => (Raised EOFError, w)
    | l :: r => (Returned l, set_stdin r w)
    end.

(** [datetime.now()] *)
Definition get_now : io PyDate.datetime := fun w => (Returned (now w), w).

Fixpoint for_each {A} (l : list A) (body : A -> io unit) : io unit :=
  match l with
  | [] => ret tt
  | x :: r => body x ;; for_each r body
  end.

(** *** Files *)

(** [os.path.exists(name)] *)
Definition path_exists (name : string) : io bool :=
  fun w => (Returned (bool_decide (is_Some (files w !! name))), w).

(** [with open(name, "r") as f: json.load(f)] *)
Definition read_json (name : string) : io json :=
  fun w =>
    match files w !! name with
    | Some f =>
        if readable f then
          match data f with
          | JsonText v => (Returned v, w)
          | _ => (Raised ValueError, w)
          end
        else (Raised OSError, w)
    | None => (Raised OSError, w)
    end.

(** [with open(name, "w") as f: ...] writing [c]: an existing file
    needs to be writable, a new one needs a writable directory. *)
Definition write_file (name : string) (c : content) : io unit :=
  fun w =>
    match files w !! name with
    | Some f =>
        if writable f
        then (Returned tt,
              set_files (<[name := mkfile c (readable f) true]> (files w)) w)
        else (Raised OSError, w)
    | None =>
        if dir_writable w
        then (Returned tt, set_files (<[name := mkfile c true true]> (files w)) w)
        else (Raised OSError, w)
    end.

(** [os.rename(src, dst)] *)
Definition rename (src dst : string) : io unit :=
  fun w =>
    match files w !! src with
    | Some f =>
        if dir_writable w
        then (Returned tt, set_files (<[dst := f]> (delete src (files w))) w)
        else (Raised OSError, w)
    | None => (Raised OSError, w)
    end.

(** ** The program

    The functions of [expense_tracker.py], without the [log_and_time]
    decorator around them (its timing lines and its [app_log.txt] are
    not part of the model). *)

Definition EXPENSES_FILE : string := "expenses.json".

Definition empty_document : content := JsonText (JArr []).

(** *** JSON storage helpers *)

Definition backup_name (t : PyDate.datetime) : string :=
  "expenses_corrupted_backup_" ++ PyDate.strftime_compact t ++ ".json".

Definition ensure_expenses_file : io unit :=
  let* present := path_exists EXPENSES_FILE in
  if negb present then
    write_file EXPENSES_FILE empty_document
  else
    let* checked :=
      attempt (let* data := read_json EXPENSES_FILE in
               if negb (Json.is_list data) then raise ValueError else ret tt) in
    match checked with
    | Returned _ => ret tt
    | Raised _ =>
        (let* moved :=
           attempt (let* ts := get_now in
                    let name := backup_name ts in
                    rename EXPENSES_FILE name ;;
                    print (Line ("Corrupted expenses.json moved to " ++ name
                                 ++ ". Created new expenses.json."))) in
         match moved with
         | Returned _ => ret tt
         | Raised _ =>
             print (Line "Could not move corrupted expenses.json; attempting to overwrite.")
         end) ;;
        write_file EXPENSES_FILE empty_document
    end.

Definition load_expenses : io json :=
  ensure_expenses_file ;;
  read_json EXPENSES_FILE.

Definition save_expenses (expenses : json) : io unit :=
  write_file EXPENSES_FILE (JsonText expenses).

(** *** [add_expense] *)

(** The arguments of [add_expense]: [None] for an argument left out.
    The amount is given as text ([str(amount)] of a string is the
    string). *)
Record expense_args := mkargs {
  arg_date : option string;
  arg_category : option string;
  arg_amount : option string;
  arg_description : option string
}.

(** Python's [not s] for an optional string. *)
Definition falsy (o : option string) : bool :=
  match o with
  | None => true
  | Some s => Text.is_empty s
  end.

Definition or_empty (o : option string) : string :=
  match o with Some s => s | None => "" end.

(** [date.today().isoformat()] *)
Definition today : io string :=
  let* t := get_now in ret (PyDate.isoformat (PyDate.on t)).

(** Lines 93 to 138: from the arguments to the entry, or to the message
    of the rejection ([inl]; the function then returns [False]). *)
Definition build_entry (a : expense_args) : io (string + json) :=
  (* Date *)
  let* date_str :=
    if falsy (arg_date a) then
      let* user_input := input "Enter date (YYYY-MM-DD) or press Enter for today: " in
      let user_input := Text.strip user_input in
      if Text.is_empty user_input then today else ret user_input
    else ret (Text.strip (or_empty (arg_date a))) in
  match PyDate.strptime date_str with
  | None => ret (inl "Invalid date format. Expected YYYY-MM-DD. Expense not added.")
  | Some parsed_date =>
      (* Category *)
      let* category :=
        if falsy (arg_category a) then
          let* typed := input "Enter category (e.g., Food, Travel, Shopping, Bills): " in
          ret (Text.strip typed)
        else ret (or_empty (arg_category a)) in
      let category := if Text.is_empty category then "Misc" else category in
      (* Amount *)
      let* amount_str :=
        match arg_amount a with
        | None => let* typed := input "Enter amount: " in ret (Text.strip typed)
        | Some s => ret s
        end in
      match PyFloat.of_string amount_str with
      | None =>
          ret (inl "Invalid amount. Please enter a numeric non-negative value. Expense not added.")
      | Some amt =>
          if PyFloat.ltb amt PyFloat.zero then
            ret (inl "Invalid amount. Please enter a numeric non-negative value. Expense not added.")
          else
            (* Description *)
            let* description :=
              match arg_description a with
              | None => let* typed := input "Enter description (optional): " in
                        ret (Text.strip typed)
              | Some s => ret s
              end in
            ret (inr (JObj [("date", JStr (PyDate.isoformat parsed_date));
                            ("category", JStr category);
                            ("amount", JFloat (PyFloat.round2 amt));
                            ("description", JStr description)]))
      end
  end.

(** [expenses.append(entry)] *)
Definition append (expenses entry : json) : result json :=
  match expenses with
  | JArr l => Returned (JArr (l ++ [entry]))
  | _ => Raised AttributeError
  end.

Definition add_expense (a : expense_args) : io bool :=
  let* built := build_entry a in
  match built with
  | inl message => print (Line message) ;; ret false
  | inr entry =>
      let* saved :=
        attempt (let* expenses := load_expenses in
                 let* expenses := lift (append expenses entry) in
                 save_expenses expenses ;;
                 print (Line "✅ Expense added successfully!")) in
      match saved with
      | Returned _ => ret true
      | Raised e => print (Report "Failed to save expense:" e) ;; ret false
      end
  end.

(** *** [view_expenses] *)

(** The sort key: the date of the entry, [date.min] when anything goes
    wrong in getting it. *)
Definition parse_safe (d : json) : PyDate.date :=
  match Json.item d "date" with
  | Some (JStr s) =>
      match PyDate.strptime s with
      | Some parsed => parsed
      | None => PyDate.min
      end
  | _ => PyDate.min
  end.

(** [sorted(expenses, key=parse_safe)] on the items of [expenses]. *)
Definition sort_for_display (expenses : list json) : list json :=
  sorted_by parse_safe PyDate.leb expenses.

(** The amount a row shows: [float(e.get("amount", 0.0))], and [0.0]
    when that raises. *)
Definition amount_or_zero (e : json) : PyFloat.float :=
  match Json.get e "amount" (JFloat PyFloat.zero) with
  | Some a =>
      match Json.to_float a with
      | Some amt => amt
      | None => PyFloat.zero
      end
  | None => PyFloat.zero
  end.

Definition table_header : string :=
  "Date       | Category     | Amount     | Description".

(** The loop over the sorted entries: prints one row each and returns
    the total. *)
Fixpoint print_rows (l : list json) (total : PyFloat.float)
  : io PyFloat.float :=
  match l with
  | [] => ret total
  | e :: r =>
      let* d := lift (of_option AttributeError (Json.get e "date" (JStr ""))) in
      let* c := lift (of_option AttributeError (Json.get e "category" (JStr ""))) in
      let* desc := lift (of_option AttributeError (Json.get e "description" (JStr ""))) in
      let amt := amount_or_zero e in
      let total := PyFloat.add total amt in
      if Json.formattable d && Json.formattable c then
        print (ExpenseRow d c amt desc) ;;
        print_rows r total
      else raise TypeError
  end.

Definition view_expenses : io unit :=
  let* loaded := attempt load_expenses in
  match loaded with
  | Raised e => print (Report "Could not read expenses:" e)
  | Returned expenses =>
      let* items := lift (of_option TypeError (Json.iter expenses)) in
      let expenses_sorted := sort_for_display items in
      match expenses_sorted with
      | [] => print (Line "No expenses recorded yet.")
      | _ =>
          let line := Text.rule "-" (String.length table_header) in
          print (Line line) ;;
          print (Line table_header) ;;
          print (Line line) ;;
          let* total := print_rows expenses_sorted PyFloat.zero in
          print (Line line) ;;
          print (ExpenseTotal total) ;;
          print (Line "")
      end
  end.

(** *** [generate_monthly_summary] *)

(** One turn of the aggregation loop of lines 240 to 253. *)
Definition aggregate_step (month year : Z)
  (acc : Summary.t * PyFloat.float) (e : json)
  : result (Summary.t * PyFloat.float) :=
  let '(summary, total) := acc in
  match Json.get e "date" (JStr "") with
  | None => Raised AttributeError
  | Some d_str =>
      match match d_str with
            | JStr s => PyDate.strptime s
            | _ => None
            end with
      | None => Returned acc
      | Some d =>
          if (PyDate.year d =? year) && (PyDate.month d =? month) then
            match Json.get e "category" (JStr "Misc") with
            | None => Raised AttributeError
            | Some category =>
                let amt := amount_or_zero e in
                match Summary.to_key category with
                | None => Raised TypeError
                | Some k =>
                    Returned
                      (Summary.set summary k
                         (PyFloat.add (Summary.get summary k PyFloat.zero) amt),
                       PyFloat.add total amt)
                end
            end
          else Returned acc
      end
  end.

Fixpoint aggregate_loop (month year : Z) (l : list json)
  (acc : Summary.t * PyFloat.float) : result (Summary.t * PyFloat.float) :=
  match l with
  | [] => Returned acc
  | e :: r =>
      match aggregate_step month year acc e with
      | Returned acc' => aggregate_loop month year r acc'
      | Raised x => Raised x
      end
  end.

(** Lines 237 to 253: the summary and the total of a month. *)
Definition aggregate (expenses : json) (month year : Z)
  : result (Summary.t * PyFloat.float) :=
  match Json.iter expenses with
  | None => Raised TypeError
  | Some l => aggregate_loop month year l ([], PyFloat.zero)
  end.

(** [sorted(summary.items(), key=lambda x: x[0].lower())]: the keys are
    computed first, and a key that is not a string raises. *)
Fixpoint lowered (d : Summary.t) : option (list (string * (string * PyFloat.float))) :=
  match d with
  | [] => Some []
  | (k, v) :: r =>
      match k, lowered r with
      | Summary.KStr s, Some r' => Some ((Text.lower s, (s, v)) :: r')
      | _, _ => None
      end
  end.

Definition display (d : Summary.t) : option (list (string * PyFloat.float)) :=
  match lowered d with
  | Some l => Some (map snd (sorted_by fst Text.str_leb l))
  | None => None
  end.

Definition summary_json (month year : Z) (summary : Summary.t)
  (total : PyFloat.float) (generated_at : PyDate.datetime) : json :=
  JObj [("month", JInt month);
        ("month_name", JStr (PyDate.month_name month));
        ("year", JInt year);
        ("categories",
          JObj (map (fun kv => (Summary.key_text (fst kv),
                                JFloat (PyFloat.round2 (snd kv)))) summary));
        ("total", JFloat (PyFloat.round2 total));
        ("generated_at", JStr (PyDate.datetime_isoformat generated_at))].

Definition summary_csv (summary : Summary.t) (total : PyFloat.float)
  : list (list cell) :=
  [CText "Category"; CText "Amount"]
  :: map (fun kv => [CKey (fst kv); CNum (PyFloat.round2 (snd kv))]) summary
  ++ [[]; [CText "Total"; CNum (PyFloat.round2 total)]].

Definition is_nil {A} (l : list A) : bool :=
  match l with [] => true | _ => false end.

(** [f"{year}"] inside a formatted string. *)
Definition format_year (year : Z) : io string :=
  lift (of_option ValueError (PyInt.to_string year)).

(** Lines 255 to 265: the summary on the console. *)
Definition show_summary (month year : Z) (summary : Summary.t)
  (total : PyFloat.float) : io unit :=
  let* year_text := format_year year in
  let title := "===== Monthly Summary: " ++ PyDate.month_name month ++ " "
               ++ year_text ++ " =====" in
  print (Line (Text.nl ++ title)) ;;
  if is_nil summary then print (Line "No expenses found for this month.")
  else
    let* rows := lift (of_option AttributeError (display summary)) in
    for_each rows (fun row => print (SummaryRow (fst row) (snd row))) ;;
    print (Line (Text.rule "-" (String.length title))) ;;
    print (SummaryTotal total).

(** Lines 269 to 283: the JSON export. *)
Definition export_summary_json (month year : Z) (summary : Summary.t)
  (total : PyFloat.float) : io unit :=
  let* generated_at := get_now in
  let out := summary_json month year summary total generated_at in
  let* year_text := format_year year in
  let filename := "summary_" ++ PyDate.month_name month ++ "_"
                  ++ year_text ++ ".json" in
  let* written := attempt (write_file filename (JsonText out)) in
  match written with
  | Returned _ => print (Line ("Summary exported to '" ++ filename ++ "'"))
  | Raised e => print (Report "Failed to export JSON summary:" e)
  end.

(** Lines 286 to 297: the CSV export. *)
Definition export_summary_csv (month year : Z) (summary : Summary.t)
  (total : PyFloat.float) : io unit :=
  let* year_text := format_year year in
  let filename := "summary_" ++ PyDate.month_name month ++ "_"
                  ++ year_text ++ ".csv" in
  let* written := attempt (write_file filename
                             (CsvText (summary_csv summary total))) in
  match written with
  | Returned _ => print (Line ("CSV summary exported to '" ++ filename ++ "'"))
  | Raised e => print (Report "Failed to export CSV summary:" e)
  end.

(** [generate_monthly_summary] called with a month and a year that are
    integers (the prompt of lines 206 to 219 is for a call without
    them). *)
Definition generate_monthly_summary (month year : Z)
  (export_json export_csv : bool) : io unit :=
  if negb ((1 <=? month) && (month <=? 12)) then
    print (Line "Invalid month/year provided.")
  else
    let* loaded := attempt load_expenses in
    match loaded with
    | Raised e => print (Report "Could not read expenses:" e)
    | Returned expenses =>
        let* (summary, total) := lift (aggregate expenses month year) in
        show_summary month year summary total ;;
        (if export_json && negb (is_nil summary)
         then export_summary_json month year summary total
         else ret tt) ;;
        (if export_csv && negb (is_nil summary)
         then export_summary_csv month year summary total
         else ret tt)
    end.

(** ** The interactive callers

    The prompt of [generate_monthly_summary] for a call without month
    or year, and the menu loop of [main]. *)

Definition month_year_prompt : string := "Enter month and year (MM YYYY): ".

Definition invalid_month_year : printed :=
  Line "Invalid input. Expected: MM YYYY (e.g., 11 2025).".

(** [generate_monthly_summary(month, year, export_json, export_csv)]
    with lines 206 to 219: when the month or the year is [None], both
    are read from one line of the console. *)
Definition generate_monthly_summary_call (month year : option Z)
  (export_json export_csv : bool) : io unit :=
  match month, year with
  | Some m, Some y => generate_monthly_summary m y export_json export_csv
  | _, _ =>
      let* user := input month_year_prompt in
      let user := Text.strip user in
      if Text.is_empty user then print (Line "No month/year provided.")
      else
        match Text.split user with
        | [a; b] =>
            match PyInt.of_string a, PyInt.of_string b with
            | Some m, Some y =>
                generate_monthly_summary m y export_json export_csv
            | _, _ => print invalid_month_year
            end
        | _ => print invalid_month_year
        end
  end.

(** The menu [main] prints before it asks for a choice. *)
Definition menu : list printed :=
  [Line "===== Smart Expense Tracker =====";
   Line "1. Add Expense";
   Line "2. View All Expenses";
   Line "3. Generate Monthly Summary";
   Line "4. Exit";
   Line "--------------------------------"].

(** Choice 3: the two questions about the exports, then the summary. *)
Definition summary_choice : io unit :=
  let* export_csv_input := input "Export summary as JSON? (Y/n) [default Y]: " in
  let export_json_flag :=
    negb (String.eqb (Text.lower (Text.strip export_csv_input)) "n") in
  let* csv_input :=
    if export_json_flag then input "Also export CSV? (y/N) [default N]: "
    else input "Export CSV summary? (y/N) [default N]: " in
  let export_csv_flag := String.eqb (Text.lower (Text.strip csv_input)) "y" in
  generate_monthly_summary_call None None export_json_flag export_csv_flag.

(** The [while True] loop of [main].  Every turn reads a line, so a
    turn count above the number of lines left on the console is never
    used up: see [main_loop_turns].  The three operations are called
    as everywhere in the model, without the lines and the log of
    [log_and_time]. *)
Fixpoint main_loop (turns : nat) : io unit :=
  match turns with
  | O => raise EOFError
  | S turns' =>
      for_each menu print ;;
      let* choice := input "Enter your choice: " in
      let choice := Text.strip choice in
      if String.eqb choice "1" then
        add_expense (mkargs None None None None) ;; main_loop turns'
      else if String.eqb choice "2" then
        view_expenses ;; main_loop turns'
      else if String.eqb choice "3" then
        summary_choice ;; main_loop turns'
      else if String.eqb choice "4" then
        print (Line "Goodbye!")
      else
        print (Line "Invalid choice. Please enter 1-4.") ;; main_loop turns'
  end.

Definition main : io unit :=
  ensure_expenses_file ;;
  fun w => main_loop (S (length (stdin w))) w.

(** * Vocabulary of the properties

    The predicates and functions the statements below are written
    with, and the concrete worlds they are exercised on. *)

(** ** Worlds and literals *)

(** The text of one character, given by its code point. *)
Definition uchar (p : Z) : string := Text.text (Text.encode p).

(** NO-BREAK SPACE, EM SPACE and the control character FILE SEPARATOR,
    which [str.strip] removes; the C library takes none of them for
    whitespace. *)
Definition nbsp : string := uchar 160.
Definition em_space : string := uchar 8195.
Definition file_separator : string := uchar 28.

(** The numerals 12 in Arabic-Indic digits and 2025 in full-width
    digits. *)
Definition arabic_twelve : string := uchar 1633 ++ uchar 1634.
Definition fullwidth_2025 : string :=
  uchar 65298 ++ uchar 65296 ++ uchar 65298 ++ uchar 65301.

(** The title line and the names of the export files, for a year that
    can be written. *)
Definition summary_title (month year : Z) : string :=
  "===== Monthly Summary: " ++ PyDate.month_name month ++ " "
  ++ Text.of_Z year ++ " =====".

Definition json_filename (month year : Z) : string :=
  "summary_" ++ PyDate.month_name month ++ "_" ++ Text.of_Z year ++ ".json".

Definition csv_filename (month year : Z) : string :=
  "summary_" ++ PyDate.month_name month ++ "_" ++ Text.of_Z year ++ ".csv".

(** The year can be written in a formatted string: it has no more
    than 4300 digits, as every calendar year has. *)
Definition formattable_year (year : Z) : Prop := Z.abs year < 10 ^ 4300.

(** A year of 4301 digits. *)
Definition unwritable_year : Z := 10 ^ 4300.

(** An empty, writable directory and a silent console. *)
Definition no_files : world :=
  mkworld ∅ true [] []
    (PyDate.mkdatetime (PyDate.mkdate 2025 11 3) 9 5 7 0).

(** The float a decimal literal denotes. *)
Definition lit (s : string) : PyFloat.float :=
  match PyFloat.of_string s with
  | Some x => x
  | None => PyFloat.nan
  end.

Definition record (d c : string) (amount : json) : json :=
  JObj [("date", JStr d); ("category", JStr c); ("amount", amount)].

(** The collection of the example, with the amounts as the program
    stores them (floats) and as a hand-written document may have them
    (integers). *)
Definition example_collection : json :=
  JArr [record "2025-01-05" "Food" (JFloat (lit "100"));
        record "2025-01-20" "Food" (JFloat (lit "50"));
        record "2025-02-01" "Travel" (JFloat (lit "30"))].

(** The same collection with integer amounts. *)
Definition example_collection_int : json :=
  JArr [record "2025-01-05" "Food" (JInt 100);
        record "2025-01-20" "Food" (JInt 50);
        record "2025-02-01" "Travel" (JInt 30)].

(** ** Initialisation and recovery *)

(** The document is a readable JSON list. *)
Definition holds_list (f : file) : bool :=
  readable f && match data f with JsonText (JArr _) => true | _ => false end.

(** The states in which initialisation can do its work: there is no
    document and the directory is writable, or the document is in
    order, or it is not and can be moved away or overwritten. *)
Definition can_initialize (w : world) : bool :=
  match files w !! EXPENSES_FILE with
  | None => dir_writable w
  | Some f => holds_list f || dir_writable w || writable f
  end.

(** What the recovery prints. *)
Definition recovery_report (w : world) : list printed :=
  match files w !! EXPENSES_FILE with
  | None => []
  | Some f =>
      if holds_list f then []
      else if dir_writable w then
        [Line ("Corrupted expenses.json moved to " ++ backup_name (now w)
               ++ ". Created new expenses.json.")]
      else
        [Line "Could not move corrupted expenses.json; attempting to overwrite."]
  end.

(** 3 November 2025, 09:05:07. *)
Definition clock : PyDate.datetime :=
  PyDate.mkdatetime (PyDate.mkdate 2025 11 3) 9 5 7 0.

(** A directory that cannot be written, without a document. *)
Definition read_only_dir : world := mkworld ∅ false [] [] clock.

(** A corrupted, write-protected document in such a directory. *)
Definition locked_corrupted : world :=
  mkworld {[ EXPENSES_FILE := mkfile (Garbage "{") true false ]}
          false [] [] clock.

(** The content is something other than a JSON list: text that
    [json.load] rejects, or JSON that is not a list. *)
Definition corrupted (c : content) : bool :=
  match c with
  | JsonText (JArr _) => false
  | _ => true
  end.

(** A document that [json.load] rejects, in a writable directory. *)
Definition corrupted_world : world :=
  mkworld {[ EXPENSES_FILE := mkfile (Garbage "{oops") true true ]}
          true [] [] clock.

(** The same document where it can be written but not renamed: the
    directory is write-protected. *)
Definition unmovable_corrupted : world :=
  mkworld {[ EXPENSES_FILE := mkfile (Garbage "{oops") true true ]}
          false [] [] clock.

(** The [width] last decimal digits of [n], first digit first. *)
Fixpoint fixed_digits (width : nat) (n : Z) : list ascii :=
  match width with
  | O => []
  | S width' =>
      (fixed_digits width' (n / 10) ++ [Text.byte (48 + n mod 10)])%list
  end.

(** The stamp [<YYYYMMDD_HHMMSS>] of a time: four digits for the year,
    two each for the month, the day, the hour, the minute and the
    second, with an underscore after the day. *)
Definition timestamp (t : PyDate.datetime) : string :=
  Text.text
    (fixed_digits 4 (PyDate.year (PyDate.on t))
     ++ fixed_digits 2 (PyDate.month (PyDate.on t))
     ++ fixed_digits 2 (PyDate.day (PyDate.on t))
     ++ "_"%char
     :: fixed_digits 2 (PyDate.hour t)
     ++ fixed_digits 2 (PyDate.minute t)
     ++ fixed_digits 2 (PyDate.second t)).

(** A reading of the clock: a date and a time of day, in a year of
    four digits. *)
Definition clock_reading (t : PyDate.datetime) : Prop :=
  1000 <= PyDate.year (PyDate.on t) <= 9999
  /\ 1 <= PyDate.month (PyDate.on t) <= 12
  /\ 1 <= PyDate.day (PyDate.on t) <= 31
  /\ 0 <= PyDate.hour t <= 23
  /\ 0 <= PyDate.minute t <= 59
  /\ 0 <= PyDate.second t <= 59.

(** The fresh document. *)
Definition fresh_document (can_read : bool) : file :=
  mkfile (JsonText (JArr [])) can_read true.

(** ** Validation *)

(** The entry [add_expense] builds from a parsed date, a category, a
    parsed amount and a description. *)
Definition entry_of (d : PyDate.date) (category : string)
  (amt : PyFloat.float) (description : string) : json :=
  JObj [("date", JStr (PyDate.isoformat d));
        ("category", JStr category);
        ("amount", JFloat (PyFloat.round2 amt));
        ("description", JStr description)].

(** [r] is [x] rounded to two decimals.  A float that is an integer,
    an infinity or NaN is kept.  Any other float [m * 2 ^ e] is at
    most half a hundredth away from [n] hundredths, for a whole
    number [n], and [r] is the float nearest to [n] hundredths. *)
Definition rounded_to_cents (x r : PyFloat.float) : Prop :=
  match x with
  | S754_finite s m e =>
      if 0 <=? e then r = x
      else
        exists n : Z,
          0 <= n
          /\ 2 * Z.abs (Zpos m * 100 - n * 2 ^ (- e)) <= 2 ^ (- e)
          /\ r = PyFloat.of_decimal s n (-2)
  | _ => r = x
  end.

(** The document can be written and read back: it is absent from a
    writable directory, or present, writable and readable. *)
Definition storage_ready (w : world) : bool :=
  match files w !! EXPENSES_FILE with
  | None => dir_writable w
  | Some f => writable f && readable f
  end.

(** The prompt of line 110. *)
Definition category_prompt : string :=
  "Enter category (e.g., Food, Travel, Shopping, Bills): ".

(** A call without a category, and one with an empty category. *)
Definition no_category : expense_args :=
  mkargs (Some "2025-01-05") None (Some "10") (Some "").

Definition empty_category : expense_args :=
  mkargs (Some "2025-01-05") (Some "") (Some "10") (Some "").

(** ** Entries of a stored collection *)

(** The date of an entry, when it has one that parses. *)
Definition date_of (e : json) : option PyDate.date :=
  match Json.item e "date" with
  | Some (JStr s) => PyDate.strptime s
  | _ => None
  end.

(** An entry with the date text [d]. *)
Definition dated (d : string) : json :=
  JObj [("date", JStr d); ("category", JStr "Food"); ("amount", JFloat (lit "1"))].

(** The entry is a JSON object, as every entry the program stores. *)
Definition is_record (e : json) : bool :=
  match e with JObj _ => true | _ => false end.

(** The entry has a date that parses and falls in the month. *)
Definition in_month (month year : Z) (e : json) : bool :=
  match date_of e with
  | Some d => (PyDate.year d =? year) && (PyDate.month d =? month)
  | None => false
  end.

(** The key an entry of the month is filed under. *)
Definition contributes (month year : Z) (e : json) : option Summary.key :=
  if in_month month year e then
    match Json.get e "category" (JStr "Misc") with
    | Some c => Summary.to_key c
    | None => None
    end
  else None.

(** A document with one entry of February 2025 and one without a
    date that parses. *)
Definition february_only : world :=
  mkworld {[ EXPENSES_FILE :=
               mkfile (JsonText (JArr [record "2025-02-01" "Travel" (JFloat (lit "30"));
                                       record "bad-date" "Food" (JFloat (lit "5"))]))
                      true true ]}
          true [] [] clock.



(** [e.get(k, default)] on the members of a [dict]. *)
Definition member_or (k : string) (default : json)
  (members : list (string * json)) : json :=
  match Json.assoc k members with Some v => v | None => default end.




(** ** The keys of the summary and the rows of the export *)

(** The keys of the dictionary after an assignment. *)
Definition note_key (seen : list Summary.key) (k : Summary.key)
  : list Summary.key :=
  if existsb (Summary.key_eqb k) seen then seen else (seen ++ [k])%list.


(** The keys of the entries of the month, in the order of the
    collection. *)
Fixpoint month_keys (month year : Z) (l : list json) : list Summary.key :=
  match l with
  | [] => []
  | e :: r =>
      match contributes month year e with
      | Some k => k :: month_keys month year r
      | None => month_keys month year r
      end
  end.


(** The file can be written: see [write_file]. *)
Definition may_write (w : world) (name : string) : bool :=
  match files w !! name with
  | Some f => writable f
  | None => dir_writable w
  end.



(** A month whose categories first occur in the order Travel, food,
    Bills; the document that holds it; its summary. *)
Definition unsorted_items : list json :=
  [record "2025-01-05" "Travel" (JFloat (lit "30"));
   record "2025-01-06" "food" (JFloat (lit "10"));
   record "2025-01-07" "Bills" (JFloat (lit "5"));
   record "2025-01-08" "Travel" (JFloat (lit "1.5"))].

Definition unsorted_month : world :=
  mkworld {[ EXPENSES_FILE := mkfile (JsonText (JArr unsorted_items)) true true ]}
          true [] [] clock.

Definition unsorted_summary : Summary.t :=
  [(Summary.KStr "Travel", lit "31.5");
   (Summary.KStr "food", lit "10");
   (Summary.KStr "Bills", lit "5")].



(** ** Relations between the world before and after a run *)

(** Every run of [m] takes a world to one related to it by [R]. *)
Definition respects (R : world -> world -> Prop) {A} (m : io A) : Prop :=
  forall w, R w (snd (m w)).

(** Nothing was read from the console. *)
Definition same_input (w w' : world) : Prop := stdin w' = stdin w.

(** Lines were read from the console in order, and none was put back. *)
Definition input_consumed (w w' : world) : Prop :=
  exists consumed : list string, stdin w = (consumed ++ stdin w')%list.

(** The clock and the permissions of the directory are the same. *)
Definition same_environment (w w' : world) : Prop :=
  now w' = now w /\ dir_writable w' = dir_writable w.

(** ** Calls of [add_expense] *)

(** A call with all four arguments. *)
Definition supplied (date category amount description : string)
  : expense_args :=
  mkargs (Some date) (Some category) (Some amount) (Some description).

Definition invalid_date_message : string :=
  "Invalid date format. Expected YYYY-MM-DD. Expense not added.".

Definition invalid_amount_message : string :=
  "Invalid amount. Please enter a numeric non-negative value. Expense not added.".

(** A valid document with two entries. *)
Definition two_entries : world :=
  mkworld {[ EXPENSES_FILE :=
               mkfile (JsonText (JArr [dated "2025-01-05"; dated "2025-02-01"]))
                      true true ]}
          true [] [] clock.

(** The amount text is not a number, or is a negative one. *)
Definition amount_rejected (amount : string) : Prop :=
  match PyFloat.of_string amount with
  | None => True
  | Some amt => PyFloat.ltb amt PyFloat.zero = true
  end.

(** Lines 142 to 145: the entry is appended to the loaded collection
    and the collection is saved. *)
Definition store (entry : json) : io unit :=
  let* expenses := load_expenses in
  let* expenses := lift (append expenses entry) in
  save_expenses expenses ;;
  print (Line "✅ Expense added successfully!").

(** ** Dates in ISO form *)

(** The four characters [zfill 4 y] writes are digits that spell [y]. *)
Definition year_text_ok (y : Z) : bool :=
  match Text.chars (Text.zfill 4 y) with
  | [a; b; c; d] =>
      Text.is_digit a && Text.is_digit b && Text.is_digit c && Text.is_digit d
      && (1000 * Text.digit_val a + 100 * Text.digit_val b
          + 10 * Text.digit_val c + Text.digit_val d =? y)
  | _ => false
  end.

(** ** The table of [view_expenses] *)

(** The entry is a record whose date and category can be formatted
    into a column. *)
Definition printable (e : json) : bool :=
  match e with
  | JObj members =>
      Json.formattable (member_or "date" (JStr "") members)
      && Json.formattable (member_or "category" (JStr "") members)
  | _ => false
  end.

(** The row of an entry. *)
Definition expense_row (e : json) : printed :=
  match e with
  | JObj members =>
      ExpenseRow (member_or "date" (JStr "") members)
                 (member_or "category" (JStr "") members)
                 (amount_or_zero e)
                 (member_or "description" (JStr "") members)
  | _ => Line ""
  end.

(** The total under the table: the amounts added up from 0.0, in the
    order of the rows. *)
Definition running_total (start : PyFloat.float) (l : list json)
  : PyFloat.float :=
  fold_left PyFloat.add (map amount_or_zero l) start.

Definition table_rule : printed :=
  Line (Text.rule "-" (String.length table_header)).

(** What [view_expenses] prints for the sorted entries [l]. *)
Definition table (l : list json) : list printed :=
  match l with
  | [] => [Line "No expenses recorded yet."]
  | _ =>
      ([table_rule; Line table_header; table_rule]
       ++ map expense_row l
       ++ [table_rule; ExpenseTotal (running_total PyFloat.zero l); Line ""])%list
  end.

(** The exception printing the row of an entry raises, if any. *)
Definition row_error (e : json) : exn :=
  match e with
  | JObj _ => TypeError
  | _ => AttributeError
  end.

(** An entry without a category text, after one that can be shown. *)
Definition null_category : json :=
  JObj [("date", JStr "2025-03-01"); ("category", JNull);
        ("amount", JFloat (lit "4"))].

Definition with_null_category : world :=
  mkworld {[ EXPENSES_FILE :=
               mkfile (JsonText (JArr [null_category; dated "2025-01-05"]))
                      true true ]}
          true [] [] clock.

(** ** Errors of the aggregation *)

(** The category of a record is a list or an object. *)
Definition unhashable_category (e : json) : bool :=
  match e with
  | JObj members =>
      match member_or "category" (JStr "Misc") members with
      | JArr _ | JObj _ => true
      | _ => false
      end
  | _ => false
  end.

(** A record of January 2025 whose category is a list. *)
Definition listed_category : json :=
  JObj [("date", JStr "2025-01-06"); ("category", JArr [JStr "Food"]);
        ("amount", JFloat (lit "2"))].

(** A float is NaN. *)
Definition is_nan (x : PyFloat.float) : bool :=
  match x with S754_nan => true | _ => false end.

(** The category names among the keys of a summary. *)
Definition category_names (keys : list Summary.key) : list string :=
  flat_map (fun k => match k with Summary.KStr s => [s] | _ => [] end) keys.

(** ** The summary of a loaded collection *)

(** Lines 237 to 297: what [generate_monthly_summary] does with the
    collection it has loaded. *)
Definition summarize_loaded (expenses : json) (month year : Z)
  (export_json export_csv : bool) : io unit :=
  let* (summary, total) := lift (aggregate expenses month year) in
  show_summary month year summary total ;;
  (if export_json && negb (is_nil summary)
   then export_summary_json month year summary total
   else ret tt) ;;
  (if export_csv && negb (is_nil summary)
   then export_summary_csv month year summary total
   else ret tt).

(** A document with a numeric category in January 2025. *)
Definition numeric_category : world :=
  mkworld {[ EXPENSES_FILE :=
               mkfile (JsonText (JArr [JObj [("date", JStr "2025-01-05");
                                             ("category", JInt 7);
                                             ("amount", JFloat (lit "3"))]]))
                      true true ]}
          true [] [] clock.

(** The document of [unsorted_month] in a directory where nothing can
    be created. *)
Definition unsorted_month_locked : world :=
  mkworld {[ EXPENSES_FILE := mkfile (JsonText (JArr unsorted_items)) true true ]}
          false [] [] clock.

(** ** Equal sort keys *)

Definition date_eqb (a b : PyDate.date) : bool :=
  (PyDate.year a =? PyDate.year b) && (PyDate.month a =? PyDate.month b)
  && (PyDate.day a =? PyDate.day b).

(** The entries that are sorted under the date [k]. *)
Definition sorted_under (k : PyDate.date) (l : list json) : list json :=
  List.filter (fun e => date_eqb (parse_safe e) k) l.

(** ** A call of [add_expense] without arguments *)

Definition no_arguments : expense_args := mkargs None None None None.

Definition date_prompt : string :=
  "Enter date (YYYY-MM-DD) or press Enter for today: ".

(** The date text the first reply stands for. *)
Definition date_reply (reply : string) (w : world) : string :=
  if Text.is_empty (Text.strip reply)
  then PyDate.isoformat (PyDate.on (now w))
  else Text.strip reply.

(** ** The menu loop *)

Definition choice_prompt : printed := Prompt "Enter your choice: ".

(** The line typed at the menu is none of the four choices. *)
Definition no_choice (line : string) : bool :=
  let c := Text.strip line in
  negb (String.eqb c "1" || String.eqb c "2" || String.eqb c "3"
        || String.eqb c "4").

(** What one turn of the loop prints for a line that is no choice. *)
Definition refused_turn : list printed :=
  (menu ++ [choice_prompt; Line "Invalid choice. Please enter 1-4."])%list.

(** What the loop prints for the lines [lines], none of them a choice. *)
Definition refused_turns (lines : list string) : list printed :=
  flat_map (fun _ => refused_turn) lines.

(** A console on which four lines are typed for [add_expense]. *)
Definition four_replies : world :=
  set_stdin [""; " Food "; "12.5"; "lunch"; "4"] no_files.

(** Three lines at the menu: two that are no choice, then the exit. *)
Definition quitting : world :=
  set_stdin ["x"; " 7 "; " 4 "; "left over"] two_entries.

(** A console that ends before the exit is chosen. *)
Definition cut_short : world := set_stdin ["x"; "42"] two_entries.

(** ** Numerals typed at the prompt *)

(** The value of a run of digits read after [acc]. *)
Definition digits_value (acc : Z) (ds : list ascii) : Z :=
  fold_left (fun a c => 10 * a + Text.digit_val c) ds acc.

(** The characters are digits. *)
Definition all_digits (ds : list ascii) : Prop :=
  Forall (fun c => Text.is_digit c = true) ds.

(** The line a user types for the month [m] and the year [y]. *)
Definition month_year_line (m y : Z) : string :=
  Text.of_Z m ++ " " ++ Text.of_Z y.

(** * Properties *)

(** ** The library functions on sample inputs *)

Example strip_ex : Text.strip "  2025-01-05 " = "2025-01-05".
Proof. reflexivity. Qed.

Example lower_ex : Text.lower "Travel Bills" = "travel bills".
Proof. reflexivity. Qed.

Example zfill_ex : Text.zfill 4 2025 = "2025" /\ Text.zfill 2 7 = "07" /\ Text.zfill 2 0 = "00".
Proof. repeat split; reflexivity. Qed.

Example float_100 : PyFloat.of_string "100" = Some (S754_finite false 7036874417766400 (-46)).
Proof. vm_compute. reflexivity. Qed.

Example strptime_ok :
  PyDate.strptime "2025-01-05" = Some (PyDate.mkdate 2025 1 5)
  /\ PyDate.strptime "2025-1-5" = Some (PyDate.mkdate 2025 1 5)
  /\ PyDate.strptime "2024-02-29" = Some (PyDate.mkdate 2024 2 29)
  /\ PyDate.strptime "0001-01-01" = Some PyDate.min.
Proof. repeat split; reflexivity. Qed.

Example strptime_rejects :
  map PyDate.strptime
      ["2025-13-01"; "not-a-date"; "2025/01/01"; "bad-date"; "2025-02-29";
       "0000-01-01"; "2025-01-32"; "2025-01-05 "; ""]
  = [None; None; None; None; None; None; None; None; None].
Proof. reflexivity. Qed.

Example isoformat_ex :
  PyDate.isoformat (PyDate.mkdate 2025 1 5) = "2025-01-05".
Proof. reflexivity. Qed.

(** Outside ASCII: [strip] removes the whitespace of Unicode, [lower]
    lowers every cased letter (a capital sigma by its position),
    [float], [int] and the [\d] of [strptime] read the decimal digits
    of every script; [float] and [int] do not strip the separators
    FS to US, which [str.strip] does. *)
Example strip_unicode :
  Text.strip (nbsp ++ "2025-01-05" ++ em_space) = "2025-01-05"
  /\ Text.strip nbsp = ""
  /\ Text.strip ("4" ++ nbsp) = "4"
  /\ Text.strip (file_separator ++ "5") = "5"
  /\ Text.split ("11" ++ em_space ++ "2025") = ["11"; "2025"].
Proof. repeat split; vm_compute; reflexivity. Qed.

Example lower_unicode :
  Text.lower (uchar 201 ++ "COLE") = uchar 233 ++ "cole"
  /\ Text.lower (uchar 927 ++ uchar 916 ++ uchar 927 ++ uchar 931)
     = uchar 959 ++ uchar 948 ++ uchar 959 ++ uchar 962
  /\ Text.lower (uchar 931 ++ uchar 927) = uchar 963 ++ uchar 959
  /\ Text.lower (uchar 304) = "i" ++ uchar 775.
Proof. repeat split; vm_compute; reflexivity. Qed.

Example float_unicode :
  PyFloat.of_string arabic_twelve = PyFloat.of_string "12"
  /\ PyFloat.of_string (nbsp ++ "1.5" ++ em_space) = PyFloat.of_string "1.5"
  /\ PyFloat.of_string (file_separator ++ "5") = None
  /\ PyFloat.of_string (file_separator ++ "nan") = None
  /\ PyFloat.of_string " 1_000.5e-1 " = PyFloat.of_string "100.05"
  /\ PyFloat.of_string (uchar 233) = None.
Proof. repeat split; vm_compute; reflexivity. Qed.

Example int_unicode :
  PyInt.of_string arabic_twelve = Some 12
  /\ PyInt.of_string (nbsp ++ "-1_0 ") = Some (-10)
  /\ PyInt.of_string (file_separator ++ "5") = None
  /\ PyInt.of_string "1__0" = None
  /\ PyInt.to_string 2025 = Some "2025".
Proof. repeat split; vm_compute; reflexivity. Qed.

Example strptime_unicode :
  PyDate.strptime (fullwidth_2025 ++ "-01-05") = Some (PyDate.mkdate 2025 1 5)
  /\ PyDate.strptime ("2025-01-1" ++ uchar 65301)
     = Some (PyDate.mkdate 2025 1 15)
  /\ PyDate.strptime ("2025-01-3" ++ uchar 65296) = None
  /\ PyDate.strptime ("2025-1" ++ uchar 65296 ++ "-05") = None
  /\ PyDate.strptime (nbsp ++ "2025-01-05") = None.
Proof. repeat split; vm_compute; reflexivity. Qed.

(** ** Running computations *)

Lemma bind_returned {A B} (m : io A) (k : A -> io B) w a w' :
  m w = (Returned a, w') -> bind m k w = k a w'.
Proof. intros H. unfold bind. rewrite H. reflexivity. Qed.

Lemma bind_raised {A B} (m : io A) (k : A -> io B) w e w' :
  m w = (Raised e, w') -> bind m k w = (Raised e, w').
Proof. intros H. unfold bind. rewrite H. reflexivity. Qed.

Lemma attempt_eq {A} (m : io A) w r w' :
  m w = (r, w') -> attempt m w = (Returned r, w').
Proof. intros H. unfold attempt. rewrite H. reflexivity. Qed.

(** ** Invalid months *)

(** C8. For a month outside 1..12, whatever the year, the export flags
    and the stored collection, [generate_monthly_summary] reports
    "Invalid month/year provided." and returns: nothing is loaded,
    no summary is printed and no file is touched. *)
Theorem generate_monthly_summary_invalid_month :
  forall (month year : Z) (export_json export_csv : bool) (w : world),
    ~ (1 <= month <= 12) ->
    generate_monthly_summary month year export_json export_csv w
    = (Returned tt,
       set_stdout (stdout w ++ [Line "Invalid month/year provided."]) w).
Proof.
  intros month year ej ec w Hm.
  unfold generate_monthly_summary.
  assert (Hb : (1 <=? month) && (month <=? 12) = false).
  { apply andb_false_iff.
    destruct (Z.leb_spec 1 month); [right | left; reflexivity].
    apply Z.leb_gt. lia. }
  rewrite Hb. reflexivity.
Qed.

Lemma generate_monthly_summary_invalid_month_witness :
  generate_monthly_summary 13 2025 true true no_files
  = (Returned tt,
     set_stdout (stdout no_files ++ [Line "Invalid month/year provided."]) no_files).
Proof.
  apply (generate_monthly_summary_invalid_month 13 2025 true true no_files).
  lia.
Defined.

(** ** The worked example of the aggregation *)

(** C5. On the collection [{2025-01-05, Food, 100}, {2025-01-20, Food,
    50}, {2025-02-01, Travel, 30}] the aggregation for January 2025
    yields the mapping {Food: 150.00} with total 150.00, and for
    February 2025 the mapping {Travel: 30.00} (with total 30.00);
    rounding to two decimals, as the export does, leaves these values
    as they are. *)
Theorem aggregate_example :
  aggregate example_collection 1 2025
  = Returned ([(Summary.KStr "Food", lit "150.00")], lit "150.00")
  /\ aggregate example_collection 2 2025
     = Returned ([(Summary.KStr "Travel", lit "30.00")], lit "30.00")
  /\ aggregate example_collection_int 1 2025
     = Returned ([(Summary.KStr "Food", lit "150.00")], lit "150.00")
  /\ aggregate example_collection_int 2 2025
     = Returned ([(Summary.KStr "Travel", lit "30.00")], lit "30.00")
  /\ PyFloat.round2 (lit "150.00") = lit "150.00"
  /\ PyFloat.round2 (lit "30.00") = lit "30.00".
Proof. repeat split; vm_compute; reflexivity. Qed.

(** ** Initialisation of the document *)

Lemma backup_name_fresh t : backup_name t <> EXPENSES_FILE.
Proof. unfold backup_name, EXPENSES_FILE. simpl. discriminate. Qed.

Lemma is_list_holds f v :
  readable f = true -> data f = JsonText v ->
  holds_list f = Json.is_list v.
Proof.
  intros Hr Hd. unfold holds_list. rewrite Hr, Hd. destruct v; reflexivity.
Qed.

(** The outcome of the check at the top of the recovery path. *)
Lemma check_document w f :
  files w !! EXPENSES_FILE = Some f ->
  attempt (let* data := read_json EXPENSES_FILE in
           if negb (Json.is_list data) then raise ValueError else ret tt) w
  = (Returned (if holds_list f then Returned tt
               else Raised (if readable f then ValueError else OSError)), w).
Proof.
  intros Hf. unfold attempt, bind, read_json. rewrite Hf.
  unfold holds_list.
  destruct (readable f); simpl; [| reflexivity].
  destruct (data f) as [raw | v | rows]; simpl; try reflexivity.
  destruct v; reflexivity.
Qed.

Lemma write_file_absent w name c :
  files w !! name = None ->
  write_file name c w
  = if dir_writable w
    then (Returned tt, set_files (<[name := mkfile c true true]> (files w)) w)
    else (Raised OSError, w).
Proof. intros H. unfold write_file. rewrite H. reflexivity. Qed.

Lemma write_file_present w name c f :
  files w !! name = Some f ->
  write_file name c w
  = if writable f
    then (Returned tt,
          set_files (<[name := mkfile c (readable f) true]> (files w)) w)
    else (Raised OSError, w).
Proof. intros H. unfold write_file. rewrite H. reflexivity. Qed.

(** The whole of [ensure_expenses_file], state by state. *)
Lemma ensure_expenses_file_absent w :
  files w !! EXPENSES_FILE = None ->
  ensure_expenses_file w = write_file EXPENSES_FILE empty_document w.
Proof.
  intros H. unfold ensure_expenses_file, bind, path_exists.
  rewrite H. reflexivity.
Qed.

Lemma ensure_expenses_file_valid w f :
  files w !! EXPENSES_FILE = Some f -> holds_list f = true ->
  ensure_expenses_file w = (Returned tt, w).
Proof.
  intros H Hl. unfold ensure_expenses_file.
  unfold bind at 1. unfold path_exists. rewrite H. simpl.
  unfold bind at 1. rewrite (check_document w f H), Hl. reflexivity.
Qed.

Lemma ensure_expenses_file_moved w f :
  files w !! EXPENSES_FILE = Some f -> holds_list f = false ->
  dir_writable w = true ->
  ensure_expenses_file w
  = (Returned tt,
     mkworld (<[EXPENSES_FILE := mkfile empty_document true true]>
                (<[backup_name (now w) := f]> (delete EXPENSES_FILE (files w))))
             true (stdin w)
             (stdout w ++ [Line ("Corrupted expenses.json moved to "
                                 ++ backup_name (now w)
                                 ++ ". Created new expenses.json.")])
             (now w)).
Proof.
  intros H Hl Hd. unfold ensure_expenses_file.
  unfold bind at 1. unfold path_exists. rewrite H. simpl.
  unfold bind at 1. rewrite (check_document w f H), Hl.
  unfold bind, attempt, get_now, rename, print. rewrite H, Hd. simpl.
  unfold write_file. simpl.
  rewrite lookup_insert_ne by apply backup_name_fresh.
  rewrite lookup_delete_eq. simpl. rewrite Hd.
  unfold set_files, set_stdout. simpl. rewrite Hd. reflexivity.
Qed.

Lemma ensure_expenses_file_overwritten w f :
  files w !! EXPENSES_FILE = Some f -> holds_list f = false ->
  dir_writable w = false ->
  ensure_expenses_file w
  = let w' := set_stdout
                (stdout w ++ [Line "Could not move corrupted expenses.json; attempting to overwrite."]) w in
    if writable f
    then (Returned tt,
          set_files (<[EXPENSES_FILE := mkfile empty_document (readable f) true]>
                       (files w)) w')
    else (Raised OSError, w').
Proof.
  intros H Hl Hd. unfold ensure_expenses_file.
  unfold bind at 1. unfold path_exists. rewrite H. simpl.
  unfold bind at 1. rewrite (check_document w f H), Hl.
  unfold bind, attempt, get_now, rename, print. rewrite H, Hd. simpl.
  unfold write_file. simpl. rewrite H.
  destruct (writable f); reflexivity.
Qed.

Lemma read_json_list w f l :
  files w !! EXPENSES_FILE = Some f -> readable f = true ->
  data f = JsonText (JArr l) ->
  load_expenses w = (Returned (JArr l), w).
Proof.
  intros H Hr Hd. unfold load_expenses.
  assert (Hl : holds_list f = true).
  { unfold holds_list. rewrite Hr, Hd. reflexivity. }
  rewrite (bind_returned _ _ _ _ _ (ensure_expenses_file_valid w f H Hl)).
  unfold read_json. rewrite H, Hr, Hd. reflexivity.
Qed.

(** C3, as amended.  [ensure_expenses_file] returns exactly in the
    states described by [can_initialize]: the document is missing and
    the directory is writable, or the document is a readable list, or
    it is corrupted and can be moved away or overwritten.  In every
    other state the failure to write the fresh document is raised to
    the caller as [OSError].  A failure of the rename is never raised:
    it is reported on the console and the document is overwritten in
    place. *)
Theorem ensure_expenses_file_outcome :
  forall w : world,
    fst (ensure_expenses_file w)
    = (if can_initialize w then Returned tt else Raised OSError)
    /\ stdout (snd (ensure_expenses_file w))
       = (stdout w ++ recovery_report w)%list.
Proof.
  intros w. unfold can_initialize, recovery_report.
  destruct (files w !! EXPENSES_FILE) as [f |] eqn:Hf.
  - destruct (holds_list f) eqn:Hl.
    + rewrite (ensure_expenses_file_valid w f Hf Hl). simpl.
      split; [reflexivity | symmetry; apply app_nil_r].
    + destruct (dir_writable w) eqn:Hd.
      * rewrite (ensure_expenses_file_moved w f Hf Hl Hd). simpl.
        split; reflexivity.
      * rewrite (ensure_expenses_file_overwritten w f Hf Hl Hd). simpl.
        destruct (writable f); simpl; split; reflexivity.
  - rewrite (ensure_expenses_file_absent w Hf), (write_file_absent w _ _ Hf).
    destruct (dir_writable w); simpl;
      (split; [reflexivity | symmetry; apply app_nil_r]).
Qed.

(** C3, as stated, fails: with a missing document in a directory that
    cannot be written, and with a corrupted document that can neither
    be moved nor overwritten, [ensure_expenses_file] raises. *)
Lemma ensure_expenses_file_raises :
  fst (ensure_expenses_file read_only_dir) = Raised OSError
  /\ ensure_expenses_file locked_corrupted
     = (Raised OSError,
        set_stdout
          [Line "Could not move corrupted expenses.json; attempting to overwrite."]
          locked_corrupted).
Proof. split; vm_compute; reflexivity. Qed.

(** ** Recovery of a corrupted document *)

Lemma fixed_digits_2 :
  forallb (fun n => String.eqb (Text.zfill 2 n) (Text.text (fixed_digits 2 n)))
          (seqZ 0 100) = true.
Proof. vm_compute. reflexivity. Qed.

Lemma fixed_digits_4 :
  forallb (fun n => String.eqb (Text.zfill 4 n) (Text.text (fixed_digits 4 n)))
          (seqZ 1000 9000) = true.
Proof. vm_compute. reflexivity. Qed.

Lemma zfill_2 n : 0 <= n <= 99 -> Text.zfill 2 n = Text.text (fixed_digits 2 n).
Proof.
  intros Hn. pose proof fixed_digits_2 as H.
  rewrite forallb_forall in H. apply String.eqb_eq, (H n).
  apply list_elem_of_In, elem_of_seqZ. lia.
Qed.

Lemma zfill_4 n :
  1000 <= n <= 9999 -> Text.zfill 4 n = Text.text (fixed_digits 4 n).
Proof.
  intros Hn. pose proof fixed_digits_4 as H.
  rewrite forallb_forall in H. apply String.eqb_eq, (H n).
  apply list_elem_of_In, elem_of_seqZ. lia.
Qed.

Lemma text_app a b : Text.text (a ++ b) = Text.text a ++ Text.text b.
Proof.
  unfold Text.text. induction a as [| c a IH]; simpl; [reflexivity |].
  rewrite IH. reflexivity.
Qed.

Lemma text_cons c l : Text.text (c :: l) = String c (Text.text l).
Proof. reflexivity. Qed.

(** The name of the backup carries the stamp of the clock. *)
Lemma backup_name_stamp t :
  clock_reading t ->
  backup_name t = "expenses_corrupted_backup_" ++ timestamp t ++ ".json".
Proof.
  intros (Hy & Hm & Hd & Hh & Hmi & Hs).
  unfold backup_name, PyDate.strftime_compact, timestamp.
  rewrite (zfill_4 _ Hy), !zfill_2 by lia.
  rewrite !text_app, text_cons, !text_app. reflexivity.
Qed.

Lemma corrupted_holds_no_list f : corrupted (data f) = true -> holds_list f = false.
Proof.
  intros Hc. unfold holds_list.
  destruct (data f) as [raw | v | rows]; simpl in *; try apply andb_false_r.
  destruct v; simpl in *; try apply andb_false_r. discriminate.
Qed.

(** C4, as amended.  The document holds malformed JSON or a JSON value
    that is not a list, and the clock shows the time [now w].
    - When the directory can be written, initialisation moves the
      document to [expenses_corrupted_backup_<YYYYMMDD_HHMMSS>.json],
      stamped with the time of detection, creates a fresh document
      holding the empty list and says so; [load_expenses], then and
      afterwards, returns the empty collection.
    - When the directory cannot be written but the document can, the
      rename fails: this is reported, no backup is made, and the
      document is overwritten in place with the empty list.
    - When neither can be written, [OSError] is raised. *)
Theorem corrupted_document_recovery :
  forall (w : world) (f : file),
    files w !! EXPENSES_FILE = Some f ->
    corrupted (data f) = true ->
    clock_reading (now w) ->
    let name := "expenses_corrupted_backup_" ++ timestamp (now w) ++ ".json" in
    if dir_writable w then
      exists w' : world,
        ensure_expenses_file w = (Returned tt, w')
        /\ files w'
           = <[EXPENSES_FILE := fresh_document true]>
               (<[name := f]> (delete EXPENSES_FILE (files w)))
        /\ files w' !! name = Some f
        /\ files w' !! EXPENSES_FILE = Some (fresh_document true)
        /\ stdout w'
           = (stdout w ++ [Line ("Corrupted expenses.json moved to " ++ name
                                 ++ ". Created new expenses.json.")])%list
        /\ load_expenses w = (Returned (JArr []), w')
        /\ load_expenses w' = (Returned (JArr []), w')
    else if writable f then
      exists w' : world,
        ensure_expenses_file w = (Returned tt, w')
        /\ files w' = <[EXPENSES_FILE := fresh_document (readable f)]> (files w)
        /\ stdout w'
           = (stdout w
              ++ [Line "Could not move corrupted expenses.json; attempting to overwrite."])%list
        /\ load_expenses w
           = (if readable f then Returned (JArr []) else Raised OSError, w')
    else
      ensure_expenses_file w
      = (Raised OSError,
         set_stdout
           (stdout w
            ++ [Line "Could not move corrupted expenses.json; attempting to overwrite."])
           w).
Proof.
  intros w f Hf Hc Hclock name.
  pose proof (corrupted_holds_no_list f Hc) as Hl.
  assert (Hname : backup_name (now w) = name)
    by (apply backup_name_stamp; exact Hclock).
  destruct (dir_writable w) eqn:Hd.
  - pose proof (ensure_expenses_file_moved w f Hf Hl Hd) as He.
    rewrite Hname in He.
    assert (Hnew : forall m : gmap string file,
               <[EXPENSES_FILE := fresh_document true]> m !! EXPENSES_FILE
               = Some (fresh_document true)).
    { intros m. apply lookup_insert_eq. }
    eexists. split; [exact He |].
    split; [reflexivity |].
    split.
    { cbn [files].
      rewrite lookup_insert_ne
        by (rewrite <- Hname; intros E; symmetry in E; revert E;
            apply backup_name_fresh).
      apply lookup_insert_eq. }
    split; [apply Hnew |].
    split; [reflexivity |].
    split.
    + unfold load_expenses. rewrite (bind_returned _ _ _ _ _ He).
      unfold read_json. cbn [files]. rewrite Hnew. reflexivity.
    + eapply read_json_list; [apply Hnew | reflexivity | reflexivity].
  - pose proof (ensure_expenses_file_overwritten w f Hf Hl Hd) as He.
    cbv zeta in He.
    destruct (writable f) eqn:Hw; [| exact He].
    eexists. split; [exact He |].
    split; [reflexivity |]. split; [reflexivity |].
    unfold load_expenses. rewrite (bind_returned _ _ _ _ _ He).
    unfold read_json. cbn [files set_files set_stdout].
    rewrite lookup_insert_eq. cbn [readable data fresh_document].
    unfold fresh_document, empty_document. cbn [readable data].
    destruct (readable f); reflexivity.
Qed.

(** On 3 November 2025 at 09:05:07: the three cases. *)
Lemma corrupted_document_recovery_witness :
  (exists w' : world,
      ensure_expenses_file corrupted_world = (Returned tt, w')
      /\ files w'
         = <[EXPENSES_FILE := fresh_document true]>
             (<["expenses_corrupted_backup_20251103_090507.json"
                := mkfile (Garbage "{oops") true true]>
                (delete EXPENSES_FILE (files corrupted_world)))
      /\ files w' !! "expenses_corrupted_backup_20251103_090507.json"
         = Some (mkfile (Garbage "{oops") true true)
      /\ files w' !! EXPENSES_FILE = Some (fresh_document true)
      /\ stdout w'
         = [Line "Corrupted expenses.json moved to expenses_corrupted_backup_20251103_090507.json. Created new expenses.json."]
      /\ load_expenses corrupted_world = (Returned (JArr []), w')
      /\ load_expenses w' = (Returned (JArr []), w'))
  /\ (exists w' : world,
        ensure_expenses_file unmovable_corrupted = (Returned tt, w')
        /\ files w' = {[ EXPENSES_FILE := fresh_document true ]}
        /\ stdout w'
           = [Line "Could not move corrupted expenses.json; attempting to overwrite."]
        /\ load_expenses unmovable_corrupted = (Returned (JArr []), w'))
  /\ ensure_expenses_file locked_corrupted
     = (Raised OSError,
        set_stdout
          [Line "Could not move corrupted expenses.json; attempting to overwrite."]
          locked_corrupted).
Proof.
  assert (Hclock : clock_reading clock) by (unfold clock_reading; simpl; lia).
  split; [| split].
  - apply (corrupted_document_recovery corrupted_world
             (mkfile (Garbage "{oops") true true));
      [reflexivity | reflexivity | exact Hclock].
  - destruct (corrupted_document_recovery unmovable_corrupted
                (mkfile (Garbage "{oops") true true)
                eq_refl eq_refl Hclock) as (w' & He & Hf & Hs & Hl).
    exists w'. split; [exact He |].
    split; [rewrite Hf; vm_compute; reflexivity |].
    split; [exact Hs | exact Hl].
  - apply (corrupted_document_recovery locked_corrupted
             (mkfile (Garbage "{") true false));
      [reflexivity | reflexivity | exact Hclock].
Defined.

(** C4, as stated, fails: a corrupted document in a write-protected
    directory is not renamed.  If the document itself can be written,
    it is overwritten with the empty list and its content is lost: the
    directory holds no backup.  If it cannot, initialisation raises
    and the corrupted document stays. *)
Lemma corrupted_document_not_renamed :
  ensure_expenses_file unmovable_corrupted
  = (Returned tt,
     mkworld {[ EXPENSES_FILE := fresh_document true ]} false [] 
       [Line "Could not move corrupted expenses.json; attempting to overwrite."]
       clock)
  /\ files (snd (ensure_expenses_file unmovable_corrupted))
       !! "expenses_corrupted_backup_20251103_090507.json" = None
  /\ ensure_expenses_file locked_corrupted
     = (Raised OSError,
        set_stdout
          [Line "Could not move corrupted expenses.json; attempting to overwrite."]
          locked_corrupted)
  /\ fst (load_expenses locked_corrupted) = Raised OSError.
Proof. repeat split; vm_compute; reflexivity. Qed.

Example backup_name_example :
  backup_name clock = "expenses_corrupted_backup_20251103_090507.json".
Proof. reflexivity. Qed.

(** ** Validation and the storage round trip *)

Lemma is_empty_false s : s <> "" -> Text.is_empty s = false.
Proof. destruct s; [congruence | reflexivity]. Qed.

(** With every argument supplied, the console is left alone. *)
Lemma build_entry_supplied date category amount description d amt w :
  date <> "" ->
  PyDate.strptime (Text.strip date) = Some d ->
  category <> "" ->
  PyFloat.of_string amount = Some amt ->
  PyFloat.ltb amt PyFloat.zero = false ->
  build_entry (mkargs (Some date) (Some category) (Some amount)
                      (Some description)) w
  = (Returned (inr (entry_of d category amt description)), w).
Proof.
  intros Hdate Hd Hcat Ha Hneg.
  unfold build_entry, falsy, or_empty, bind, ret. simpl.
  rewrite (is_empty_false date Hdate), Hd.
  rewrite (is_empty_false category Hcat). simpl.
  rewrite (is_empty_false category Hcat), Ha, Hneg. reflexivity.
Qed.

Lemma save_then_load w (expenses : list json) :
  storage_ready w = true ->
  exists w',
    save_expenses (JArr expenses) w = (Returned tt, w')
    /\ load_expenses w' = (Returned (JArr expenses), w').
Proof.
  intros Hready. unfold storage_ready in Hready. unfold save_expenses.
  destruct (files w !! EXPENSES_FILE) as [f |] eqn:Hf.
  - apply andb_true_iff in Hready as [Hw Hr].
    rewrite (write_file_present w _ _ f Hf), Hw.
    eexists. split; [reflexivity |].
    eapply read_json_list; [apply lookup_insert_eq | exact Hr | reflexivity].
  - rewrite (write_file_absent w _ _ Hf), Hready.
    eexists. split; [reflexivity |].
    eapply read_json_list; [apply lookup_insert_eq | reflexivity | reflexivity].
Qed.

(** [round(x, 2)] against the words of the specification. *)
Lemma round2_rounds x : rounded_to_cents x (PyFloat.round2 x).
Proof.
  destruct x as [s | s | | s m e]; try reflexivity.
  unfold rounded_to_cents, PyFloat.round2.
  destruct (0 <=? e) eqn:He; [reflexivity |].
  apply Z.leb_gt in He.
  set (den := 2 ^ (- e)).
  assert (Hden : 0 < den) by (apply Z.pow_pos_nonneg; lia).
  set (num := Zpos m * 100).
  assert (Hnum : 0 <= num) by (unfold num; lia).
  pose proof (Z.div_mod num den ltac:(lia)) as Hdm.
  pose proof (Z.mod_pos_bound num den Hden) as Hr.
  pose proof (Z.div_pos num den Hnum Hden) as Hq.
  set (q := num / den) in *. set (r := num mod den) in *.
  eexists. split; [| split; [| reflexivity]].
  - destruct (2 * r ?= den); [destruct (Z.even q) | |]; lia.
  - destruct (Z.compare_spec (2 * r) den) as [E | E | E];
      [destruct (Z.even q) | |]; nia.
Qed.

(** C2. For every date text that parses, every category, every amount
    text that parses to a float that is not negative, and every
    description, [add_expense] builds the entry with the date in ISO
    form and the amount rounded to two decimals (in the sense of
    [rounded_to_cents]); saving the collection that holds just this
    entry and loading the document again returns a collection holding
    just an entry equal to it. *)
Theorem validate_save_load_roundtrip :
  forall (date category amount description : string)
         (d : PyDate.date) (amt : PyFloat.float) (w0 w : world),
    date <> "" ->
    PyDate.strptime (Text.strip date) = Some d ->
    category <> "" ->
    PyFloat.of_string amount = Some amt ->
    PyFloat.ltb amt PyFloat.zero = false ->
    storage_ready w = true ->
    let entry := entry_of d category amt description in
    build_entry (mkargs (Some date) (Some category) (Some amount)
                        (Some description)) w0
    = (Returned (inr entry), w0)
    /\ (exists r : PyFloat.float,
          Json.item entry "amount" = Some (JFloat r)
          /\ rounded_to_cents amt r)
    /\ exists w',
        (save_expenses (JArr [entry]) ;; load_expenses) w
        = (Returned (JArr [entry]), w').
Proof.
  intros date category amount description d amt w0 w
         Hdate Hd Hcat Ha Hneg Hready entry.
  split; [apply build_entry_supplied; assumption |].
  split; [eexists; split; [reflexivity | apply round2_rounds] |].
  destruct (save_then_load w [entry] Hready) as (w' & Hsave & Hload).
  exists w'. rewrite (bind_returned _ _ _ _ _ Hsave). exact Hload.
Qed.

(** The entry for the amount text 12.345 holds the float 12.35. *)
Lemma validate_save_load_roundtrip_witness :
  let entry :=
    JObj [("date", JStr "2025-01-05"); ("category", JStr "Food");
          ("amount", JFloat (S754_finite false 6952431924753203 (-49)));
          ("description", JStr "lunch")] in
  build_entry (mkargs (Some " 2025-1-5") (Some "Food") (Some "12.345")
                      (Some "lunch")) no_files
  = (Returned (inr entry), no_files)
  /\ (exists r : PyFloat.float,
        Json.item entry "amount" = Some (JFloat r)
        /\ rounded_to_cents (S754_finite false 6949617174986097 (-49)) r)
  /\ exists w',
      (save_expenses (JArr [entry]) ;; load_expenses) corrupted_world
      = (Returned (JArr [entry]), w').
Proof.
  apply (validate_save_load_roundtrip " 2025-1-5" "Food" "12.345" "lunch"
           (PyDate.mkdate 2025 1 5) (S754_finite false 6949617174986097 (-49))
           no_files corrupted_world);
    try discriminate; vm_compute; reflexivity.
Defined.

Example rounded_amount :
  PyFloat.round2 (lit "12.345") = lit "12.35"
  /\ PyFloat.round2 (lit "2.675") = lit "2.67"
  /\ PyFloat.round2 (lit "0.125") = lit "0.12".
Proof. repeat split; vm_compute; reflexivity. Qed.

(** ** A missing category *)

(** C6, as amended.  When the category argument is absent or empty
    and the other arguments are supplied and valid, [add_expense] asks
    the console for a category, once.  The entry it builds has the
    stripped reply as its category, and "Misc" when the reply is
    empty; the other fields are normalized as usual, nothing else is
    read from the console and no file is touched. *)
Theorem build_entry_missing_category :
  forall (date : string) (category : option string)
         (amount description reply : string) (rest : list string)
         (d : PyDate.date) (amt : PyFloat.float) (w : world),
    date <> "" ->
    PyDate.strptime (Text.strip date) = Some d ->
    falsy category = true ->
    PyFloat.of_string amount = Some amt ->
    PyFloat.ltb amt PyFloat.zero = false ->
    stdin w = reply :: rest ->
    build_entry (mkargs (Some date) category (Some amount) (Some description)) w
    = (Returned
         (inr (entry_of d
                 (if Text.is_empty (Text.strip reply) then "Misc"
                  else Text.strip reply)
                 amt description)),
       set_stdin rest (set_stdout (stdout w ++ [Prompt category_prompt]) w)).
Proof.
  intros date category amount description reply rest d amt w
         Hdate Hd Hcat Ha Hneg Hin.
  unfold build_entry.
  cbn [arg_date arg_category arg_amount arg_description].
  rewrite Hcat. unfold falsy, or_empty.
  rewrite (is_empty_false date Hdate).
  unfold bind, ret, input. cbn [negb]. rewrite Hd.
  cbn [stdin set_stdout]. rewrite Hin, Ha, Hneg.
  destruct (Text.is_empty (Text.strip reply)); reflexivity.
Qed.

Lemma build_entry_missing_category_witness :
  build_entry no_category (set_stdin [" Food "; "next"] no_files)
  = (Returned (inr (entry_of (PyDate.mkdate 2025 1 5) "Food" (lit "10") "")),
     set_stdin ["next"]
       (set_stdout [Prompt category_prompt] (set_stdin [" Food "; "next"] no_files))).
Proof.
  apply (build_entry_missing_category "2025-01-05" None "10" "" " Food "
           ["next"] (PyDate.mkdate 2025 1 5) (lit "10")
           (set_stdin [" Food "; "next"] no_files));
    try discriminate; vm_compute; reflexivity.
Defined.

(** C6, as stated, fails: with the category absent (or empty) and
    "Food" typed at the console, the entry has the category "Food",
    not "Misc", and the console has been prompted and read. *)
Lemma missing_category_asks_console :
  build_entry no_category (set_stdin ["Food"] no_files)
  = (Returned (inr (entry_of (PyDate.mkdate 2025 1 5) "Food" (lit "10") "")),
     set_stdout [Prompt category_prompt] no_files)
  /\ build_entry empty_category (set_stdin ["Food"] no_files)
     = (Returned (inr (entry_of (PyDate.mkdate 2025 1 5) "Food" (lit "10") "")),
        set_stdout [Prompt category_prompt] no_files)
  /\ Json.item (entry_of (PyDate.mkdate 2025 1 5) "Food" (lit "10") "") "category"
     <> Some (JStr "Misc").
Proof.
  split; [vm_compute; reflexivity |].
  split; [vm_compute; reflexivity |].
  simpl. discriminate.
Qed.

(** A reply of whitespace only, here a no-break space and a space, is
    stripped to the empty text and stands for "Misc". *)
Example blank_reply_is_misc :
  build_entry no_category (set_stdin [nbsp ++ " "] no_files)
  = (Returned (inr (entry_of (PyDate.mkdate 2025 1 5) "Misc" (lit "10") "")),
     set_stdout [Prompt category_prompt] no_files).
Proof. vm_compute. reflexivity. Qed.

(** ** The order of the display *)

Section SortedFacts.
Context {A K : Type}.
Variable key : A -> K.
Variable leb : K -> K -> bool.
Hypothesis leb_total : forall a b, leb a b = true \/ leb b a = true.
Hypothesis leb_trans :
  forall a b c, leb a b = true -> leb b c = true -> leb a c = true.

Lemma insert_by_perm x l : Permutation (x :: l) (insert_by key leb x l).
Proof.
  induction l as [| y r IH]; simpl; [reflexivity |].
  destruct (leb (key x) (key y)); [reflexivity |].
  rewrite perm_swap. constructor. exact IH.
Qed.

Lemma sorted_by_perm l : Permutation l (sorted_by key leb l).
Proof.
  induction l as [| x r IH]; simpl; [constructor |].
  rewrite <- insert_by_perm. constructor. exact IH.
Qed.

Lemma insert_by_ordered x l :
  StronglySorted (key_le key leb) l -> StronglySorted (key_le key leb) (insert_by key leb x l).
Proof.
  induction 1 as [| y r Hr IH Hy]; simpl.
  - repeat constructor.
  - destruct (leb (key x) (key y)) eqn:Hxy.
    + constructor; [constructor; assumption |].
      constructor; [exact Hxy |].
      eapply List.Forall_impl; [| exact Hy].
      intros z Hz. unfold key_le in *. eauto.
    + constructor; [exact IH |].
      eapply Permutation.Permutation_Forall; [apply insert_by_perm |].
      constructor; [| exact Hy].
      unfold key_le. destruct (leb_total (key x) (key y)); congruence.
Qed.

Lemma sorted_by_ordered l : StronglySorted (key_le key leb) (sorted_by key leb l).
Proof.
  induction l as [| x r IH]; simpl; [constructor |].
  apply insert_by_ordered. exact IH.
Qed.

Lemma ordered_pair l1 y l2 x l3 :
  StronglySorted (key_le key leb) (l1 ++ y :: l2 ++ x :: l3) -> key_le key leb y x.
Proof.
  induction l1 as [| z l1 IH]; simpl; intros H.
  - apply StronglySorted_inv in H as [_ H].
    rewrite List.Forall_forall in H. apply H.
    apply in_or_app. right. left. reflexivity.
  - apply StronglySorted_inv in H as [H _]. auto.
Qed.

End SortedFacts.

Lemma date_leb_total a b : PyDate.leb a b = true \/ PyDate.leb b a = true.
Proof.
  unfold PyDate.leb.
  destruct a as [ya ma da], b as [yb mb db]; simpl.
  repeat match goal with
         | |- context [?x <? ?y] => destruct (Z.ltb_spec x y)
         end; auto; try lia.
  all: destruct (Z.leb_spec da db); auto; right; apply Z.leb_le; lia.
Qed.

Lemma date_leb_trans a b c :
  PyDate.leb a b = true -> PyDate.leb b c = true -> PyDate.leb a c = true.
Proof.
  unfold PyDate.leb.
  destruct a as [ya ma da], b as [yb mb db], c as [yc mc dc]; simpl.
  repeat match goal with
         | |- context [?x <? ?y] => destruct (Z.ltb_spec x y)
         end; intros Hab Hbc; try reflexivity; try discriminate; try lia;
    rewrite ?Z.leb_le in *; lia.
Qed.

Lemma parse_safe_date_of e :
  parse_safe e = match date_of e with Some d => d | None => PyDate.min end.
Proof.
  unfold parse_safe, date_of.
  destruct (Json.item e "date") as [[]|]; reflexivity.
Qed.

Lemma strptime_valid s d :
  PyDate.strptime s = Some d ->
  PyDate.valid (PyDate.year d) (PyDate.month d) (PyDate.day d) = true.
Proof.
  unfold PyDate.strptime. intros H.
  repeat match type of H with
         | context [match ?x with _ => _ end] =>
             destruct x eqn:?; try discriminate
         | context [if ?x then _ else _] =>
             destruct x eqn:?; try discriminate
         end.
  injection H as <-. simpl. assumption.
Qed.

(** No date is before [date.min], and only [date.min] is not after it. *)
Lemma date_min_least s d :
  PyDate.strptime s = Some d ->
  PyDate.leb PyDate.min d = true
  /\ (PyDate.leb d PyDate.min = true -> d = PyDate.min).
Proof.
  intros H. apply strptime_valid in H.
  unfold PyDate.valid in H. destruct d as [y m dd]. simpl in H.
  repeat (apply andb_true_iff in H as [H ?]).
  rewrite ?Z.leb_le in *.
  unfold PyDate.leb, PyDate.min. simpl.
  repeat match goal with
         | |- context [?x <? ?y] => destruct (Z.ltb_spec x y)
         end; split; try reflexivity; try discriminate; try lia;
    rewrite ?Z.leb_le; try lia; intros; f_equal; lia.
Qed.

(** Entries with equal keys keep their order. *)
Section Stable.
Context {A K : Type}.
Variable key : A -> K.
Variable leb : K -> K -> bool.
Variable p : A -> bool.
Hypothesis p_leb :
  forall x y, p x = true -> p y = true -> leb (key x) (key y) = true.

Lemma insert_by_filter x l :
  List.filter p (insert_by key leb x l)
  = if p x then x :: List.filter p l else List.filter p l.
Proof.
  induction l as [| y r IH]; simpl.
  - destruct (p x); reflexivity.
  - destruct (leb (key x) (key y)) eqn:E; simpl.
    + destruct (p x), (p y); reflexivity.
    + rewrite IH. destruct (p x) eqn:Hx, (p y) eqn:Hy; try reflexivity.
      rewrite (p_leb x y Hx Hy) in E. discriminate.
Qed.

Lemma sorted_by_filter l : List.filter p (sorted_by key leb l) = List.filter p l.
Proof.
  induction l as [| x r IH]; simpl; [reflexivity |].
  rewrite insert_by_filter, IH. destruct (p x); reflexivity.
Qed.

End Stable.

Lemma same_key_ordered (k : PyDate.date) (x y : json) :
  date_eqb (parse_safe x) k = true ->
  date_eqb (parse_safe y) k = true ->
  PyDate.leb (parse_safe x) (parse_safe y) = true.
Proof.
  intros Hx Hy. unfold date_eqb in *.
  repeat (apply andb_true_iff in Hx as [Hx ?]).
  repeat (apply andb_true_iff in Hy as [Hy ?]).
  rewrite ?Z.eqb_eq in *.
  unfold PyDate.leb.
  repeat match goal with
         | |- context [?a <? ?b] => destruct (Z.ltb_spec a b)
         end; try reflexivity; try lia.
  all: apply Z.leb_le; lia.
Qed.

Lemma sorted_under_kept (l : list json) (k : PyDate.date) :
  sorted_under k (sort_for_display l) = sorted_under k l.
Proof.
  unfold sorted_under, sort_for_display.
  apply sorted_by_filter. apply same_key_ordered.
Qed.

(** C7, as amended.  [sorted(expenses, key=parse_safe)] never raises
    and returns the entries of the collection, each as often as it
    occurs, in ascending order of their sort keys, where the key of an
    entry without a parsable date is [date.min].  So whatever stands
    before an entry with an unparsable date has the key [date.min]
    too: it has no parsable date either, or it is dated 0001-01-01.
    Every entry with a later valid date comes after all entries with
    unparsable dates.  Entries with the same key keep the order they
    have in the collection: an entry dated 0001-01-01 keeps its place
    among the entries with unparsable dates. *)
Theorem sort_for_display_order :
  forall l : list json,
    Permutation l (sort_for_display l)
    /\ (forall l1 y l2 x l3,
          sort_for_display l = (l1 ++ y :: l2 ++ x :: l3)%list ->
          PyDate.leb (parse_safe y) (parse_safe x) = true)
    /\ (forall l1 y l2 x l3 d,
          sort_for_display l = (l1 ++ y :: l2 ++ x :: l3)%list ->
          date_of x = None ->
          date_of y = Some d ->
          d = PyDate.min)
    /\ (forall k : PyDate.date,
          sorted_under k (sort_for_display l) = sorted_under k l).
Proof.
  intros l.
  assert (Hord : forall l1 y l2 x l3,
             sort_for_display l = (l1 ++ y :: l2 ++ x :: l3)%list ->
             PyDate.leb (parse_safe y) (parse_safe x) = true).
  { intros l1 y l2 x l3 E.
    apply (ordered_pair parse_safe PyDate.leb l1 y l2 x l3).
    rewrite <- E. unfold sort_for_display.
    apply sorted_by_ordered; [apply date_leb_total | apply date_leb_trans]. }
  split; [apply sorted_by_perm |].
  split; [exact Hord |].
  split; [| apply sorted_under_kept].
  intros l1 y l2 x l3 d E Hx Hy.
  specialize (Hord l1 y l2 x l3 E).
  rewrite !parse_safe_date_of, Hx, Hy in Hord.
  unfold date_of in Hy.
  destruct (Json.item y "date") as [[| | | | s | |] |]; try discriminate.
  apply (date_min_least s d Hy). exact Hord.
Qed.

Example sort_for_display_example :
  sort_for_display [dated "2025-02-01"; dated "bad-date"; dated "2025-01-05"]
  = [dated "bad-date"; dated "2025-01-05"; dated "2025-02-01"].
Proof. reflexivity. Qed.

(** C7, as stated, fails: an entry dated 0001-01-01 has a valid date,
    and an entry with an unparsable date that follows it in the
    collection follows it in the display too. *)
Lemma unparsable_after_minimum_date :
  sort_for_display [dated "0001-01-01"; dated "bad-date"]
  = [dated "0001-01-01"; dated "bad-date"]
  /\ date_of (dated "0001-01-01") = Some (PyDate.mkdate 1 1 1)
  /\ date_of (dated "bad-date") = None.
Proof. repeat split; reflexivity. Qed.

(** ** The aggregation loop *)

Lemma aggregate_step_record month year acc members :
  aggregate_step month year acc (JObj members)
  = if in_month month year (JObj members) then
      match Summary.to_key
              (match Json.assoc "category" members with
               | Some c => c
               | None => JStr "Misc"
               end) with
      | Some k =>
          Returned
            (Summary.set (fst acc) k
               (PyFloat.add (Summary.get (fst acc) k PyFloat.zero)
                  (amount_or_zero (JObj members))),
             PyFloat.add (snd acc) (amount_or_zero (JObj members)))
      | None => Raised TypeError
      end
    else Returned acc.
Proof.
  destruct acc as [summary total].
  unfold aggregate_step, in_month, date_of. simpl.
  destruct (Json.assoc "date" members) as [[| | | | s | |] |]; try reflexivity.
  destruct (PyDate.strptime s) as [d |]; [| reflexivity].
  destruct ((PyDate.year d =? year) && (PyDate.month d =? month)); reflexivity.
Qed.

Lemma aggregate_loop_no_match month year l acc :
  Forall (fun e => is_record e = true) l ->
  Forall (fun e => in_month month year e = false) l ->
  aggregate_loop month year l acc = Returned acc.
Proof.
  induction l as [| e r IH]; intros Hrec Hno; [reflexivity |].
  apply List.Forall_cons_iff in Hrec as [He Hrec].
  apply List.Forall_cons_iff in Hno as [Hn Hno].
  destruct e; try discriminate. simpl.
  rewrite aggregate_step_record, Hn. auto.
Qed.

Lemma valid_month month :
  1 <= month <= 12 -> negb ((1 <=? month) && (month <=? 12)) = false.
Proof.
  intros [H1 H2].
  apply Z.leb_le in H1. apply Z.leb_le in H2. rewrite H1, H2. reflexivity.
Qed.

(** The year in a formatted string. *)
Lemma to_string_formattable year :
  formattable_year year -> PyInt.to_string year = Some (Text.of_Z year).
Proof.
  unfold formattable_year, PyInt.to_string. intros H.
  change (Z.of_nat PyInt.max_str_digits) with 4300.
  apply Z.ltb_lt in H. rewrite H. reflexivity.
Qed.

Lemma to_string_cases year :
  PyInt.to_string year = Some (Text.of_Z year) \/ PyInt.to_string year = None.
Proof.
  unfold PyInt.to_string. destruct (Z.abs year <? _); auto.
Qed.

Lemma format_year_returns year w :
  formattable_year year -> format_year year w = (Returned (Text.of_Z year), w).
Proof.
  intros H. unfold format_year. rewrite (to_string_formattable year H).
  reflexivity.
Qed.

Lemma format_year_raises year w :
  ~ formattable_year year -> format_year year w = (Raised ValueError, w).
Proof.
  unfold formattable_year, format_year, PyInt.to_string. intros H.
  change (Z.of_nat PyInt.max_str_digits) with 4300.
  destruct (Z.ltb_spec (Z.abs year) (10 ^ 4300)); [contradiction | reflexivity].
Qed.

Lemma calendar_year_formattable year :
  1 <= year <= 9999 -> formattable_year year.
Proof.
  intros H. unfold formattable_year.
  apply Z.lt_trans with 10000; [lia |].
  apply Z.ltb_lt. vm_compute. reflexivity.
Qed.

(** C9. A valid month and year are a month from 1 to 12 and a year
    that can be written (one of no more than 4300 digits, as every
    calendar year is).  When no entry of the stored collection falls
    in the month, the aggregation returns the empty mapping and the
    total 0.0, and [generate_monthly_summary] returns normally,
    whatever the export flags: it prints the title and "No expenses
    found for this month.", reports no error, and leaves every file as
    loading found it. *)
Theorem generate_monthly_summary_empty :
  forall (month year : Z) (export_json export_csv : bool)
         (w w1 : world) (items : list json),
    1 <= month <= 12 ->
    formattable_year year ->
    load_expenses w = (Returned (JArr items), w1) ->
    Forall (fun e => is_record e = true) items ->
    Forall (fun e => in_month month year e = false) items ->
    aggregate (JArr items) month year = Returned ([], PyFloat.zero)
    /\ generate_monthly_summary month year export_json export_csv w
       = (Returned tt,
          set_stdout
            (stdout w1 ++ [Line (Text.nl ++ summary_title month year);
                           Line "No expenses found for this month."]) w1)
    /\ files (snd (generate_monthly_summary month year export_json export_csv w))
       = files w1.
Proof.
  intros month year ej ec w w1 items Hm Hy Hload Hrec Hno.
  assert (Hagg : aggregate (JArr items) month year = Returned ([], PyFloat.zero)).
  { unfold aggregate. simpl. apply aggregate_loop_no_match; assumption. }
  assert (Hgen : generate_monthly_summary month year ej ec w
                 = (Returned tt,
                    set_stdout
                      (stdout w1 ++ [Line (Text.nl ++ summary_title month year);
                                     Line "No expenses found for this month."]) w1)).
  { unfold generate_monthly_summary. rewrite (valid_month month Hm).
    rewrite (bind_returned _ _ _ _ _ (attempt_eq _ _ _ _ Hload)).
    unfold bind at 1. unfold lift at 1. rewrite Hagg.
    unfold show_summary.
    rewrite (bind_returned _ _ _ _ _
               (bind_returned _ _ _ _ _ (format_year_returns year w1 Hy))).
    cbn [is_nil andb negb]. rewrite !andb_false_r.
    unfold bind, print, ret, set_stdout. cbn [stdout files dir_writable stdin now].
    rewrite <- app_assoc. reflexivity. }
  split; [exact Hagg |]. split; [exact Hgen |].
  rewrite Hgen. reflexivity.
Qed.

Lemma generate_monthly_summary_empty_witness :
  aggregate (JArr [record "2025-02-01" "Travel" (JFloat (lit "30"));
                   record "bad-date" "Food" (JFloat (lit "5"))]) 1 2025
  = Returned ([], PyFloat.zero)
  /\ generate_monthly_summary 1 2025 true true february_only
     = (Returned tt,
        set_stdout
          (stdout february_only ++ [Line (Text.nl ++ summary_title 1 2025);
                           Line "No expenses found for this month."]) february_only)
  /\ files (snd (generate_monthly_summary 1 2025 true true february_only))
     = files february_only.
Proof.
  apply (generate_monthly_summary_empty 1 2025 true true february_only
           february_only
           [record "2025-02-01" "Travel" (JFloat (lit "30"));
            record "bad-date" "Food" (JFloat (lit "5"))]).
  - lia.
  - apply calendar_year_formattable. lia.
  - vm_compute. reflexivity.
  - repeat constructor.
  - repeat constructor.
Defined.

(** A year of 4301 digits cannot be written into the title: line 256
    raises [ValueError], after the collection was loaded and before
    anything is printed. *)
Example unwritable_year_raises :
  generate_monthly_summary 1 unwritable_year true true february_only
  = (Raised ValueError, february_only).
Proof. vm_compute. reflexivity. Qed.

(** ** Amounts that cannot be used *)



Lemma set_keys d k v :
  map fst (Summary.set d k v) = note_key (map fst d) k.
Proof.
  unfold note_key. induction d as [| [k' v'] r IH]; simpl; [reflexivity |].
  destruct (Summary.key_eqb k k'); simpl; [reflexivity |].
  rewrite IH. destruct (existsb (Summary.key_eqb k) (map fst r)); reflexivity.
Qed.



Lemma aggregate_step_keys month year acc e acc' :
  aggregate_step month year acc e = Returned acc' ->
  map fst (fst acc')
  = match contributes month year e with
    | Some k => note_key (map fst (fst acc)) k
    | None => map fst (fst acc)
    end.
Proof.
  destruct e; try (destruct acc; discriminate).
  rewrite aggregate_step_record. unfold contributes. simpl.
  destruct (in_month month year (JObj members)).
  - destruct (Summary.to_key _) as [k |]; [| discriminate].
    intros [= <-]. simpl. apply set_keys.
  - intros [= <-]. reflexivity.
Qed.


Lemma aggregate_loop_app month year l1 l2 acc :
  aggregate_loop month year (l1 ++ l2) acc
  = match aggregate_loop month year l1 acc with
    | Returned acc1 => aggregate_loop month year l2 acc1
    | Raised x => Raised x
    end.
Proof.
  revert acc. induction l1 as [| e r IH]; simpl; intros acc; [reflexivity |].
  destruct (aggregate_step month year acc e); [apply IH | reflexivity].
Qed.






Example unusable_amounts_example :
  aggregate (JArr [record "2025-01-05" "Food" (JFloat (lit "100"));
                   record "2025-01-09" "Fuel" JNull;
                   record "2025-01-20" "Food" (JStr "n/a");
                   JObj [("date", JStr "2025-01-21")]]) 1 2025
  = Returned ([(Summary.KStr "Food", lit "100");
               (Summary.KStr "Fuel", lit "0");
               (Summary.KStr "Misc", lit "0")], lit "100").
Proof. vm_compute. reflexivity. Qed.

(** An amount text in Arabic-Indic digits is a number for [float]; one
    that starts with a file separator is not, and counts as 0.0.  Two
    entries filed under NaN are filed under one key. *)
Example amounts_in_other_digits :
  amount_or_zero (record "2025-01-05" "Food" (JStr arabic_twelve)) = lit "12"
  /\ amount_or_zero (record "2025-01-05" "Food" (JStr (file_separator ++ "5")))
     = PyFloat.zero
  /\ aggregate (JArr [JObj [("date", JStr "2025-01-05");
                            ("category", JFloat PyFloat.nan);
                            ("amount", JInt 1)];
                      JObj [("date", JStr (fullwidth_2025 ++ "-01-06"));
                            ("category", JFloat PyFloat.nan);
                            ("amount", JInt 2)]]) 1 2025
     = Returned ([(Summary.KFloat PyFloat.nan, lit "3")], lit "3").
Proof. repeat split; vm_compute; reflexivity. Qed.

(** ** The rows of the CSV export *)

Lemma aggregate_loop_keys month year l : forall acc acc',
  aggregate_loop month year l acc = Returned acc' ->
  map fst (fst acc')
  = fold_left note_key (month_keys month year l) (map fst (fst acc)).
Proof.
  induction l as [| e r IH]; simpl; intros acc acc' H.
  - injection H as <-. reflexivity.
  - destruct (aggregate_step month year acc e) as [acc1 |] eqn:Hs;
      [| discriminate].
    rewrite (IH acc1 acc' H), (aggregate_step_keys _ _ _ _ _ Hs).
    destruct (contributes month year e); reflexivity.
Qed.

Lemma for_each_print {A} (f : A -> printed) (l : list A) w :
  for_each l (fun x => print (f x)) w
  = (Returned tt, set_stdout (stdout w ++ map f l) w).
Proof.
  revert w. induction l as [| x r IH]; intros w; simpl.
  - unfold ret, set_stdout. rewrite app_nil_r. destruct w; reflexivity.
  - unfold bind, print. rewrite IH. unfold set_stdout. simpl.
    rewrite <- app_assoc. reflexivity.
Qed.

Lemma append_cancel (p a b : string) : p ++ a = p ++ b -> a = b.
Proof.
  induction p as [| c p IH]; simpl; intros H; [exact H |].
  injection H as H. auto.
Qed.

Lemma json_csv_names_differ month year :
  json_filename month year <> csv_filename month year.
Proof.
  unfold json_filename, csv_filename. intros H.
  do 4 apply append_cancel in H. discriminate.
Qed.

Lemma write_file_data w name c :
  may_write w name = true ->
  exists w',
    write_file name c w = (Returned tt, w')
    /\ data <$> (files w' !! name) = Some c
    /\ stdout w' = stdout w.
Proof.
  unfold may_write, write_file.
  destruct (files w !! name) as [f |]; intros ->;
    (eexists; split; [reflexivity |]); simpl;
    rewrite lookup_insert_eq; split; reflexivity.
Qed.

Lemma write_file_other w name c other :
  name <> other ->
  files (snd (write_file name c w)) !! other = files w !! other
  /\ dir_writable (snd (write_file name c w)) = dir_writable w.
Proof.
  intros Hne. unfold write_file.
  destruct (files w !! name) as [f |].
  - destruct (writable f); simpl; [| split; reflexivity].
    rewrite lookup_insert_ne by exact Hne. split; reflexivity.
  - destruct (dir_writable w) eqn:E; simpl; [| split; auto].
    rewrite lookup_insert_ne by exact Hne. split; auto.
Qed.

(** A summary that is not empty is the summary of a calendar year. *)
Lemma in_month_year month year e :
  in_month month year e = true -> 1 <= year <= 9999.
Proof.
  unfold in_month. destruct (date_of e) as [d |] eqn:Hd; [| discriminate].
  intros H. apply andb_true_iff in H as [Hy _]. apply Z.eqb_eq in Hy.
  unfold date_of in Hd.
  destruct (Json.item e "date") as [[| | | | s | |] |]; try discriminate.
  apply strptime_valid in Hd. unfold PyDate.valid in Hd.
  repeat (apply andb_true_iff in Hd as [Hd ?]).
  rewrite ?Z.leb_le in *. lia.
Qed.

Lemma aggregate_loop_year month year l : forall acc acc',
  aggregate_loop month year l acc = Returned acc' ->
  (fst acc <> [] -> 1 <= year <= 9999) ->
  fst acc' <> [] -> 1 <= year <= 9999.
Proof.
  induction l as [| e r IH]; simpl; intros acc acc' H Hacc Hne.
  - injection H as <-. auto.
  - destruct (aggregate_step month year acc e) as [acc1 |] eqn:Hs;
      [| discriminate].
    apply (IH acc1 acc' H); [| exact Hne].
    destruct e; try (destruct acc; discriminate).
    rewrite aggregate_step_record in Hs.
    destruct (in_month month year (JObj members)) eqn:Hin.
    + intros _. exact (in_month_year _ _ _ Hin).
    + injection Hs as <-. exact Hacc.
Qed.

Lemma aggregate_formattable expenses month year summary total :
  aggregate expenses month year = Returned (summary, total) ->
  is_nil summary = false ->
  formattable_year year.
Proof.
  unfold aggregate. intros H Hnil.
  destruct (Json.iter expenses) as [items |]; [| discriminate].
  apply calendar_year_formattable.
  apply (aggregate_loop_year month year items _ _ H).
  - intros Hne. exfalso. apply Hne. reflexivity.
  - simpl. destruct summary; [discriminate | discriminate].
Qed.

(** What the console shows of a summary that is not empty: only the
    console changes. *)
Lemma show_summary_rows month year summary rows (total : PyFloat.float) w :
  formattable_year year ->
  is_nil summary = false ->
  display summary = Some rows ->
  show_summary month year summary total w
  = (Returned tt,
     set_stdout
       (stdout w
        ++ Line (Text.nl ++ summary_title month year)
        :: map (fun row => SummaryRow (fst row) (snd row)) rows
        ++ [Line (Text.rule "-" (String.length (summary_title month year)));
            SummaryTotal total]) w).
Proof.
  intros Hy Hnil Hrows. unfold show_summary.
  rewrite (bind_returned _ _ _ _ _ (format_year_returns year w Hy)).
  fold (summary_title month year). rewrite Hnil, Hrows.
  unfold bind at 1. unfold print at 1.
  unfold bind at 1. unfold lift, of_option.
  unfold bind at 1. rewrite for_each_print.
  unfold bind, print. simpl. f_equal.
  unfold set_stdout. simpl. rewrite <- !app_assoc. reflexivity.
Qed.

(** The exports for a year that can be written. *)
Lemma export_summary_json_run month year summary total w :
  formattable_year year ->
  export_summary_json month year summary total w
  = (let* written :=
       attempt (write_file (json_filename month year)
                  (JsonText (summary_json month year summary total (now w)))) in
     match written with
     | Returned _ =>
         print (Line ("Summary exported to '" ++ json_filename month year ++ "'"))
     | Raised e => print (Report "Failed to export JSON summary:" e)
     end) w.
Proof.
  intros Hy. unfold export_summary_json.
  unfold bind at 1. unfold get_now at 1.
  rewrite (bind_returned _ _ _ _ _ (format_year_returns year w Hy)).
  reflexivity.
Qed.

Lemma export_summary_csv_run month year summary total w :
  formattable_year year ->
  export_summary_csv month year summary total w
  = (let* written :=
       attempt (write_file (csv_filename month year)
                  (CsvText (summary_csv summary total))) in
     match written with
     | Returned _ =>
         print (Line ("CSV summary exported to '" ++ csv_filename month year ++ "'"))
     | Raised e => print (Report "Failed to export CSV summary:" e)
     end) w.
Proof.
  intros Hy. unfold export_summary_csv.
  rewrite (bind_returned _ _ _ _ _ (format_year_returns year w Hy)).
  reflexivity.
Qed.



(** The run of [generate_monthly_summary] on a summary that is not
    empty, up to the exports. *)
Lemma generate_monthly_summary_shown month year export_json export_csv
      w w1 items summary total rows :
  1 <= month <= 12 ->
  load_expenses w = (Returned (JArr items), w1) ->
  aggregate (JArr items) month year = Returned (summary, total) ->
  is_nil summary = false ->
  display summary = Some rows ->
  generate_monthly_summary month year export_json export_csv w
  = ((if export_json then export_summary_json month year summary total
      else ret tt) ;;
     (if export_csv then export_summary_csv month year summary total
      else ret tt))
      (set_stdout
         (stdout w1
          ++ Line (Text.nl ++ summary_title month year)
          :: map (fun row => SummaryRow (fst row) (snd row)) rows
          ++ [Line (Text.rule "-" (String.length (summary_title month year)));
              SummaryTotal total]) w1).
Proof.
  intros Hm Hload Hagg Hnil Hrows.
  unfold generate_monthly_summary. rewrite (valid_month month Hm).
  rewrite (bind_returned _ _ _ _ _ (attempt_eq _ _ _ _ Hload)).
  unfold bind at 1. unfold lift at 1. rewrite Hagg.
  rewrite (bind_returned _ _ _ _ _
             (show_summary_rows month year summary rows total w1
                (aggregate_formattable _ _ _ _ _ Hagg Hnil) Hnil Hrows)).
  rewrite Hnil. simpl negb. rewrite !andb_true_r. reflexivity.
Qed.

(** *** The order of the console display *)









(** Names that differ in case only, here by an accented letter, have
    the same sort key and are shown in the order of the summary. *)
Example display_accents :
  display [(Summary.KStr (uchar 233 ++ "clair"), lit "1");
           (Summary.KStr "Zoo", lit "2");
           (Summary.KStr (uchar 201 ++ "clair"), lit "3");
           (Summary.KStr "apple", lit "4")]
  = Some [("apple", lit "4"); ("Zoo", lit "2");
          (uchar 233 ++ "clair", lit "1"); (uchar 201 ++ "clair", lit "3")].
Proof. vm_compute. reflexivity. Qed.

(** * Further properties of the program *)

(** ** The document after loading *)

(** What holds of the world once [load_expenses] has returned. *)
Lemma load_expenses_document w v w' :
  load_expenses w = (Returned v, w') ->
  exists f items,
    files w' !! EXPENSES_FILE = Some f
    /\ readable f = true
    /\ data f = JsonText (JArr items)
    /\ v = JArr items.
Proof.
  unfold load_expenses. intros H.
  destruct (ensure_expenses_file w) as [[[] | e] w1] eqn:He;
    [| rewrite (bind_raised _ _ _ _ _ He) in H; discriminate].
  rewrite (bind_returned _ _ _ _ _ He) in H.
  unfold read_json in H.
  destruct (files w1 !! EXPENSES_FILE) as [f |] eqn:Hf; [| discriminate].
  destruct (readable f) eqn:Hr; [| discriminate].
  destruct (data f) as [raw | v1 | rows] eqn:Hd; try discriminate.
  injection H as <- <-.
  assert (Hlist : holds_list f = true).
  { destruct (files w !! EXPENSES_FILE) as [f0 |] eqn:Hf0.
    - destruct (holds_list f0) eqn:Hl0.
      + rewrite (ensure_expenses_file_valid w f0 Hf0 Hl0) in He.
        injection He as <-. rewrite Hf0 in Hf. injection Hf as <-. exact Hl0.
      + destruct (dir_writable w) eqn:Hdw.
        * rewrite (ensure_expenses_file_moved w f0 Hf0 Hl0 Hdw) in He.
          injection He as <-. simpl in Hf.
          rewrite lookup_insert_eq in Hf. injection Hf as <-. reflexivity.
        * rewrite (ensure_expenses_file_overwritten w f0 Hf0 Hl0 Hdw) in He.
          simpl in He. destruct (writable f0); [| discriminate].
          injection He as <-. simpl in Hf.
          rewrite lookup_insert_eq in Hf. injection Hf as <-.
          unfold holds_list. simpl. simpl in Hr. rewrite Hr. reflexivity.
    - rewrite (ensure_expenses_file_absent w Hf0),
        (write_file_absent w _ _ Hf0) in He.
      destruct (dir_writable w); [| discriminate].
      injection He as <-. simpl in Hf.
      rewrite lookup_insert_eq in Hf. injection Hf as <-. reflexivity. }
  unfold holds_list in Hlist. rewrite Hr, Hd in Hlist.
  destruct v1; try discriminate. eauto 10.
Qed.

(** X1. Whatever the state of the directory, a call of
    [load_expenses] that returns, returns a JSON list, and the
    document holds that list afterwards. *)
Theorem load_expenses_returns_list :
  forall (w w' : world) (v : json),
    load_expenses w = (Returned v, w') ->
    exists items : list json,
      v = JArr items
      /\ data <$> (files w' !! EXPENSES_FILE) = Some (JsonText (JArr items)).
Proof.
  intros w w' v H.
  destruct (load_expenses_document w v w' H) as (f & items & Hf & _ & Hd & ->).
  exists items. split; [reflexivity |]. rewrite Hf. simpl. rewrite Hd. reflexivity.
Qed.

Lemma load_expenses_returns_list_witness :
  exists items : list json,
    JArr [] = JArr items
    /\ data <$> (files (snd (load_expenses corrupted_world)) !! EXPENSES_FILE)
       = Some (JsonText (JArr items)).
Proof.
  apply (load_expenses_returns_list corrupted_world
           (snd (load_expenses corrupted_world)) (JArr [])).
  vm_compute. reflexivity.
Defined.

(** X2. Loading is repeatable: once [load_expenses] has returned, a
    second call returns the same collection and changes nothing. *)
Theorem load_expenses_repeatable :
  forall (w w' : world) (v : json),
    load_expenses w = (Returned v, w') ->
    load_expenses w' = (Returned v, w').
Proof.
  intros w w' v H.
  destruct (load_expenses_document w v w' H) as (f & items & Hf & Hr & Hd & ->).
  exact (read_json_list w' f items Hf Hr Hd).
Qed.

Lemma load_expenses_repeatable_witness :
  load_expenses (snd (load_expenses corrupted_world))
  = (Returned (JArr []), snd (load_expenses corrupted_world)).
Proof.
  apply (load_expenses_repeatable corrupted_world).
  vm_compute. reflexivity.
Defined.

(** X3. [ensure_expenses_file] touches no file but the document and
    the backup: every other file, the permissions of the directory,
    the console input and the clock are as before. *)
Theorem ensure_expenses_file_frame :
  forall (w : world) (name : string),
    name <> EXPENSES_FILE ->
    name <> backup_name (now w) ->
    let w' := snd (ensure_expenses_file w) in
    files w' !! name = files w !! name
    /\ dir_writable w' = dir_writable w
    /\ stdin w' = stdin w
    /\ now w' = now w.
Proof.
  intros w name Hn Hb. simpl.
  destruct (files w !! EXPENSES_FILE) as [f |] eqn:Hf.
  - destruct (holds_list f) eqn:Hl.
    + rewrite (ensure_expenses_file_valid w f Hf Hl). simpl. auto.
    + destruct (dir_writable w) eqn:Hd.
      * rewrite (ensure_expenses_file_moved w f Hf Hl Hd). simpl.
        rewrite lookup_insert_ne by congruence.
        rewrite lookup_insert_ne by congruence.
        rewrite lookup_delete_ne by congruence. auto.
      * rewrite (ensure_expenses_file_overwritten w f Hf Hl Hd). simpl.
        destruct (writable f); simpl; [rewrite lookup_insert_ne by congruence |];
          auto.
  - rewrite (ensure_expenses_file_absent w Hf), (write_file_absent w _ _ Hf).
    destruct (dir_writable w) eqn:Hd; simpl;
      [rewrite lookup_insert_ne by congruence |]; auto.
Qed.

Lemma ensure_expenses_file_frame_witness :
  let w' := snd (ensure_expenses_file corrupted_world) in
  files w' !! "notes.txt" = files corrupted_world !! "notes.txt"
  /\ dir_writable w' = dir_writable corrupted_world
  /\ stdin w' = stdin corrupted_world
  /\ now w' = now corrupted_world.
Proof.
  apply (ensure_expenses_file_frame corrupted_world "notes.txt").
  - discriminate.
  - intros E. vm_compute in E. discriminate.
Defined.

(** ** What a run leaves alone *)

Lemma generate_monthly_summary_unfold month year export_json export_csv :
  generate_monthly_summary month year export_json export_csv
  = if negb ((1 <=? month) && (month <=? 12)) then
      print (Line "Invalid month/year provided.")
    else
      let* loaded := attempt load_expenses in
      match loaded with
      | Raised e => print (Report "Could not read expenses:" e)
      | Returned expenses =>
          summarize_loaded expenses month year export_json export_csv
      end.
Proof. reflexivity. Qed.

Section Respects.
Variable R : world -> world -> Prop.
Hypothesis R_refl : forall w, R w w.
Hypothesis R_trans : forall a b c, R a b -> R b c -> R a c.
Hypothesis R_stdout : forall l w, R w (set_stdout l w).
Hypothesis R_files : forall f w, R w (set_files f w).
Hypothesis R_export :
  forall month year name c w,
    name = json_filename month year \/ name = csv_filename month year ->
    R w (snd (write_file name c w)).
Hypothesis R_tail : forall w l r, stdin w = l :: r -> R w (set_stdin r w).

Lemma respects_ret {A} (a : A) : respects R (ret a).
Proof. intros w. apply R_refl. Qed.

Lemma respects_raise {A} (e : exn) : respects R (@raise A e).
Proof. intros w. apply R_refl. Qed.

Lemma respects_lift {A} (r : result A) : respects R (lift r).
Proof. intros w. apply R_refl. Qed.

Lemma respects_bind {A B} (m : io A) (k : A -> io B) :
  respects R m -> (forall a, respects R (k a)) -> respects R (bind m k).
Proof.
  intros Hm Hk w. unfold bind. specialize (Hm w).
  destruct (m w) as [[a | e] w1]; simpl in *; [| exact Hm].
  eapply R_trans; [exact Hm | apply Hk].
Qed.

Lemma respects_attempt {A} (m : io A) : respects R m -> respects R (attempt m).
Proof.
  intros Hm w. unfold attempt. specialize (Hm w).
  destruct (m w) as [r w1]. exact Hm.
Qed.

Lemma respects_print p : respects R (print p).
Proof. intros w. apply R_stdout. Qed.

Lemma respects_get_now : respects R get_now.
Proof. intros w. apply R_refl. Qed.

Lemma respects_path_exists name : respects R (path_exists name).
Proof. intros w. apply R_refl. Qed.

Lemma respects_read_json name : respects R (read_json name).
Proof.
  intros w. unfold read_json.
  destruct (files w !! name) as [f |]; [| apply R_refl].
  destruct (readable f); [| apply R_refl].
  destruct (data f); apply R_refl.
Qed.

Lemma respects_write_file name c : respects R (write_file name c).
Proof.
  intros w. unfold write_file.
  destruct (files w !! name) as [f |].
  - destruct (writable f); [apply R_files | apply R_refl].
  - destruct (dir_writable w); [apply R_files | apply R_refl].
Qed.

Lemma respects_rename src dst : respects R (rename src dst).
Proof.
  intros w. unfold rename.
  destruct (files w !! src) as [f |]; [| apply R_refl].
  destruct (dir_writable w); [apply R_files | apply R_refl].
Qed.

Lemma respects_for_each {A} (l : list A) (body : A -> io unit) :
  (forall x, respects R (body x)) -> respects R (for_each l body).
Proof.
  intros Hb. induction l as [| x r IH]; simpl.
  - apply respects_ret.
  - apply respects_bind; [apply Hb | intros _; exact IH].
Qed.

Lemma respects_input prompt : respects R (input prompt).
Proof.
  intros w. unfold input. simpl.
  destruct (stdin w) as [| l r] eqn:E; simpl.
  - apply R_stdout.
  - eapply R_trans; [apply R_stdout |]. apply (R_tail _ l). simpl. exact E.
Qed.

Ltac respect :=
  repeat first
    [ apply respects_ret | apply respects_raise | apply respects_lift
    | apply respects_print | apply respects_get_now
    | apply respects_path_exists | apply respects_read_json
    | apply respects_write_file | apply respects_rename
    | apply respects_input
    | apply respects_attempt
    | apply respects_bind; [| intros ?]
    | apply respects_for_each; intros ?
    | assumption
    | match goal with
      | |- respects _ (if ?b then _ else _) => destruct b
      | |- respects _ (match ?x with _ => _ end) => destruct x
      | |- respects _ (let (_, _) := ?x in _) => destruct x
      end ].

Lemma respects_ensure_expenses_file : respects R ensure_expenses_file.
Proof. unfold ensure_expenses_file. respect. Qed.

Lemma respects_load_expenses : respects R load_expenses.
Proof.
  unfold load_expenses.
  apply respects_bind; [apply respects_ensure_expenses_file | intros _].
  apply respects_read_json.
Qed.

Lemma respects_save_expenses v : respects R (save_expenses v).
Proof. unfold save_expenses. apply respects_write_file. Qed.

Lemma respects_print_rows l : forall total, respects R (print_rows l total).
Proof.
  induction l as [| e r IH]; intros total; simpl; [apply respects_ret |].
  respect. apply IH.
Qed.

Lemma respects_view_expenses : respects R view_expenses.
Proof.
  unfold view_expenses.
  apply respects_bind;
    [apply respects_attempt, respects_load_expenses | intros loaded].
  destruct loaded as [expenses | e]; [| apply respects_print].
  apply respects_bind; [apply respects_lift | intros items].
  destruct (sort_for_display items) as [| x r] eqn:E; [apply respects_print |].
  repeat (apply respects_bind; [apply respects_print | intros _]).
  apply respects_bind; [apply respects_print_rows | intros total].
  respect.
Qed.

Lemma respects_show_summary month year summary total :
  respects R (show_summary month year summary total).
Proof. unfold show_summary. respect. Qed.

Lemma respects_export month year name c (done : printed)
      (failed : exn -> printed) :
  name = json_filename month year \/ name = csv_filename month year ->
  respects R (let* written := attempt (write_file name c) in
              match written with
              | Returned _ => print done
              | Raised e => print (failed e)
              end).
Proof.
  intros Hname.
  apply respects_bind; [| intros written; destruct written; apply respects_print].
  apply respects_attempt. intros w. apply (R_export month year). exact Hname.
Qed.

Lemma respects_export_summary_json month year summary total :
  respects R (export_summary_json month year summary total).
Proof.
  intros w. unfold export_summary_json.
  unfold bind at 1. unfold get_now at 1.
  unfold bind at 1. unfold format_year, lift, of_option.
  destruct (to_string_cases year) as [-> | ->]; [| apply R_refl].
  apply (respects_export month year (json_filename month year)
           (JsonText (summary_json month year summary total (now w)))
           (Line ("Summary exported to '" ++ json_filename month year ++ "'"))
           (Report "Failed to export JSON summary:")).
  left. reflexivity.
Qed.

Lemma respects_export_summary_csv month year summary total :
  respects R (export_summary_csv month year summary total).
Proof.
  intros w. unfold export_summary_csv.
  unfold bind at 1. unfold format_year, lift, of_option.
  destruct (to_string_cases year) as [-> | ->]; [| apply R_refl].
  apply (respects_export month year (csv_filename month year)
           (CsvText (summary_csv summary total))
           (Line ("CSV summary exported to '" ++ csv_filename month year ++ "'"))
           (Report "Failed to export CSV summary:")).
  right. reflexivity.
Qed.

Lemma respects_summarize_loaded expenses month year export_json export_csv :
  respects R (summarize_loaded expenses month year export_json export_csv).
Proof.
  unfold summarize_loaded.
  apply respects_bind; [apply respects_lift | intros [summary total]].
  apply respects_bind; [apply respects_show_summary | intros _].
  apply respects_bind; [| intros _].
  - destruct (export_json && _);
      [apply respects_export_summary_json | apply respects_ret].
  - destruct (export_csv && _);
      [apply respects_export_summary_csv | apply respects_ret].
Qed.

Lemma respects_generate_monthly_summary month year export_json export_csv :
  respects R (generate_monthly_summary month year export_json export_csv).
Proof.
  rewrite generate_monthly_summary_unfold.
  destruct (negb _); [apply respects_print |].
  apply respects_bind;
    [apply respects_attempt, respects_load_expenses | intros loaded].
  destruct loaded as [expenses | e]; [| apply respects_print].
  apply respects_summarize_loaded.
Qed.

Lemma respects_store entry : respects R (store entry).
Proof.
  unfold store.
  apply respects_bind; [apply respects_load_expenses | intros expenses].
  apply respects_bind; [apply respects_lift | intros expenses'].
  apply respects_bind; [apply respects_save_expenses | intros _].
  apply respects_print.
Qed.

Lemma respects_build_entry a : respects R (build_entry a).
Proof. unfold build_entry, today. respect. Qed.

Lemma respects_add_expense a : respects R (add_expense a).
Proof.
  unfold add_expense.
  apply respects_bind; [apply respects_build_entry | intros built].
  destruct built as [message | entry]; [respect |].
  apply respects_bind; [| intros saved; respect].
  apply respects_attempt.
  apply respects_bind; [apply respects_load_expenses | intros expenses].
  apply respects_bind; [apply respects_lift | intros expenses'].
  apply respects_bind; [apply respects_save_expenses | intros _].
  apply respects_print.
Qed.

Lemma respects_generate_monthly_summary_call month year export_json export_csv :
  respects R (generate_monthly_summary_call month year export_json export_csv).
Proof.
  unfold generate_monthly_summary_call.
  destruct month as [m |], year as [y |];
    try apply respects_generate_monthly_summary;
    (apply respects_bind; [apply respects_input | intros user];
     destruct (Text.is_empty _); [apply respects_print |];
     destruct (Text.split _) as [| a [| b [| c r]]];
     try apply respects_print;
     destruct (PyInt.of_string a), (PyInt.of_string b);
     try apply respects_print; apply respects_generate_monthly_summary).
Qed.

Lemma respects_summary_choice : respects R summary_choice.
Proof.
  unfold summary_choice.
  apply respects_bind; [apply respects_input | intros reply].
  apply respects_bind; [destruct (negb _); apply respects_input | intros csv].
  apply respects_generate_monthly_summary_call.
Qed.

Lemma respects_main_loop turns : respects R (main_loop turns).
Proof.
  induction turns as [| n IH]; cbn [main_loop]; [apply respects_raise |].
  apply respects_bind; [apply respects_for_each; intros p; apply respects_print |].
  intros _. apply respects_bind; [apply respects_input | intros choice].
  repeat match goal with
         | |- respects _ (if ?b then _ else _) => destruct b
         end.
  - apply respects_bind; [apply respects_add_expense | intros _; exact IH].
  - apply respects_bind; [apply respects_view_expenses | intros _; exact IH].
  - apply respects_bind; [apply respects_summary_choice | intros _; exact IH].
  - apply respects_print.
  - apply respects_bind; [apply respects_print | intros _; exact IH].
Qed.

End Respects.

(** *** The three relations *)

Lemma same_input_refl w : same_input w w.
Proof. reflexivity. Qed.

Lemma same_input_trans a b c : same_input a b -> same_input b c -> same_input a c.
Proof. unfold same_input. congruence. Qed.

Lemma same_environment_refl w : same_environment w w.
Proof. split; reflexivity. Qed.

Lemma same_environment_trans a b c :
  same_environment a b -> same_environment b c -> same_environment a c.
Proof. unfold same_environment. intros [] []. split; congruence. Qed.

Lemma input_consumed_refl w : input_consumed w w.
Proof. exists []. reflexivity. Qed.

Lemma input_consumed_trans a b c :
  input_consumed a b -> input_consumed b c -> input_consumed a c.
Proof.
  intros [l1 H1] [l2 H2]. exists (l1 ++ l2)%list.
  rewrite H1, H2, app_assoc. reflexivity.
Qed.

Lemma input_consumed_tail w l r : stdin w = l :: r -> input_consumed w (set_stdin r w).
Proof. intros H. exists [l]. rewrite H. reflexivity. Qed.

(** X4. [view_expenses] and [generate_monthly_summary] called with a
    month and a year never read from the console, and neither do the
    storage helpers. *)
Theorem display_functions_leave_console_input :
  forall (w : world) (month year : Z) (export_json export_csv : bool)
         (expenses : json),
    stdin (snd (view_expenses w)) = stdin w
    /\ stdin (snd (generate_monthly_summary month year export_json export_csv w))
       = stdin w
    /\ stdin (snd (load_expenses w)) = stdin w
    /\ stdin (snd (save_expenses expenses w)) = stdin w.
Proof.
  intros w month year ej ec expenses.
  pose proof same_input_refl as Hr. pose proof same_input_trans as Ht.
  assert (Hs : forall l u, same_input u (set_stdout l u)) by reflexivity.
  assert (Hf : forall f u, same_input u (set_files f u)) by reflexivity.
  assert (He : forall (month year : Z) name c u,
             name = json_filename month year \/ name = csv_filename month year ->
             same_input u (snd (write_file name c u))).
  { intros m y name c u _.
    apply (respects_write_file same_input Hr Hf name c u). }
  repeat split.
  - apply (respects_view_expenses same_input Hr Ht Hs Hf).
  - apply (respects_generate_monthly_summary same_input Hr Ht Hs Hf He).
  - apply (respects_load_expenses same_input Hr Ht Hs Hf).
  - apply (respects_save_expenses same_input Hr Hf).
Qed.

(** ** Adding an expense *)

(** X5. [add_expense] appends: with the four arguments supplied and
    accepted, and a document that can be loaded and written, it
    returns [True], and the document then holds the entries it held
    before, in their order, followed by the new entry.  Nothing is
    read from the console. *)
Theorem add_expense_appends :
  forall (date category amount description : string)
         (d : PyDate.date) (amt : PyFloat.float) (w w1 : world)
         (items : list json),
    date <> "" ->
    PyDate.strptime (Text.strip date) = Some d ->
    category <> "" ->
    PyFloat.of_string amount = Some amt ->
    PyFloat.ltb amt PyFloat.zero = false ->
    load_expenses w = (Returned (JArr items), w1) ->
    may_write w1 EXPENSES_FILE = true ->
    exists w' : world,
      add_expense (supplied date category amount description) w
      = (Returned true, w')
      /\ load_expenses w'
         = (Returned (JArr (items ++ [entry_of d category amt description])), w')
      /\ stdin w' = stdin w.
Proof.
  intros date category amount description d amt w w1 items
         Hdate Hd Hcat Ha Hneg Hload Hmay.
  destruct (load_expenses_document w _ w1 Hload) as (f & items' & Hf & Hr & Hdata & E).
  unfold may_write in Hmay. rewrite Hf in Hmay.
  set (entry := entry_of d category amt description).
  set (w2 := set_files (<[EXPENSES_FILE := mkfile (JsonText (JArr (items ++ [entry])))
                                             (readable f) true]> (files w1)) w1).
  exists (set_stdout (stdout w2 ++ [Line "✅ Expense added successfully!"]) w2).
  assert (Hin : stdin w1 = stdin w).
  { pose proof (respects_load_expenses same_input same_input_refl
                  same_input_trans (fun _ _ => eq_refl) (fun _ _ => eq_refl) w) as H.
    rewrite Hload in H. exact H. }
  split; [| split].
  - unfold add_expense, supplied.
    rewrite (bind_returned _ _ _ _ _
               (build_entry_supplied date category amount description d amt w
                  Hdate Hd Hcat Ha Hneg)).
    fold entry. unfold bind at 1.
    assert (Hsave : attempt
                      (let* expenses := load_expenses in
                       let* expenses0 := lift (append expenses entry) in
                       save_expenses expenses0;;
                       print (Line "✅ Expense added successfully!")) w
                    = (Returned (Returned tt),
                       set_stdout (stdout w2 ++ [Line "✅ Expense added successfully!"]) w2)).
    { apply attempt_eq.
      rewrite (bind_returned _ _ _ _ _ Hload).
      unfold lift at 1. unfold bind at 1. simpl append.
      unfold save_expenses.
      assert (Hw : write_file EXPENSES_FILE (JsonText (JArr (items ++ [entry]))) w1
                   = (Returned tt, w2)).
      { rewrite (write_file_present w1 _ _ f Hf), Hmay. reflexivity. }
      rewrite (bind_returned _ _ _ _ _ Hw). reflexivity. }
    rewrite Hsave. reflexivity.
  - eapply read_json_list.
    + simpl. apply lookup_insert_eq.
    + exact Hr.
    + reflexivity.
  - simpl. exact Hin.
Qed.

Lemma add_expense_appends_witness :
  exists w' : world,
    add_expense (supplied "2025-03-09" "Bills" "42.5" "rent") two_entries
    = (Returned true, w')
    /\ load_expenses w'
       = (Returned (JArr ([dated "2025-01-05"; dated "2025-02-01"]
                          ++ [entry_of (PyDate.mkdate 2025 3 9) "Bills"
                                (lit "42.5") "rent"])), w')
    /\ stdin w' = stdin two_entries.
Proof.
  apply (add_expense_appends "2025-03-09" "Bills" "42.5" "rent"
           (PyDate.mkdate 2025 3 9) (lit "42.5") two_entries two_entries
           [dated "2025-01-05"; dated "2025-02-01"]);
    try discriminate; vm_compute; reflexivity.
Defined.

(** X6. A date text that does not parse ends the body of
    [add_expense] before anything else happens: it returns [False],
    prints the rejection, asks nothing and touches no file, whatever
    the other arguments are. *)
Theorem add_expense_rejects_date :
  forall (a : expense_args) (date : string) (w : world),
    arg_date a = Some date ->
    date <> "" ->
    PyDate.strptime (Text.strip date) = None ->
    add_expense a w
    = (Returned false, set_stdout (stdout w ++ [Line invalid_date_message]) w).
Proof.
  intros a date w Ha Hdate Hd.
  unfold add_expense, build_entry. rewrite Ha.
  unfold falsy, or_empty. rewrite (is_empty_false date Hdate).
  unfold bind, ret, print. cbn [negb]. rewrite Hd. reflexivity.
Qed.

Lemma add_expense_rejects_date_witness :
  add_expense (mkargs (Some "2025-13-01") None None None) two_entries
  = (Returned false,
     set_stdout (stdout two_entries ++ [Line invalid_date_message]) two_entries).
Proof.
  apply (add_expense_rejects_date _ "2025-13-01" two_entries);
    [reflexivity | discriminate | reflexivity].
Defined.

(** X7. An amount text that [float] rejects, or that is negative, ends
    [add_expense] with [False] and the rejection on the console; the
    document is not even loaded. *)
Theorem add_expense_rejects_amount :
  forall (date category amount : string) (description : option string)
         (d : PyDate.date) (w : world),
    date <> "" ->
    PyDate.strptime (Text.strip date) = Some d ->
    category <> "" ->
    amount_rejected amount ->
    add_expense (mkargs (Some date) (Some category) (Some amount) description) w
    = (Returned false, set_stdout (stdout w ++ [Line invalid_amount_message]) w).
Proof.
  intros date category amount description d w Hdate Hd Hcat Hrej.
  unfold add_expense, build_entry.
  cbn [arg_date arg_category arg_amount arg_description].
  unfold falsy, or_empty.
  rewrite (is_empty_false date Hdate), (is_empty_false category Hcat).
  unfold bind, ret, print. cbn [negb]. rewrite Hd.
  rewrite (is_empty_false category Hcat).
  unfold amount_rejected in Hrej.
  destruct (PyFloat.of_string amount) as [amt |]; [rewrite Hrej |]; reflexivity.
Qed.

Lemma add_expense_rejects_amount_witness :
  add_expense (mkargs (Some "2025-01-05") (Some "Food") (Some "-5") None) two_entries
  = (Returned false,
     set_stdout (stdout two_entries ++ [Line invalid_amount_message]) two_entries).
Proof.
  apply (add_expense_rejects_amount "2025-01-05" "Food" "-5" None
           (PyDate.mkdate 2025 1 5) two_entries);
    [discriminate | reflexivity | discriminate | vm_compute; reflexivity].
Defined.

(** What is accepted: a date between whitespace of any kind and in the
    digits of another script, an amount in such digits.  What is not:
    an amount after a file separator, which [float] does not strip. *)
Example add_expense_other_scripts :
  add_expense (supplied (nbsp ++ fullwidth_2025 ++ "-01-05" ++ em_space)
                 "Food" arabic_twelve "") no_files
  = (Returned true,
     mkworld {[ EXPENSES_FILE :=
                  mkfile (JsonText
                            (JArr [entry_of (PyDate.mkdate 2025 1 5) "Food"
                                     (lit "12") ""])) true true ]}
       true [] [Line "✅ Expense added successfully!"] (now no_files))
  /\ add_expense (supplied "2025-01-05" "Food" (file_separator ++ "5") "")
       no_files
     = (Returned false, set_stdout [Line invalid_amount_message] no_files).
Proof. split; vm_compute; reflexivity. Qed.

(** When the block that stores the entry returns, the document holds
    the entry at its end. *)
Lemma store_returned entry w w' :
  store entry w = (Returned tt, w') ->
  exists items,
    load_expenses w' = (Returned (JArr (items ++ [entry])), w').
Proof.
  unfold store. intros H.
  destruct (load_expenses w) as [[v | e] w1] eqn:Hload;
    [| rewrite (bind_raised _ _ _ _ _ Hload) in H; discriminate].
  rewrite (bind_returned _ _ _ _ _ Hload) in H.
  destruct (load_expenses_document w v w1 Hload)
    as (f & items & Hf & Hr & Hd & ->).
  exists items.
  unfold lift at 1 in H. unfold bind at 1 in H. cbn [append] in H.
  unfold save_expenses in H. unfold bind at 1 in H.
  rewrite (write_file_present w1 _ _ f Hf) in H.
  destruct (writable f); [| discriminate].
  unfold print in H. injection H as <-.
  eapply read_json_list; [simpl; apply lookup_insert_eq | exact Hr | reflexivity].
Qed.

(** X8. With the four arguments supplied, [add_expense] never raises
    and never reads the console: it returns [True] or [False], and
    [True] only when the document then ends with the new entry, filed
    under the category given. *)
Theorem add_expense_supplied_outcome :
  forall (date category amount description : string) (w : world),
    date <> "" ->
    category <> "" ->
    exists (b : bool) (w' : world),
      add_expense (supplied date category amount description) w
      = (Returned b, w')
      /\ stdin w' = stdin w
      /\ (b = true ->
          exists items entry,
            load_expenses w' = (Returned (JArr (items ++ [entry])), w')
            /\ Json.item entry "category" = Some (JStr category)).
Proof.
  intros date category amount description w Hdate Hcat.
  destruct (PyDate.strptime (Text.strip date)) as [d |] eqn:Hd.
  2: { eexists false, _. split; [| split; [| discriminate]].
       - unfold add_expense, build_entry, supplied.
         cbn [arg_date]. unfold falsy, or_empty.
         rewrite (is_empty_false date Hdate).
         unfold bind, ret, print. cbn [negb]. rewrite Hd. reflexivity.
       - reflexivity. }
  destruct (PyFloat.of_string amount) as [amt |] eqn:Ha.
  2: { eexists false, _. split; [| split; [| discriminate]].
       - unfold add_expense, build_entry, supplied.
         cbn [arg_date arg_category arg_amount arg_description].
         unfold falsy, or_empty.
         rewrite (is_empty_false date Hdate), (is_empty_false category Hcat).
         unfold bind, ret, print. cbn [negb]. rewrite Hd.
         rewrite (is_empty_false category Hcat), Ha. reflexivity.
       - reflexivity. }
  destruct (PyFloat.ltb amt PyFloat.zero) eqn:Hneg.
  { eexists false, _. split; [| split; [| discriminate]].
    - unfold add_expense, build_entry, supplied.
      cbn [arg_date arg_category arg_amount arg_description].
      unfold falsy, or_empty.
      rewrite (is_empty_false date Hdate), (is_empty_false category Hcat).
      unfold bind, ret, print. cbn [negb]. rewrite Hd.
      rewrite (is_empty_false category Hcat), Ha, Hneg. reflexivity.
    - reflexivity. }
  set (entry := entry_of d category amt description).
  assert (Hadd : add_expense (supplied date category amount description) w
                 = (let* saved := attempt (store entry) in
                    match saved with
                    | Returned _ => ret true
                    | Raised e => print (Report "Failed to save expense:" e) ;; ret false
                    end) w).
  { unfold add_expense, supplied.
    rewrite (bind_returned _ _ _ _ _
               (build_entry_supplied date category amount description d amt w
                  Hdate Hd Hcat Ha Hneg)).
    reflexivity. }
  pose proof (respects_store same_input same_input_refl same_input_trans
                (fun _ _ => eq_refl) (fun _ _ => eq_refl) entry w) as Hin.
  rewrite Hadd. unfold bind, attempt.
  destruct (store entry w) as [[[] | e] w2] eqn:Hs; simpl in Hin.
  - exists true, w2. split; [reflexivity |]. split; [exact Hin |].
    intros _. destruct (store_returned entry w w2 Hs) as [items Hl].
    exists items, entry. split; [exact Hl | reflexivity].
  - eexists false, _. split; [reflexivity |]. split; [exact Hin | discriminate].
Qed.

Lemma add_expense_supplied_outcome_witness :
  exists (b : bool) (w' : world),
    add_expense (supplied "2025-03-09" "Bills" "42.5" "rent") read_only_dir
    = (Returned b, w')
    /\ stdin w' = stdin read_only_dir
    /\ (b = true ->
        exists items entry,
          load_expenses w' = (Returned (JArr (items ++ [entry])), w')
          /\ Json.item entry "category" = Some (JStr "Bills")).
Proof.
  apply (add_expense_supplied_outcome "2025-03-09" "Bills" "42.5" "rent"
           read_only_dir); discriminate.
Defined.

Example add_expense_read_only :
  add_expense (supplied "2025-03-09" "Bills" "42.5" "rent") read_only_dir
  = (Returned false,
     set_stdout [Report "Failed to save expense:" OSError] read_only_dir).
Proof. vm_compute. reflexivity. Qed.

(** ** Dates written and read back *)

Lemma chars_append a b :
  Text.chars (a ++ b) = (Text.chars a ++ Text.chars b)%list.
Proof.
  unfold Text.chars. induction a as [| c a IH]; simpl; [reflexivity |].
  rewrite IH. reflexivity.
Qed.

Lemma year_text_all : forallb year_text_ok (seqZ 1 9999) = true.
Proof. vm_compute. reflexivity. Qed.

Lemma year_text y : 1 <= y <= 9999 -> year_text_ok y = true.
Proof.
  intros Hy. pose proof year_text_all as H.
  rewrite forallb_forall in H. apply H.
  apply list_elem_of_In, elem_of_seqZ. lia.
Qed.

(** An ASCII text has one character per byte. *)
Lemma characters_ascii l :
  Text.is_ascii l = true -> Text.characters l = map (fun c => [c]) l.
Proof.
  unfold Text.is_ascii.
  induction l as [| c r IH]; [reflexivity |].
  cbn [forallb]. intros H. apply andb_true_iff in H as [Hc Hr].
  cbn [Text.characters map]. rewrite (IH Hr).
  destruct r as [| c' r']; [reflexivity |].
  cbn [forallb] in Hr. apply andb_true_iff in Hr as [Hc' _].
  cbn [map Text.continued]. unfold Text.is_continuation.
  apply Z.ltb_lt in Hc'.
  destruct (Z.leb_spec 128 (Text.code c')); [lia | reflexivity].
Qed.

Lemma points_ascii l :
  Text.is_ascii l = true ->
  map Text.point (Text.characters l) = map Text.code l.
Proof.
  intros H. rewrite (characters_ascii l H), map_map.
  apply map_ext_in. intros c Hin.
  unfold Text.is_ascii in H. rewrite forallb_forall in H.
  unfold Text.point. cbn [map]. rewrite (H c Hin). reflexivity.
Qed.

Lemma is_ascii_app a b :
  Text.is_ascii (a ++ b) = Text.is_ascii a && Text.is_ascii b.
Proof. apply forallb_app. Qed.

Lemma digit_ascii c : Text.is_digit c = true -> (Text.code c <? 128) = true.
Proof.
  unfold Text.is_digit. intros H. apply andb_true_iff in H as [_ H].
  apply Z.leb_le in H. apply Z.ltb_lt. lia.
Qed.

(** On the ASCII digits [\d] and the digit classes agree. *)
Lemma decimal_value_digit c :
  Text.is_digit c = true ->
  Text.decimal_value (Text.code c) = Some (Text.digit_val c).
Proof.
  destruct c as [[] [] [] [] [] [] [] []]; vm_compute;
    intros H; try discriminate H; reflexivity.
Qed.

Lemma zfill2_ascii_all :
  forallb (fun n => Text.is_ascii (Text.chars (Text.zfill 2 n))) (seqZ 0 32)
  = true.
Proof. vm_compute. reflexivity. Qed.

Lemma zfill2_ascii n :
  0 <= n <= 31 -> Text.is_ascii (Text.chars (Text.zfill 2 n)) = true.
Proof.
  intros Hn. pose proof zfill2_ascii_all as H.
  rewrite forallb_forall in H. apply (H n).
  apply list_elem_of_In, elem_of_seqZ. lia.
Qed.

Lemma parse_month_zfill m r :
  1 <= m <= 12 ->
  PyDate.parse_month (map Text.code (Text.chars (Text.zfill 2 m)) ++ 45 :: r)
  = Some (m, r).
Proof.
  intros Hm.
  assert (H : In m (map Z.of_nat (seq 1 12))).
  { apply in_map_iff. exists (Z.to_nat m). split; [lia |]. apply in_seq. lia. }
  simpl in H. repeat (destruct H as [<- | H]; [reflexivity |]). contradiction.
Qed.

Lemma parse_day_zfill d :
  1 <= d <= 31 ->
  PyDate.parse_day (map Text.code (Text.chars (Text.zfill 2 d))) = Some d.
Proof.
  intros Hd.
  assert (H : In d (map Z.of_nat (seq 1 31))).
  { apply in_map_iff. exists (Z.to_nat d). split; [lia |]. apply in_seq. lia. }
  simpl in H. repeat (destruct H as [<- | H]; [reflexivity |]). contradiction.
Qed.

Lemma days_in_month_le y m : PyDate.days_in_month y m <= 31.
Proof.
  unfold PyDate.days_in_month.
  repeat match goal with
         | |- context [match ?x with _ => _ end] => destruct x
         end; lia.
Qed.

Lemma strptime_isoformat_valid y m d :
  PyDate.valid y m d = true ->
  PyDate.strptime (PyDate.isoformat (PyDate.mkdate y m d))
  = Some (PyDate.mkdate y m d).
Proof.
  intros Hv. pose proof Hv as Hv'. unfold PyDate.valid in Hv'.
  repeat (apply andb_true_iff in Hv' as [Hv' ?]).
  rewrite ?Z.leb_le in *.
  pose proof (days_in_month_le y m) as Hle.
  pose proof (year_text y ltac:(lia)) as Hy.
  unfold year_text_ok in Hy.
  unfold PyDate.strptime, Text.points, PyDate.isoformat.
  cbn [PyDate.year PyDate.month PyDate.day].
  rewrite !chars_append.
  destruct (Text.chars (Text.zfill 4 y)) as [| a [| b [| c [| e [| ? ?]]]]];
    try discriminate.
  apply andb_true_iff in Hy as [Hy Hval].
  apply Z.eqb_eq in Hval.
  apply andb_true_iff in Hy as [Hy He].
  apply andb_true_iff in Hy as [Hy Hc].
  apply andb_true_iff in Hy as [Ha Hb].
  change (Text.chars "-") with ["-"%char].
  rewrite points_ascii.
  2: { rewrite !is_ascii_app. cbn [Text.is_ascii forallb].
       rewrite (digit_ascii a Ha), (digit_ascii b Hb), (digit_ascii c Hc),
         (digit_ascii e He).
       fold (Text.is_ascii (Text.chars (Text.zfill 2 m))).
       fold (Text.is_ascii (Text.chars (Text.zfill 2 d))).
       rewrite (zfill2_ascii m ltac:(lia)), (zfill2_ascii d ltac:(lia)).
       reflexivity. }
  rewrite !map_app. cbn [map app].
  change (Text.code "-") with 45.
  rewrite (decimal_value_digit a Ha), (decimal_value_digit b Hb),
    (decimal_value_digit c Hc), (decimal_value_digit e He), Hval.
  rewrite (parse_month_zfill m _ ltac:(lia)).
  rewrite (parse_day_zfill d ltac:(lia)).
  rewrite Hv. reflexivity.
Qed.

Lemma stored_date_shape s category description d amt :
  PyDate.strptime s = Some d ->
  date_of (entry_of d category amt description) = Some d
  /\ amount_or_zero (entry_of d category amt description) = PyFloat.round2 amt.
Proof.
  intros Hs. split; [| reflexivity].
  unfold date_of, entry_of. simpl.
  pose proof (strptime_valid s d Hs) as Hv.
  destruct d as [y m dd]. apply strptime_isoformat_valid. exact Hv.
Qed.

(** X9. Dates survive storage: a date that [strptime] has accepted is
    written by [isoformat] as a text that [strptime] accepts again, as
    the same date.  So an entry [add_expense] builds is dated, for
    sorting and for the summaries, with the day it was entered for. *)
Theorem stored_date_reads_back :
  forall (s category description : string) (d : PyDate.date)
         (amt : PyFloat.float),
    PyDate.strptime s = Some d ->
    PyDate.strptime (PyDate.isoformat d) = Some d
    /\ date_of (entry_of d category amt description) = Some d
    /\ parse_safe (entry_of d category amt description) = d.
Proof.
  intros s category description d amt Hs.
  assert (H : PyDate.strptime (PyDate.isoformat d) = Some d).
  { pose proof (strptime_valid s d Hs) as Hv.
    destruct d as [y m dd]. apply strptime_isoformat_valid. exact Hv. }
  split; [exact H |].
  assert (Hd : date_of (entry_of d category amt description) = Some d)
    by (unfold date_of, entry_of; simpl; exact H).
  split; [exact Hd |]. rewrite parse_safe_date_of, Hd. reflexivity.
Qed.

Lemma stored_date_reads_back_witness :
  PyDate.strptime (PyDate.isoformat (PyDate.mkdate 2025 1 5))
  = Some (PyDate.mkdate 2025 1 5)
  /\ date_of (entry_of (PyDate.mkdate 2025 1 5) "Food" (lit "10") "")
     = Some (PyDate.mkdate 2025 1 5)
  /\ parse_safe (entry_of (PyDate.mkdate 2025 1 5) "Food" (lit "10") "")
     = PyDate.mkdate 2025 1 5.
Proof.
  apply (stored_date_reads_back "2025-1-5" "Food" "" (PyDate.mkdate 2025 1 5)
           (lit "10")).
  reflexivity.
Defined.

(** ** An added entry in the summaries *)

Lemma aggregate_snoc items e month year :
  aggregate (JArr (items ++ [e])) month year
  = match aggregate (JArr items) month year with
    | Returned acc => aggregate_step month year acc e
    | Raised x => Raised x
    end.
Proof.
  unfold aggregate. cbn [Json.iter]. rewrite aggregate_loop_app.
  destruct (aggregate_loop month year items ([], PyFloat.zero)) as [acc | x];
    [| reflexivity].
  cbn [aggregate_loop]. destruct (aggregate_step month year acc e); reflexivity.
Qed.

(** X10. An entry built by [add_expense] and appended to a collection
    is counted where it belongs: in the summary of its own month its
    rounded amount is added to the total of its category and to the
    grand total, and the summary of any other month is what it was. *)
Theorem aggregate_added_entry :
  forall (items : list json) (s category description : string)
         (d : PyDate.date) (amt : PyFloat.float) (month year : Z),
    PyDate.strptime s = Some d ->
    let entry := entry_of d category amt description in
    aggregate (JArr (items ++ [entry])) month year
    = match aggregate (JArr items) month year with
      | Returned (summary, total) =>
          if (PyDate.year d =? year) && (PyDate.month d =? month) then
            Returned
              (Summary.set summary (Summary.KStr category)
                 (PyFloat.add
                    (Summary.get summary (Summary.KStr category) PyFloat.zero)
                    (PyFloat.round2 amt)),
               PyFloat.add total (PyFloat.round2 amt))
          else Returned (summary, total)
      | Raised x => Raised x
      end.
Proof.
  intros items s category description d amt month year Hs entry.
  rewrite aggregate_snoc.
  destruct (aggregate (JArr items) month year) as [[summary total] | x];
    [| reflexivity].
  unfold entry, entry_of. rewrite aggregate_step_record.
  fold (entry_of d category amt description).
  unfold in_month.
  destruct (stored_date_shape s category description d amt Hs) as [Hd Ha].
  rewrite Hd.
  destruct ((PyDate.year d =? year) && (PyDate.month d =? month));
    [| reflexivity].
  rewrite Ha. reflexivity.
Qed.

Lemma aggregate_added_entry_witness :
  let entry := entry_of (PyDate.mkdate 2025 1 9) "Food" (lit "2.5") "" in
  aggregate (JArr ([dated "2025-01-05"] ++ [entry])) 1 2025
  = match aggregate (JArr [dated "2025-01-05"]) 1 2025 with
    | Returned (summary, total) =>
        if (PyDate.year (PyDate.mkdate 2025 1 9) =? 2025)
           && (PyDate.month (PyDate.mkdate 2025 1 9) =? 1) then
          Returned
            (Summary.set summary (Summary.KStr "Food")
               (PyFloat.add
                  (Summary.get summary (Summary.KStr "Food") PyFloat.zero)
                  (PyFloat.round2 (lit "2.5"))),
             PyFloat.add total (PyFloat.round2 (lit "2.5")))
        else Returned (summary, total)
    | Raised x => Raised x
    end.
Proof.
  apply (aggregate_added_entry [dated "2025-01-05"] "2025-1-9" "Food" ""
           (PyDate.mkdate 2025 1 9) (lit "2.5") 1 2025).
  reflexivity.
Defined.

(** ** The entries the program writes *)

Lemma round_sign_kept mx ex lx :
  PyFloat.ltb (binary_round_aux PyFloat.prec PyFloat.emax false mx ex lx)
    PyFloat.zero = false.
Proof.
  unfold binary_round_aux.
  destruct (shr_fexp _ _ mx ex lx) as [mrs e'].
  destruct (shr_fexp _ _ _ e' loc_Exact) as [mrs' e''].
  destruct (shr_m mrs'); try reflexivity.
  destruct (e'' <=? _); reflexivity.
Qed.

Lemma round2_not_negative amt :
  PyFloat.ltb amt PyFloat.zero = false ->
  PyFloat.ltb (PyFloat.round2 amt) PyFloat.zero = false.
Proof.
  destruct amt as [s | s | | s m e]; simpl; try (intros H; exact H).
  destruct s; [discriminate | intros _].
  destruct (0 <=? e); [reflexivity |].
  unfold PyFloat.of_decimal.
  match goal with |- context [match ?n with Z0 => _ | _ => _ end] => destruct n end;
    try reflexivity.
  simpl. unfold PyFloat.of_ratio.
  destruct (SFdiv_core_binary _ _ _ _ _ _) as [[mz ez] lz].
  apply round_sign_kept.
Qed.

Lemma build_entry_accepts a w entry w' :
  build_entry a w = (Returned (inr entry), w') ->
  exists (s category description : string) (d : PyDate.date)
         (amt : PyFloat.float),
    PyDate.strptime s = Some d
    /\ category <> ""
    /\ PyFloat.ltb amt PyFloat.zero = false
    /\ entry = entry_of d category amt description.
Proof.
  unfold build_entry. intros H.
  unfold bind at 1 in H.
  match type of H with
  | context [match ?m w with _ => _ end] =>
      destruct (m w) as [[date_str | e] w1]; [| discriminate]
  end.
  destruct (PyDate.strptime date_str) as [d |] eqn:Hd; [| discriminate].
  unfold bind at 1 in H.
  match type of H with
  | context [match ?m w1 with _ => _ end] =>
      destruct (m w1) as [[category | e] w2]; [| discriminate]
  end.
  unfold bind at 1 in H.
  match type of H with
  | context [match ?m w2 with _ => _ end] =>
      destruct (m w2) as [[amount_str | e] w3]; [| discriminate]
  end.
  destruct (PyFloat.of_string amount_str) as [amt |]; [| discriminate].
  destruct (PyFloat.ltb amt PyFloat.zero) eqn:Hneg; [discriminate |].
  unfold bind at 1 in H.
  match type of H with
  | context [match ?m w3 with _ => _ end] =>
      destruct (m w3) as [[description | e] w4]; [| discriminate]
  end.
  unfold ret in H. injection H as <- _.
  exists date_str, (if Text.is_empty category then "Misc" else category),
    description, d, amt.
  repeat split; try assumption.
  destruct category; simpl; discriminate.
Qed.

(** X11. Whatever the arguments and whatever is typed at the prompts,
    an entry that [add_expense] builds has the four members date,
    category, amount and description, in this order: the date is the
    ISO form of a valid date and is read back as that date, the
    category is a text that is not empty, the amount is a float that
    is not negative, and the description is a text. *)
Theorem built_entry_well_formed :
  forall (a : expense_args) (w w' : world) (entry : json),
    build_entry a w = (Returned (inr entry), w') ->
    exists (d : PyDate.date) (category description : string)
           (amount : PyFloat.float),
      entry = JObj [("date", JStr (PyDate.isoformat d));
                    ("category", JStr category);
                    ("amount", JFloat amount);
                    ("description", JStr description)]
      /\ date_of entry = Some d
      /\ category <> ""
      /\ PyFloat.ltb amount PyFloat.zero = false.
Proof.
  intros a w w' entry H.
  destruct (build_entry_accepts a w entry w' H)
    as (s & category & description & d & amt & Hs & Hc & Hneg & ->).
  exists d, category, description, (PyFloat.round2 amt).
  split; [reflexivity |].
  split; [apply (stored_date_shape s category description d amt Hs) |].
  split; [exact Hc | apply round2_not_negative; exact Hneg].
Qed.

Lemma built_entry_well_formed_witness :
  exists (d : PyDate.date) (category description : string)
         (amount : PyFloat.float),
    entry_of (PyDate.mkdate 2025 1 5) "Food" (lit "10") ""
    = JObj [("date", JStr (PyDate.isoformat d));
            ("category", JStr category);
            ("amount", JFloat amount);
            ("description", JStr description)]
    /\ date_of (entry_of (PyDate.mkdate 2025 1 5) "Food" (lit "10") "") = Some d
    /\ category <> ""
    /\ PyFloat.ltb amount PyFloat.zero = false.
Proof.
  apply (built_entry_well_formed no_category (set_stdin ["Food"] no_files)
           (set_stdout [Prompt category_prompt] no_files)).
  vm_compute. reflexivity.
Defined.

(** ** The table of expenses *)

Lemma print_rows_printable l : forall total w,
  Forall (fun e => printable e = true) l ->
  print_rows l total w
  = (Returned (running_total total l),
     set_stdout (stdout w ++ map expense_row l) w).
Proof.
  induction l as [| e r IH]; intros total w Hp.
  - simpl. unfold ret, set_stdout. rewrite app_nil_r. destruct w; reflexivity.
  - apply List.Forall_cons_iff in Hp as [He Hr].
    destruct e as [| | | | | | members]; try discriminate.
    unfold printable in He. cbn [print_rows].
    unfold lift, of_option, bind, print. cbn [Json.get].
    fold (member_or "date" (JStr "") members).
    fold (member_or "category" (JStr "") members).
    fold (member_or "description" (JStr "") members).
    rewrite He. rewrite (IH _ _ Hr).
    unfold running_total, set_stdout. simpl. rewrite <- app_assoc. reflexivity.
Qed.

Lemma print_rows_stops before e after : forall total w,
  Forall (fun x => printable x = true) before ->
  printable e = false ->
  print_rows (before ++ e :: after) total w
  = (Raised (row_error e),
     set_stdout (stdout w ++ map expense_row before) w).
Proof.
  induction before as [| x r IH]; intros total w Hp He.
  - cbn [app print_rows map]. unfold set_stdout. rewrite app_nil_r.
    destruct e as [| | | | | | members]; try (destruct w; reflexivity).
    unfold printable in He.
    unfold lift, of_option, bind. cbn [Json.get].
    fold (member_or "date" (JStr "") members).
    fold (member_or "category" (JStr "") members).
    rewrite He. unfold raise. destruct w; reflexivity.
  - apply List.Forall_cons_iff in Hp as [Hx Hr].
    destruct x as [| | | | | | members]; try discriminate.
    unfold printable in Hx. cbn [app print_rows].
    unfold lift, of_option, bind, print. cbn [Json.get].
    fold (member_or "date" (JStr "") members).
    fold (member_or "category" (JStr "") members).
    fold (member_or "description" (JStr "") members).
    rewrite Hx. rewrite (IH _ _ Hr He).
    unfold set_stdout. simpl. rewrite <- app_assoc. reflexivity.
Qed.

Lemma view_expenses_loaded w items w1 :
  load_expenses w = (Returned (JArr items), w1) ->
  view_expenses w
  = match sort_for_display items with
    | [] => print (Line "No expenses recorded yet.") w1
    | sorted =>
        (print table_rule ;; print (Line table_header) ;; print table_rule ;;
         let* total := print_rows sorted PyFloat.zero in
         print table_rule ;; print (ExpenseTotal total) ;; print (Line "")) w1
    end.
Proof.
  intros Hload. unfold view_expenses.
  rewrite (bind_returned _ _ _ _ _ (attempt_eq _ _ _ _ Hload)).
  unfold lift at 1. unfold bind at 1. cbn [Json.iter of_option].
  destruct (sort_for_display items); reflexivity.
Qed.

(** X12. For a document whose entries can all be shown,
    [view_expenses] returns normally and prints the table: the header,
    one row per entry in the order of the sort, with the amount the
    row is counted with, and the total of these amounts added up from
    0.0 in that order; for an empty document it prints "No expenses
    recorded yet.".  The body changes no file after loading. *)
Theorem view_expenses_table :
  forall (w w1 : world) (items : list json),
    load_expenses w = (Returned (JArr items), w1) ->
    Forall (fun e => printable e = true) items ->
    view_expenses w
    = (Returned tt,
       set_stdout (stdout w1 ++ table (sort_for_display items)) w1).
Proof.
  intros w w1 items Hload Hp.
  rewrite (view_expenses_loaded w items w1 Hload).
  assert (Hs : Forall (fun e => printable e = true) (sort_for_display items)).
  { eapply Permutation.Permutation_Forall; [| exact Hp].
    apply sorted_by_perm. }
  destruct (sort_for_display items) as [| x r]; [reflexivity |].
  unfold bind at 1. unfold print at 1.
  unfold bind at 1. unfold print at 1.
  unfold bind at 1. unfold print at 1.
  unfold bind at 1. rewrite (print_rows_printable _ _ _ Hs).
  unfold bind, print, table, set_stdout. simpl.
  rewrite <- !app_assoc. reflexivity.
Qed.

Lemma view_expenses_table_witness :
  view_expenses two_entries
  = (Returned tt,
     set_stdout (stdout two_entries
                 ++ table (sort_for_display [dated "2025-01-05"; dated "2025-02-01"]))
       two_entries).
Proof.
  apply (view_expenses_table two_entries two_entries
           [dated "2025-01-05"; dated "2025-02-01"]).
  - vm_compute. reflexivity.
  - repeat constructor.
Defined.

(** X13. The table stops at the first entry that cannot be shown: when
    the sorted entries reach one that is not a record, or one whose
    date or category is null, a list or an object, [view_expenses]
    raises ([AttributeError] for the former, [TypeError] for the
    latter) after the header and the rows before it, and prints no
    total. *)
Theorem view_expenses_stops :
  forall (w w1 : world) (items before after : list json) (e : json),
    load_expenses w = (Returned (JArr items), w1) ->
    sort_for_display items = (before ++ e :: after)%list ->
    Forall (fun x => printable x = true) before ->
    printable e = false ->
    view_expenses w
    = (Raised (row_error e),
       set_stdout
         (stdout w1 ++ [table_rule; Line table_header; table_rule]
          ++ map expense_row before) w1).
Proof.
  intros w w1 items before after e Hload Hsort Hp He.
  rewrite (view_expenses_loaded w items w1 Hload), Hsort.
  destruct (before ++ e :: after)%list as [| x r] eqn:E;
    [destruct before; discriminate |].
  rewrite <- E.
  unfold bind at 1. unfold print at 1.
  unfold bind at 1. unfold print at 1.
  unfold bind at 1. unfold print at 1.
  unfold bind at 1. rewrite (print_rows_stops _ _ _ _ _ Hp He).
  unfold set_stdout. simpl. rewrite <- !app_assoc. reflexivity.
Qed.

Lemma view_expenses_stops_witness :
  view_expenses with_null_category
  = (Raised (row_error null_category),
     set_stdout
       (stdout with_null_category
        ++ [table_rule; Line table_header; table_rule]
        ++ map expense_row [dated "2025-01-05"]) with_null_category).
Proof.
  apply (view_expenses_stops with_null_category with_null_category
           [null_category; dated "2025-01-05"] [dated "2025-01-05"] []).
  - vm_compute. reflexivity.
  - reflexivity.
  - repeat constructor.
  - reflexivity.
Defined.

(** ** What the aggregation skips and what stops it *)

(** X14. Entries outside the month do not count: a record whose date
    does not parse, is missing, or falls in another month can be
    removed from the collection without changing the summary or the
    total of the month. *)
Theorem aggregate_skips_other_entries :
  forall (month year : Z) (before after : list json) (e : json),
    is_record e = true ->
    in_month month year e = false ->
    aggregate (JArr (before ++ e :: after)) month year
    = aggregate (JArr (before ++ after)) month year.
Proof.
  intros month year before after e Hrec Hout.
  unfold aggregate. cbn [Json.iter]. rewrite !aggregate_loop_app.
  destruct (aggregate_loop month year before ([], PyFloat.zero)) as [acc | x];
    [| reflexivity].
  cbn [aggregate_loop]. destruct e; try discriminate.
  rewrite aggregate_step_record, Hout. reflexivity.
Qed.

Lemma aggregate_skips_other_entries_witness :
  aggregate (JArr ([dated "2025-01-05"] ++ dated "bad-date" :: [dated "2025-01-09"]))
            1 2025
  = aggregate (JArr ([dated "2025-01-05"] ++ [dated "2025-01-09"])) 1 2025.
Proof.
  apply (aggregate_skips_other_entries 1 2025 [dated "2025-01-05"]
           [dated "2025-01-09"] (dated "bad-date")); reflexivity.
Defined.

(** X15. The aggregation stops at the first element it cannot handle:
    if the elements before it are aggregated without error, an element
    that is not a record raises [AttributeError], and a record of the
    month whose category is a list or an object raises [TypeError];
    the rest of the collection is not looked at. *)
Theorem aggregate_stops :
  forall (month year : Z) (before after : list json) (e : json)
         (acc : Summary.t * PyFloat.float),
    aggregate (JArr before) month year = Returned acc ->
    (is_record e = false ->
     aggregate (JArr (before ++ e :: after)) month year = Raised AttributeError)
    /\ (in_month month year e = true -> unhashable_category e = true ->
        aggregate (JArr (before ++ e :: after)) month year = Raised TypeError).
Proof.
  intros month year before after e acc Hb.
  unfold aggregate in *. cbn [Json.iter] in *.
  rewrite aggregate_loop_app, Hb. cbn [aggregate_loop].
  split.
  - intros Hrec. destruct acc. destruct e; try discriminate; reflexivity.
  - intros Hin Hun. destruct e as [| | | | | | members]; try discriminate.
    rewrite aggregate_step_record, Hin.
    unfold unhashable_category, member_or in Hun.
    destruct (Json.assoc "category" members) as [[] |]; try discriminate;
      reflexivity.
Qed.

(** After an entry of January, a number stops the aggregation with
    [AttributeError] and a record of January filed under a list stops
    it with [TypeError]; in both runs what follows (an entry of
    January and a null, which alone would raise [AttributeError]) is
    not reached. *)
Lemma aggregate_stops_witness :
  aggregate (JArr ([dated "2025-01-05"]
                   ++ JInt 5 :: [dated "2025-01-09"; JNull])) 1 2025
  = Raised AttributeError
  /\ aggregate (JArr ([dated "2025-01-05"]
                      ++ listed_category :: [dated "2025-01-09"; JNull])) 1 2025
     = Raised TypeError
  /\ aggregate (JArr ([dated "2025-01-05"] ++ [dated "2025-01-09"; JNull]))
       1 2025
     = Raised AttributeError.
Proof.
  split; [| split].
  - apply (aggregate_stops 1 2025 [dated "2025-01-05"]
             [dated "2025-01-09"; JNull] (JInt 5)
             ([(Summary.KStr "Food", lit "1")], lit "1"));
      vm_compute; reflexivity.
  - apply (aggregate_stops 1 2025 [dated "2025-01-05"]
             [dated "2025-01-09"; JNull] listed_category
             ([(Summary.KStr "Food", lit "1")], lit "1"));
      vm_compute; reflexivity.
  - vm_compute. reflexivity.
Defined.

(** ** The summary of a month, from loading to the exports *)

Lemma generate_monthly_summary_loaded month year export_json export_csv w r w1 :
  1 <= month <= 12 ->
  load_expenses w = (r, w1) ->
  generate_monthly_summary month year export_json export_csv w
  = match r with
    | Returned expenses =>
        summarize_loaded expenses month year export_json export_csv w1
    | Raised e => print (Report "Could not read expenses:" e) w1
    end.
Proof.
  intros Hm Hload. rewrite generate_monthly_summary_unfold, (valid_month month Hm).
  rewrite (bind_returned _ _ _ _ _ (attempt_eq _ _ _ _ Hload)).
  destruct r; reflexivity.
Qed.

Lemma export_summary_json_returns month year summary total w :
  formattable_year year ->
  fst (export_summary_json month year summary total w) = Returned tt.
Proof.
  intros Hy. rewrite (export_summary_json_run _ _ _ _ _ Hy).
  unfold bind, attempt.
  destruct (write_file _ _ w) as [[u | e] w']; reflexivity.
Qed.

Lemma export_summary_csv_returns month year summary total w :
  formattable_year year ->
  fst (export_summary_csv month year summary total w) = Returned tt.
Proof.
  intros Hy. rewrite (export_summary_csv_run _ _ _ _ _ Hy).
  unfold bind, attempt.
  destruct (write_file _ _ w) as [[u | e] w']; reflexivity.
Qed.

Lemma display_none_not_nil summary :
  display summary = None -> is_nil summary = false.
Proof. destruct summary; [discriminate | reflexivity]. Qed.

(** X16. A category of the month that is hashable but not a text (a
    number, a boolean, null) is filed by the aggregation and then
    stops the summary: [generate_monthly_summary] prints the title and
    raises [AttributeError] when it sorts the categories; nothing is
    exported. *)
Theorem generate_monthly_summary_non_text_category :
  forall (month year : Z) (export_json export_csv : bool) (w w1 : world)
         (expenses : json) (summary : Summary.t) (total : PyFloat.float),
    1 <= month <= 12 ->
    load_expenses w = (Returned expenses, w1) ->
    aggregate expenses month year = Returned (summary, total) ->
    display summary = None ->
    generate_monthly_summary month year export_json export_csv w
    = (Raised AttributeError,
       set_stdout (stdout w1 ++ [Line (Text.nl ++ summary_title month year)]) w1).
Proof.
  intros month year ej ec w w1 expenses summary total Hm Hload Hagg Hdisp.
  rewrite (generate_monthly_summary_loaded _ _ _ _ _ _ _ Hm Hload).
  assert (Hshow : show_summary month year summary total w1
                  = (Raised AttributeError,
                     set_stdout
                       (stdout w1 ++ [Line (Text.nl ++ summary_title month year)])
                       w1)).
  { unfold show_summary.
    rewrite (bind_returned _ _ _ _ _
               (format_year_returns year w1
                  (aggregate_formattable _ _ _ _ _ Hagg
                     (display_none_not_nil summary Hdisp)))).
    rewrite (display_none_not_nil summary Hdisp), Hdisp.
    reflexivity. }
  unfold summarize_loaded, lift at 1. rewrite Hagg.
  unfold bind at 1.
  rewrite (bind_raised _ _ _ _ _ Hshow). reflexivity.
Qed.

Lemma generate_monthly_summary_non_text_category_witness :
  generate_monthly_summary 1 2025 true true numeric_category
  = (Raised AttributeError,
     set_stdout (stdout numeric_category
                 ++ [Line (Text.nl ++ summary_title 1 2025)]) numeric_category).
Proof.
  apply (generate_monthly_summary_non_text_category 1 2025 true true
           numeric_category numeric_category
           (JArr [JObj [("date", JStr "2025-01-05"); ("category", JInt 7);
                        ("amount", JFloat (lit "3"))]])
           [(Summary.KNum 7, lit "3")] (lit "3"));
    [lia | vm_compute; reflexivity ..].
Defined.

(** X17. Exports cannot make [generate_monthly_summary] fail: for a
    year that can be written (one of no more than 4300 digits), once
    the collection is loaded and aggregated and its categories are
    texts, the call returns normally for every choice of exports,
    whether or not the export files can be written. *)
Theorem generate_monthly_summary_returns :
  forall (month year : Z) (export_json export_csv : bool) (w w1 : world)
         (expenses : json) (summary : Summary.t) (total : PyFloat.float)
         (rows : list (string * PyFloat.float)),
    1 <= month <= 12 ->
    formattable_year year ->
    load_expenses w = (Returned expenses, w1) ->
    aggregate expenses month year = Returned (summary, total) ->
    display summary = Some rows ->
    fst (generate_monthly_summary month year export_json export_csv w)
    = Returned tt.
Proof.
  intros month year ej ec w w1 expenses summary total rows
         Hm Hy Hload Hagg Hdisp.
  rewrite (generate_monthly_summary_loaded _ _ _ _ _ _ _ Hm Hload).
  unfold summarize_loaded, lift at 1. rewrite Hagg.
  unfold bind at 1.
  assert (Hshow : fst (show_summary month year summary total w1) = Returned tt).
  { destruct (is_nil summary) eqn:Hnil.
    - unfold show_summary.
      rewrite (bind_returned _ _ _ _ _ (format_year_returns year w1 Hy)).
      rewrite Hnil. reflexivity.
    - rewrite (show_summary_rows month year summary rows total w1 Hy Hnil Hdisp).
      reflexivity. }
  unfold bind at 1.
  destruct (show_summary month year summary total w1) as [[[] | e] w2];
    [| discriminate].
  unfold bind.
  destruct (ej && negb (is_nil summary)).
  - pose proof (export_summary_json_returns month year summary total w2 Hy)
      as Hj.
    destruct (export_summary_json month year summary total w2) as [[[] | e] w3];
      [| discriminate].
    destruct (ec && negb (is_nil summary));
      [apply export_summary_csv_returns; exact Hy | reflexivity].
  - unfold ret at 1.
    destruct (ec && negb (is_nil summary));
      [apply export_summary_csv_returns; exact Hy | reflexivity].
Qed.

Lemma generate_monthly_summary_returns_witness :
  fst (generate_monthly_summary 1 2025 true true unsorted_month_locked)
  = Returned tt.
Proof.
  apply (generate_monthly_summary_returns 1 2025 true true
           unsorted_month_locked unsorted_month_locked
           (JArr unsorted_items) unsorted_summary (lit "46.5")
           [("Bills", lit "5"); ("food", lit "10"); ("Travel", lit "31.5")]);
    [lia | apply calendar_year_formattable; lia | vm_compute; reflexivity ..].
Defined.

Example exports_fail_quietly :
  stdout (snd (generate_monthly_summary 1 2025 true true unsorted_month_locked))
  = [Line (Text.nl ++ summary_title 1 2025);
     SummaryRow "Bills" (lit "5");
     SummaryRow "food" (lit "10");
     SummaryRow "Travel" (lit "31.5");
     Line (Text.rule "-" (String.length (summary_title 1 2025)));
     SummaryTotal (lit "46.5");
     Report "Failed to export JSON summary:" OSError;
     Report "Failed to export CSV summary:" OSError].
Proof. vm_compute. reflexivity. Qed.

Lemma export_summary_csv_other month year summary total w other :
  csv_filename month year <> other ->
  files (snd (export_summary_csv month year summary total w)) !! other
  = files w !! other.
Proof.
  intros Hne. unfold export_summary_csv.
  unfold bind at 1. unfold format_year, lift, of_option.
  destruct (to_string_cases year) as [-> | ->]; [| reflexivity].
  fold (csv_filename month year). unfold bind, attempt.
  pose proof (write_file_other w (csv_filename month year)
                (CsvText (summary_csv summary total)) other Hne) as [Hf _].
  destruct (write_file _ _ w) as [[u | e] w']; simpl in *; exact Hf.
Qed.

Lemma export_summary_json_written month year summary total w :
  formattable_year year ->
  may_write w (json_filename month year) = true ->
  data <$> (files (snd (export_summary_json month year summary total w))
            !! json_filename month year)
  = Some (JsonText (summary_json month year summary total (now w))).
Proof.
  intros Hy Hmay. rewrite (export_summary_json_run _ _ _ _ _ Hy).
  unfold bind, attempt.
  destruct (write_file_data w _
              (JsonText (summary_json month year summary total (now w))) Hmay)
    as (w' & Hw & Hdata & _).
  rewrite Hw. simpl. exact Hdata.
Qed.

(** X18. When the JSON export is asked for, the summary is not empty
    and the file can be written, [summary_<Month>_<year>.json] holds
    the month, its English name, the year, the categories with their
    totals rounded to two decimals (in the order of the summary), the
    rounded grand total and the time of the export; a CSV export in
    the same call leaves it as it is. *)
Theorem json_export_content :
  forall (month year : Z) (export_csv : bool) (w w1 : world)
         (items : list json) (summary : Summary.t) (total : PyFloat.float)
         (rows : list (string * PyFloat.float)),
    1 <= month <= 12 ->
    load_expenses w = (Returned (JArr items), w1) ->
    aggregate (JArr items) month year = Returned (summary, total) ->
    summary <> [] ->
    display summary = Some rows ->
    may_write w1 (json_filename month year) = true ->
    data <$> (files (snd (generate_monthly_summary month year true export_csv w))
              !! json_filename month year)
    = Some (JsonText
              (JObj [("month", JInt month);
                     ("month_name", JStr (PyDate.month_name month));
                     ("year", JInt year);
                     ("categories",
                       JObj (map (fun kv => (Summary.key_text (fst kv),
                                             JFloat (PyFloat.round2 (snd kv))))
                                 summary));
                     ("total", JFloat (PyFloat.round2 total));
                     ("generated_at",
                       JStr (PyDate.datetime_isoformat (now w1)))])).
Proof.
  intros month year ec w w1 items summary total rows
         Hm Hload Hagg Hne Hrows Hmay.
  assert (Hnil : is_nil summary = false)
    by (destruct summary; [congruence | reflexivity]).
  rewrite (generate_monthly_summary_shown month year true ec w w1 items
             summary total rows Hm Hload Hagg Hnil Hrows).
  set (u := set_stdout _ w1).
  assert (Hu : may_write u (json_filename month year) = true) by exact Hmay.
  pose proof (aggregate_formattable _ _ _ _ _ Hagg Hnil) as Hy.
  pose proof (export_summary_json_written month year summary total u Hy Hu)
    as Hj.
  pose proof (export_summary_json_returns month year summary total u Hy) as Hr.
  unfold bind at 1.
  destruct (export_summary_json month year summary total u) as [[[] | e] u'];
    [| discriminate].
  simpl in Hj.
  destruct ec.
  - rewrite (export_summary_csv_other month year summary total u'
               (json_filename month year)
               (fun E => json_csv_names_differ month year (eq_sym E))).
    exact Hj.
  - exact Hj.
Qed.

Lemma json_export_content_witness :
  data <$> (files (snd (generate_monthly_summary 1 2025 true true unsorted_month))
            !! json_filename 1 2025)
  = Some (JsonText
            (JObj [("month", JInt 1);
                   ("month_name", JStr (PyDate.month_name 1));
                   ("year", JInt 2025);
                   ("categories",
                     JObj (map (fun kv => (Summary.key_text (fst kv),
                                           JFloat (PyFloat.round2 (snd kv))))
                               unsorted_summary));
                   ("total", JFloat (PyFloat.round2 (lit "46.5")));
                   ("generated_at",
                     JStr (PyDate.datetime_isoformat (now unsorted_month)))])).
Proof.
  apply (json_export_content 1 2025 true unsorted_month unsorted_month
           unsorted_items unsorted_summary (lit "46.5")
           [("Bills", lit "5"); ("food", lit "10"); ("Travel", lit "31.5")]);
    [lia | vm_compute; reflexivity | vm_compute; reflexivity | discriminate
    | vm_compute; reflexivity | vm_compute; reflexivity].
Defined.

Lemma export_names_fresh month year :
  json_filename month year <> EXPENSES_FILE
  /\ csv_filename month year <> EXPENSES_FILE.
Proof.
  unfold json_filename, csv_filename, EXPENSES_FILE. simpl.
  split; discriminate.
Qed.

(** X19. A summary never changes the expenses document: after
    [generate_monthly_summary], whatever it exported, the document is
    the one that loading left. *)
Theorem generate_monthly_summary_keeps_document :
  forall (month year : Z) (export_json export_csv : bool) (w : world),
    1 <= month <= 12 ->
    files (snd (generate_monthly_summary month year export_json export_csv w))
      !! EXPENSES_FILE
    = files (snd (load_expenses w)) !! EXPENSES_FILE.
Proof.
  intros month year ej ec w Hm.
  set (R := fun u u' : world => files u' !! EXPENSES_FILE = files u !! EXPENSES_FILE).
  assert (Hr : forall u, R u u) by reflexivity.
  assert (Ht : forall a b c, R a b -> R b c -> R a c)
    by (unfold R; intros a b c H1 H2; congruence).
  assert (Hs : forall l u, R u (set_stdout l u)) by reflexivity.
  assert (He : forall (m y : Z) name c u,
             name = json_filename m y \/ name = csv_filename m y ->
             R u (snd (write_file name c u))).
  { intros m y name c u Hname. unfold R.
    apply write_file_other.
    destruct (export_names_fresh m y) as [Hj Hc].
    destruct Hname as [-> | ->]; assumption. }
  destruct (load_expenses w) as [r w1] eqn:Hload.
  rewrite (generate_monthly_summary_loaded _ _ _ _ _ _ _ Hm Hload).
  destruct r as [expenses | e]; [| reflexivity].
  apply (respects_summarize_loaded R Hr Ht Hs He).
Qed.

Lemma generate_monthly_summary_keeps_document_witness :
  files (snd (generate_monthly_summary 1 2025 true true unsorted_month))
    !! EXPENSES_FILE
  = files (snd (load_expenses unsorted_month)) !! EXPENSES_FILE.
Proof.
  apply (generate_monthly_summary_keeps_document 1 2025 true true unsorted_month).
  lia.
Defined.

Lemma ensure_expenses_file_fails w :
  can_initialize w = false ->
  ensure_expenses_file w
  = (Raised OSError, set_stdout (stdout w ++ recovery_report w) w).
Proof.
  unfold can_initialize, recovery_report. intros H.
  destruct (files w !! EXPENSES_FILE) as [f |] eqn:Hf.
  - apply orb_false_iff in H as [H Hw]. apply orb_false_iff in H as [Hl Hd].
    rewrite (ensure_expenses_file_overwritten w f Hf Hl Hd), Hl, Hd, Hw.
    reflexivity.
  - rewrite (ensure_expenses_file_absent w Hf), (write_file_absent w _ _ Hf), H.
    unfold set_stdout. rewrite app_nil_r. destruct w; reflexivity.
Qed.

(** X20. Inside the three operations a storage failure is never fatal.
    When the document cannot be initialised, [view_expenses] and
    [generate_monthly_summary] (for a valid month) print "Could not
    read expenses:" with the error and return, and [add_expense] with
    accepted arguments prints "Failed to save expense:" with the error
    and returns [False]. *)
Theorem storage_failure_reported :
  forall (w : world) (month year : Z) (export_json export_csv : bool)
         (date category amount description : string)
         (d : PyDate.date) (amt : PyFloat.float),
    can_initialize w = false ->
    1 <= month <= 12 ->
    date <> "" ->
    PyDate.strptime (Text.strip date) = Some d ->
    category <> "" ->
    PyFloat.of_string amount = Some amt ->
    PyFloat.ltb amt PyFloat.zero = false ->
    let w1 := set_stdout (stdout w ++ recovery_report w) w in
    view_expenses w
    = (Returned tt,
       set_stdout (stdout w1 ++ [Report "Could not read expenses:" OSError]) w1)
    /\ generate_monthly_summary month year export_json export_csv w
       = (Returned tt,
          set_stdout (stdout w1 ++ [Report "Could not read expenses:" OSError]) w1)
    /\ add_expense (supplied date category amount description) w
       = (Returned false,
          set_stdout (stdout w1 ++ [Report "Failed to save expense:" OSError]) w1).
Proof.
  intros w month year ej ec date category amount description d amt
         Hcan Hm Hdate Hd Hcat Ha Hneg w1.
  assert (Hload : load_expenses w = (Raised OSError, w1)).
  { unfold load_expenses.
    apply (bind_raised _ _ _ _ _ (ensure_expenses_file_fails w Hcan)). }
  split; [| split].
  - unfold view_expenses.
    rewrite (bind_returned _ _ _ _ _ (attempt_eq _ _ _ _ Hload)). reflexivity.
  - rewrite (generate_monthly_summary_loaded _ _ _ _ _ _ _ Hm Hload).
    reflexivity.
  - unfold add_expense, supplied.
    rewrite (bind_returned _ _ _ _ _
               (build_entry_supplied date category amount description d amt w
                  Hdate Hd Hcat Ha Hneg)).
    unfold bind at 1.
    change (attempt _ w)
      with (attempt (store (entry_of d category amt description)) w).
    assert (Hs : store (entry_of d category amt description) w
                 = (Raised OSError, w1))
      by (unfold store; apply (bind_raised _ _ _ _ _ Hload)).
    rewrite (attempt_eq _ _ _ _ Hs). reflexivity.
Qed.

Lemma storage_failure_reported_witness :
  let w1 := set_stdout (stdout read_only_dir ++ recovery_report read_only_dir)
              read_only_dir in
  view_expenses read_only_dir
  = (Returned tt,
     set_stdout (stdout w1 ++ [Report "Could not read expenses:" OSError]) w1)
  /\ generate_monthly_summary 1 2025 true true read_only_dir
     = (Returned tt,
        set_stdout (stdout w1 ++ [Report "Could not read expenses:" OSError]) w1)
  /\ add_expense (supplied "2025-03-09" "Bills" "42.5" "rent") read_only_dir
     = (Returned false,
        set_stdout (stdout w1 ++ [Report "Failed to save expense:" OSError]) w1).
Proof.
  apply (storage_failure_reported read_only_dir 1 2025 true true
           "2025-03-09" "Bills" "42.5" "rent" (PyDate.mkdate 2025 3 9)
           (lit "42.5"));
    try discriminate; try lia; vm_compute; reflexivity.
Defined.

(** ** NaN amounts *)

Lemma aggregate_loop_nan month year l : forall summary summary' total',
  aggregate_loop month year l (summary, S754_nan) = Returned (summary', total') ->
  total' = S754_nan.
Proof.
  induction l as [| e r IH]; intros summary summary' total' H.
  - simpl in H. injection H as _ <-. reflexivity.
  - cbn [aggregate_loop] in H.
    destruct (aggregate_step month year (summary, S754_nan) e)
      as [[s1 t1] |] eqn:Hs; [| discriminate].
    assert (t1 = S754_nan).
    { destruct e; try discriminate.
      rewrite aggregate_step_record in Hs.
      destruct (in_month month year _).
      - destruct (Summary.to_key _); [| discriminate].
        injection Hs as _ <-. reflexivity.
      - injection Hs as _ <-. reflexivity. }
    subst t1. apply (IH _ _ _ H).
Qed.

Lemma add_nan_r x : PyFloat.add x S754_nan = S754_nan.
Proof. destruct x; reflexivity. Qed.

(** X21. NaN is not rejected and spoils the total.  An amount text
    that [float] reads as NaN (such as "nan") passes the check
    [amt < 0], and the entry is built with the amount NaN; and a
    month that contains an entry whose amount is NaN has, whatever the
    other entries are, the grand total NaN. *)
Theorem nan_amount_accepted_and_spreads :
  forall (date category amount description : string) (d : PyDate.date)
         (w : world),
    date <> "" ->
    PyDate.strptime (Text.strip date) = Some d ->
    category <> "" ->
    PyFloat.of_string amount = Some S754_nan ->
    let entry := entry_of d category S754_nan description in
    build_entry (supplied date category amount description) w
    = (Returned (inr entry), w)
    /\ Json.item entry "amount" = Some (JFloat S754_nan)
    /\ (forall before after summary total,
          aggregate (JArr (before ++ entry :: after))
                    (PyDate.month d) (PyDate.year d)
          = Returned (summary, total) ->
          total = S754_nan).
Proof.
  intros date category amount description d w Hdate Hd Hcat Ha entry.
  split; [apply build_entry_supplied; auto |].
  split; [reflexivity |].
  intros before after summary total H.
  unfold aggregate in H. cbn [Json.iter] in H.
  rewrite aggregate_loop_app in H.
  destruct (aggregate_loop _ _ before ([], PyFloat.zero)) as [[s1 t1] |];
    [| discriminate].
  cbn [aggregate_loop] in H.
  unfold entry, entry_of in H. rewrite aggregate_step_record in H.
  fold (entry_of d category S754_nan description) in H.
  unfold in_month in H.
  destruct (stored_date_shape (Text.strip date) category description d
              S754_nan Hd) as [Hdate_of Hamt].
  rewrite Hdate_of, !Z.eqb_refl in H. cbn [andb] in H.
  rewrite Hamt in H. cbn [Json.assoc String.eqb Ascii.eqb Bool.eqb] in H.
  simpl Summary.to_key in H. cbn iota in H.
  change (PyFloat.round2 S754_nan) with S754_nan in H.
  rewrite !add_nan_r in H.
  apply (aggregate_loop_nan _ _ _ _ _ _ H).
Qed.

Lemma nan_amount_accepted_and_spreads_witness :
  let entry := entry_of (PyDate.mkdate 2025 1 5) "Food" S754_nan "" in
  build_entry (supplied "2025-01-05" "Food" "nan" "") no_files
  = (Returned (inr entry), no_files)
  /\ Json.item entry "amount" = Some (JFloat S754_nan)
  /\ (forall before after summary total,
        aggregate (JArr (before ++ entry :: after))
                  (PyDate.month (PyDate.mkdate 2025 1 5))
                  (PyDate.year (PyDate.mkdate 2025 1 5))
        = Returned (summary, total) ->
        total = S754_nan).
Proof.
  apply (nan_amount_accepted_and_spreads "2025-01-05" "Food" "nan" ""
           (PyDate.mkdate 2025 1 5) no_files);
    try discriminate; vm_compute; reflexivity.
Defined.

(** ** One key per category *)

Lemma category_names_app a b :
  category_names (a ++ b) = (category_names a ++ category_names b)%list.
Proof. unfold category_names. apply flat_map_app. Qed.

Lemma category_name_seen s seen :
  In s (category_names seen) ->
  existsb (Summary.key_eqb (Summary.KStr s)) seen = true.
Proof.
  induction seen as [| k r IH]; simpl; [contradiction |].
  destruct k as [| n | x | t]; simpl; auto.
  intros [-> | H]; [rewrite String.eqb_refl; reflexivity |].
  rewrite (IH H). apply orb_true_r.
Qed.

Lemma note_key_names seen k :
  NoDup (category_names seen) -> NoDup (category_names (note_key seen k)).
Proof.
  intros Hnd. unfold note_key.
  destruct (existsb (Summary.key_eqb k) seen) eqn:E; [exact Hnd |].
  rewrite category_names_app.
  destruct k as [| n | x | s]; simpl; rewrite ?app_nil_r; try exact Hnd.
  apply NoDup_app. split; [exact Hnd |]. split.
  - intros t Ht Hin. apply list_elem_of_In in Ht, Hin.
    destruct Hin as [<- | []].
    rewrite (category_name_seen s seen Ht) in E. discriminate.
  - apply NoDup_singleton.
Qed.

Lemma fold_note_key_names keys : forall seen,
  NoDup (category_names seen) ->
  NoDup (category_names (fold_left note_key keys seen)).
Proof.
  induction keys as [| k r IH]; intros seen H; simpl; [exact H |].
  apply IH, note_key_names, H.
Qed.

(** X22. A category has one total: in the summary the aggregation
    returns no category name occurs twice, however often and in
    whatever order the category occurs in the collection.  The exports
    therefore have one row, or one member, per category. *)
Theorem summary_categories_distinct :
  forall (expenses : json) (month year : Z) (summary : Summary.t)
         (total : PyFloat.float),
    aggregate expenses month year = Returned (summary, total) ->
    NoDup (category_names (map fst summary))
    /\ length (summary_csv summary total) = (length summary + 3)%nat.
Proof.
  intros expenses month year summary total H.
  split.
  - unfold aggregate in H.
    destruct (Json.iter expenses) as [l |]; [| discriminate].
    apply aggregate_loop_keys in H. simpl in H. rewrite H.
    apply fold_note_key_names. constructor.
  - unfold summary_csv. simpl. rewrite length_app, length_map. simpl. lia.
Qed.

Lemma summary_categories_distinct_witness :
  NoDup (category_names (map fst unsorted_summary))
  /\ length (summary_csv unsorted_summary (lit "46.5"))
     = (length unsorted_summary + 3)%nat.
Proof.
  apply (summary_categories_distinct (JArr unsorted_items) 1 2025).
  vm_compute. reflexivity.
Defined.

(** ** Entries of the same day *)

(** X23. The display keeps the order of entry among entries of the
    same day: for every date, the entries sorted under it (for
    [date.min], those without a date that parses as well) come in the
    display in the order they have in the collection. *)
Theorem sort_for_display_stable :
  forall (l : list json) (k : PyDate.date),
    sorted_under k (sort_for_display l) = sorted_under k l.
Proof.
  intros l k. unfold sorted_under, sort_for_display.
  apply sorted_by_filter.
  intros x y Hx Hy. unfold date_eqb in *.
  repeat (apply andb_true_iff in Hx as [Hx ?]).
  repeat (apply andb_true_iff in Hy as [Hy ?]).
  rewrite ?Z.eqb_eq in *.
  unfold PyDate.leb.
  repeat match goal with
         | |- context [?a <? ?b] => destruct (Z.ltb_spec a b)
         end; try reflexivity; try lia.
  all: apply Z.leb_le; lia.
Qed.

(** ** A call without arguments *)

(** X24. Called without arguments, [add_expense] asks for the date,
    the category, the amount and the description, in this order, one
    line each, and builds the entry from the stripped replies: an
    empty date reply stands for today, an empty category reply for
    "Misc".  The lines after the fourth stay on the console. *)
Theorem build_entry_interactive :
  forall (r1 r2 r3 r4 : string) (rest : list string)
         (d : PyDate.date) (amt : PyFloat.float) (w : world),
    stdin w = r1 :: r2 :: r3 :: r4 :: rest ->
    PyDate.strptime (date_reply r1 w) = Some d ->
    PyFloat.of_string (Text.strip r3) = Some amt ->
    PyFloat.ltb amt PyFloat.zero = false ->
    build_entry no_arguments w
    = (Returned
         (inr (entry_of d
                 (if Text.is_empty (Text.strip r2) then "Misc"
                  else Text.strip r2)
                 amt (Text.strip r4))),
       set_stdin rest
         (set_stdout
            (stdout w ++ [Prompt date_prompt; Prompt category_prompt;
                          Prompt "Enter amount: ";
                          Prompt "Enter description (optional): "]) w)).
Proof.
  intros r1 r2 r3 r4 rest d amt w Hin Hd Ha Hneg.
  unfold build_entry, no_arguments, date_reply in *.
  cbn [arg_date arg_category arg_amount arg_description falsy].
  unfold bind at 1. unfold bind at 1. unfold input at 1. cbn [stdin set_stdout].
  rewrite Hin.
  assert (Hdate : (if Text.is_empty (Text.strip r1) then today
                   else ret (Text.strip r1))
                    (set_stdin (r2 :: r3 :: r4 :: rest)
                       (set_stdout (stdout w ++ [Prompt date_prompt]) w))
                  = (Returned (if Text.is_empty (Text.strip r1)
                               then PyDate.isoformat (PyDate.on (now w))
                               else Text.strip r1),
                     set_stdin (r2 :: r3 :: r4 :: rest)
                       (set_stdout (stdout w ++ [Prompt date_prompt]) w))).
  { destruct (Text.is_empty (Text.strip r1)); reflexivity. }
  unfold date_prompt in *. rewrite Hdate, Hd.
  unfold bind, input, ret. cbn [stdin set_stdout set_stdin].
  rewrite Ha, Hneg. unfold set_stdin, set_stdout. cbn.
  rewrite <- !app_assoc.
  destruct (Text.is_empty (Text.strip r2)); reflexivity.
Qed.

Lemma build_entry_interactive_witness :
  build_entry no_arguments four_replies
  = (Returned
       (inr (entry_of (PyDate.mkdate 2025 11 3)
               (if Text.is_empty (Text.strip " Food ") then "Misc"
                else Text.strip " Food ")
               (lit "12.5") (Text.strip "lunch"))),
     set_stdin ["4"]
       (set_stdout
          (stdout four_replies
           ++ [Prompt date_prompt; Prompt category_prompt;
               Prompt "Enter amount: ";
               Prompt "Enter description (optional): "]) four_replies)).
Proof.
  apply (build_entry_interactive "" " Food " "12.5" "lunch" ["4"]
           (PyDate.mkdate 2025 11 3) (lit "12.5") four_replies);
    vm_compute; reflexivity.
Defined.

(** ** The menu loop *)

Lemma input_consumed_length w w' :
  input_consumed w w' -> (length (stdin w') <= length (stdin w))%nat.
Proof. intros [l H]. rewrite H, length_app. lia. Qed.

Lemma input_consumed_stdout l w : input_consumed w (set_stdout l w).
Proof. exists []. reflexivity. Qed.

Lemma input_consumed_files f w : input_consumed w (set_files f w).
Proof. exists []. reflexivity. Qed.

Lemma input_consumed_export (month year : Z) name c w :
  name = json_filename month year \/ name = csv_filename month year ->
  input_consumed w (snd (write_file name c w)).
Proof.
  intros _.
  apply (respects_write_file input_consumed input_consumed_refl
           input_consumed_files name c w).
Qed.

Lemma add_expense_consumes a : respects input_consumed (add_expense a).
Proof.
  apply (respects_add_expense input_consumed input_consumed_refl
           input_consumed_trans input_consumed_stdout input_consumed_files
           input_consumed_tail).
Qed.

Lemma view_expenses_consumes : respects input_consumed view_expenses.
Proof.
  apply (respects_view_expenses input_consumed input_consumed_refl
           input_consumed_trans input_consumed_stdout input_consumed_files).
Qed.

Lemma summary_choice_consumes : respects input_consumed summary_choice.
Proof.
  apply (respects_summary_choice input_consumed input_consumed_refl
           input_consumed_trans input_consumed_stdout input_consumed_files
           input_consumed_export input_consumed_tail).
Qed.

Lemma menu_printed w :
  for_each menu print w = (Returned tt, set_stdout (stdout w ++ menu) w).
Proof.
  pose proof (for_each_print (fun p => p) menu w) as H.
  rewrite List.map_id in H. exact H.
Qed.

(** A turn of the loop after the menu and a line typed. *)
Lemma main_loop_turn n w line rest :
  stdin w = line :: rest ->
  main_loop (S n) w
  = (let choice := Text.strip line in
     if String.eqb choice "1" then
       add_expense (mkargs None None None None) ;; main_loop n
     else if String.eqb choice "2" then view_expenses ;; main_loop n
     else if String.eqb choice "3" then summary_choice ;; main_loop n
     else if String.eqb choice "4" then print (Line "Goodbye!")
     else print (Line "Invalid choice. Please enter 1-4.") ;; main_loop n)
      (set_stdin rest (set_stdout (stdout w ++ menu ++ [choice_prompt]) w)).
Proof.
  intros Hin. cbn [main_loop].
  rewrite (bind_returned _ _ _ _ _ (menu_printed w)).
  unfold bind at 1. unfold input at 1. cbn [stdin set_stdout]. rewrite Hin.
  unfold set_stdout at 1 2. cbn [stdout files dir_writable stdin now].
  rewrite <- app_assoc. reflexivity.
Qed.

Lemma main_loop_eof n w :
  stdin w = [] ->
  main_loop (S n) w
  = (Raised EOFError, set_stdout (stdout w ++ menu ++ [choice_prompt]) w).
Proof.
  intros Hin. cbn [main_loop].
  rewrite (bind_returned _ _ _ _ _ (menu_printed w)).
  unfold bind at 1. unfold input at 1. cbn [stdin set_stdout]. rewrite Hin.
  unfold set_stdout. cbn [stdout files dir_writable stdin now].
  rewrite <- app_assoc. reflexivity.
Qed.

Lemma bind_loop_turns {A} (m : io A) (k1 k2 : io unit) w bound :
  respects input_consumed m ->
  (length (stdin w) <= bound)%nat ->
  (forall u, (length (stdin u) <= bound)%nat -> k1 u = k2 u) ->
  bind m (fun _ => k1) w = bind m (fun _ => k2) w.
Proof.
  intros Hm Hw Hk. unfold bind. specialize (Hm w).
  destruct (m w) as [[a | e] u]; [| reflexivity].
  apply Hk. apply input_consumed_length in Hm. simpl in Hm. lia.
Qed.

(** The turn bound of [main_loop] does not matter once it exceeds the
    number of lines left on the console: the bound is never used up. *)
Lemma main_loop_turns n : forall m w,
  (length (stdin w) < n)%nat -> (length (stdin w) < m)%nat ->
  main_loop n w = main_loop m w.
Proof.
  induction n as [| n IH]; intros m w Hn Hm; [lia |].
  destruct m as [| m]; [lia |].
  destruct (stdin w) as [| line rest] eqn:Hin.
  - rewrite !main_loop_eof by exact Hin. reflexivity.
  - rewrite !(main_loop_turn _ w line rest Hin).
    simpl in Hn, Hm. cbv zeta.
    set (u := set_stdin rest _).
    assert (Hu : (length (stdin u) <= length rest)%nat) by (simpl; lia).
    assert (Hk : forall v, (length (stdin v) <= length rest)%nat ->
                           main_loop n v = main_loop m v)
      by (intros v Hv; apply IH; lia).
    repeat match goal with
           | |- context [if ?b then _ else _] => destruct b
           end.
    + apply (bind_loop_turns _ _ _ u (length rest)
               (add_expense_consumes _) Hu Hk).
    + apply (bind_loop_turns _ _ _ u (length rest) view_expenses_consumes Hu Hk).
    + apply (bind_loop_turns _ _ _ u (length rest) summary_choice_consumes Hu Hk).
    + reflexivity.
    + apply (bind_loop_turns _ _ _ u (length rest)
               (respects_print input_consumed input_consumed_stdout _) Hu Hk).
Qed.

Lemma main_loop_returns n : forall w w',
  main_loop n w = (Returned tt, w') ->
  exists out, stdout w' = (out ++ [Line "Goodbye!"])%list.
Proof.
  induction n as [| n IH]; intros w w' H; [discriminate |].
  destruct (stdin w) as [| line rest] eqn:Hin.
  - rewrite (main_loop_eof n w Hin) in H. discriminate.
  - rewrite (main_loop_turn n w line rest Hin) in H. cbv zeta in H.
    set (u := set_stdin rest _) in H.
    repeat match type of H with
           | context [if ?b then _ else _] => destruct b
           end;
      try (unfold bind in H;
           match type of H with
           | context [match ?m u with _ => _ end] =>
               destruct (m u) as [[a | e] v]; [| discriminate]
           end;
           apply (IH _ _ H)).
    unfold print in H. injection H as <-. eexists. reflexivity.
Qed.

(** X25. [main] returns only through the exit: whatever is typed, if
    [main] returns normally then the last thing it printed is
    "Goodbye!", and the lines it read were read from the console in
    order.  Every other way out of the loop is an exception. *)
Theorem main_returns_after_goodbye :
  forall w w' : world,
    main w = (Returned tt, w') ->
    (exists out, stdout w' = (out ++ [Line "Goodbye!"])%list)
    /\ exists consumed, stdin w = (consumed ++ stdin w')%list.
Proof.
  intros w w' H. split.
  - unfold main, bind in H.
    destruct (ensure_expenses_file w) as [[[] | e] w0]; [| discriminate].
    apply (main_loop_returns _ _ _ H).
  - assert (Hc : respects input_consumed main).
    { unfold main. apply respects_bind.
      - apply input_consumed_trans.
      - apply (respects_ensure_expenses_file input_consumed input_consumed_refl
                 input_consumed_trans input_consumed_stdout input_consumed_files).
      - intros _ u.
        apply (respects_main_loop input_consumed input_consumed_refl
                 input_consumed_trans input_consumed_stdout input_consumed_files
                 input_consumed_export input_consumed_tail). }
    specialize (Hc w). rewrite H in Hc. exact Hc.
Qed.

Lemma main_loop_refused lines : forall n w last rest,
  Forall (fun l => no_choice l = true) lines ->
  Text.strip last = "4" ->
  stdin w = (lines ++ last :: rest)%list ->
  (length (stdin w) < n)%nat ->
  main_loop n w
  = (Returned tt,
     set_stdin rest
       (set_stdout (stdout w ++ refused_turns lines
                    ++ menu ++ [choice_prompt; Line "Goodbye!"]) w)).
Proof.
  induction lines as [| l r IH]; intros n w last rest Hno Hlast Hin Hn.
  - destruct n as [| n]; [lia |].
    rewrite (main_loop_turn n w last rest Hin). cbv zeta. rewrite Hlast.
    cbn [String.eqb Ascii.eqb Bool.eqb]. unfold print, set_stdin, set_stdout.
    cbn. rewrite <- !app_assoc. reflexivity.
  - destruct n as [| n]; [lia |].
    apply List.Forall_cons_iff in Hno as [Hl Hr].
    rewrite (main_loop_turn n w l (r ++ last :: rest) Hin). cbv zeta.
    unfold no_choice in Hl. apply negb_true_iff in Hl.
    repeat (apply orb_false_iff in Hl as [Hl ?]).
    rewrite Hl.
    repeat match goal with
           | H : String.eqb (Text.strip l) _ = false |- _ => rewrite H; clear H
           end.
    unfold bind at 1. unfold print at 1.
    rewrite (IH n _ last rest Hr Hlast).
    + unfold set_stdin, set_stdout, refused_turns, refused_turn. cbn.
      rewrite <- !app_assoc. reflexivity.
    + reflexivity.
    + rewrite Hin in Hn. simpl in *. lia.
Qed.

Lemma main_loop_cut_short lines : forall n w,
  Forall (fun l => no_choice l = true) lines ->
  stdin w = lines ->
  (length (stdin w) < n)%nat ->
  main_loop n w
  = (Raised EOFError,
     set_stdin []
       (set_stdout (stdout w ++ refused_turns lines ++ menu ++ [choice_prompt]) w)).
Proof.
  induction lines as [| l r IH]; intros n w Hno Hin Hn.
  - destruct n as [| n]; [lia |].
    rewrite (main_loop_eof n w Hin). unfold set_stdin, set_stdout. cbn.
    rewrite Hin. reflexivity.
  - destruct n as [| n]; [lia |].
    apply List.Forall_cons_iff in Hno as [Hl Hr].
    rewrite (main_loop_turn n w l r Hin). cbv zeta.
    unfold no_choice in Hl. apply negb_true_iff in Hl.
    repeat (apply orb_false_iff in Hl as [Hl ?]).
    rewrite Hl.
    repeat match goal with
           | H : String.eqb (Text.strip l) _ = false |- _ => rewrite H; clear H
           end.
    unfold bind at 1. unfold print at 1.
    rewrite (IH n _ Hr).
    + unfold set_stdin, set_stdout, refused_turns, refused_turn. cbn.
      rewrite <- !app_assoc. reflexivity.
    + reflexivity.
    + rewrite Hin in Hn. simpl in *. lia.
Qed.

Lemma ensure_expenses_file_input w :
  stdin (snd (ensure_expenses_file w)) = stdin w.
Proof.
  apply (respects_ensure_expenses_file same_input same_input_refl
           same_input_trans (fun _ _ => eq_refl) (fun _ _ => eq_refl)).
Qed.

(** X26. Lines that are none of the four choices are refused and the
    menu is shown again; the choice 4 then ends [main] normally.  The
    session prints, after what initialisation printed, one refused
    turn (menu, prompt, "Invalid choice. Please enter 1-4.") per such
    line and a last menu with "Goodbye!"; it leaves the rest of the
    console unread and the files as initialisation left them. *)
Theorem main_refuses_then_quits :
  forall (w w0 : world) (lines : list string) (last : string)
         (rest : list string),
    ensure_expenses_file w = (Returned tt, w0) ->
    stdin w = (lines ++ last :: rest)%list ->
    Forall (fun l => no_choice l = true) lines ->
    Text.strip last = "4" ->
    main w
    = (Returned tt,
       set_stdin rest
         (set_stdout (stdout w0 ++ refused_turns lines
                      ++ menu ++ [choice_prompt; Line "Goodbye!"]) w0)).
Proof.
  intros w w0 lines last rest He Hin Hno Hlast.
  pose proof (ensure_expenses_file_input w) as Hs. rewrite He in Hs. simpl in Hs.
  unfold main. rewrite (bind_returned _ _ _ _ _ He).
  apply (main_loop_refused lines _ w0 last rest Hno Hlast);
    [rewrite Hs; exact Hin | lia].
Qed.

Lemma main_refuses_then_quits_witness :
  main quitting
  = (Returned tt,
     set_stdin ["left over"]
       (set_stdout (stdout quitting ++ refused_turns ["x"; " 7 "]
                    ++ menu ++ [choice_prompt; Line "Goodbye!"]) quitting)).
Proof.
  apply (main_refuses_then_quits quitting quitting ["x"; " 7 "] " 4 "
           ["left over"]).
  - vm_compute. reflexivity.
  - reflexivity.
  - repeat constructor.
  - reflexivity.
Defined.

(** X27. When the console ends before the choice 4 is typed, [main]
    ends with [EOFError]: after lines that are no choice, the menu is
    shown once more and the prompt for a choice raises. *)
Theorem main_console_ends :
  forall (w w0 : world) (lines : list string),
    ensure_expenses_file w = (Returned tt, w0) ->
    stdin w = lines ->
    Forall (fun l => no_choice l = true) lines ->
    main w
    = (Raised EOFError,
       set_stdin []
         (set_stdout (stdout w0 ++ refused_turns lines
                      ++ menu ++ [choice_prompt]) w0)).
Proof.
  intros w w0 lines He Hin Hno.
  pose proof (ensure_expenses_file_input w) as Hs. rewrite He in Hs. simpl in Hs.
  unfold main. rewrite (bind_returned _ _ _ _ _ He).
  apply (main_loop_cut_short lines _ w0 Hno);
    [rewrite Hs; exact Hin | lia].
Qed.

Lemma main_console_ends_witness :
  main cut_short
  = (Raised EOFError,
     set_stdin []
       (set_stdout (stdout cut_short ++ refused_turns ["x"; "42"]
                    ++ menu ++ [choice_prompt]) cut_short)).
Proof.
  apply (main_console_ends cut_short cut_short ["x"; "42"]).
  - vm_compute. reflexivity.
  - reflexivity.
  - repeat constructor.
Defined.

(** A choice between whitespace of any kind is the choice: "4" with a
    no-break space after it ends the session. *)
Example padded_choice_quits :
  no_choice ("4" ++ nbsp) = false
  /\ main (set_stdin ["4" ++ nbsp; "left over"] two_entries)
     = (Returned tt,
        set_stdin ["left over"]
          (set_stdout (menu ++ [choice_prompt; Line "Goodbye!"]) two_entries)).
Proof. split; vm_compute; reflexivity. Qed.

(** X28. [main] does not guard the initialisation: when the document
    cannot be initialised, [main] raises [OSError] before it shows the
    menu or reads anything. *)
Theorem main_fails_at_start :
  forall w : world,
    can_initialize w = false ->
    main w
    = (Raised OSError, set_stdout (stdout w ++ recovery_report w) w).
Proof.
  intros w H. unfold main.
  apply (bind_raised _ _ _ _ _ (ensure_expenses_file_fails w H)).
Qed.

Lemma main_fails_at_start_witness :
  main locked_corrupted
  = (Raised OSError,
     set_stdout (stdout locked_corrupted ++ recovery_report locked_corrupted)
       locked_corrupted).
Proof. apply (main_fails_at_start locked_corrupted). reflexivity. Defined.

Lemma main_returns_after_goodbye_witness :
  (exists out, stdout (snd (main quitting)) = (out ++ [Line "Goodbye!"])%list)
  /\ exists consumed, stdin quitting = (consumed ++ stdin (snd (main quitting)))%list.
Proof.
  apply (main_returns_after_goodbye quitting (snd (main quitting))).
  vm_compute. reflexivity.
Defined.

(** ** Numerals typed at the prompt *)

Lemma take_digits_app ds : forall rest acc n,
  all_digits ds ->
  PyFloat.take_digits (ds ++ rest) acc n
  = PyFloat.take_digits rest (digits_value acc ds) (n + length ds)%nat.
Proof.
  induction ds as [| c ds IH]; intros rest acc n H; simpl.
  - rewrite Nat.add_0_r. reflexivity.
  - apply List.Forall_cons_iff in H as [Hc Hds].
    rewrite Hc, IH by exact Hds. f_equal. lia.
Qed.

Lemma digit_char k :
  0 <= k <= 9 ->
  Text.is_digit (ascii_of_nat (Z.to_nat (48 + k))) = true
  /\ Text.digit_val (ascii_of_nat (Z.to_nat (48 + k))) = k.
Proof.
  intros Hk. unfold Text.is_digit, Text.digit_val, Text.code.
  rewrite nat_ascii_embedding by lia.
  rewrite Z2Nat.id by lia. split; [| lia].
  apply andb_true_iff. split; apply Z.leb_le; lia.
Qed.

(** The digits written for [n] in front of digits [acc] spell the
    number [n * 10 ^ length acc + value of acc]. *)
Lemma digits_fuel_spec fuel : forall n acc,
  0 <= n < 2 ^ Z.of_nat fuel ->
  all_digits acc ->
  all_digits (Text.digits_fuel fuel n acc)
  /\ (forall a, digits_value a (Text.digits_fuel fuel n acc)
                = digits_value (a * 10 ^ Z.of_nat (length (Text.digits_fuel fuel n acc)
                                                   - length acc) + n) acc)
  /\ (length acc <= length (Text.digits_fuel fuel n acc))%nat
  /\ (length (Text.digits_fuel fuel n acc) <= fuel + length acc)%nat
  /\ (fuel <> O -> Text.digits_fuel fuel n acc <> []).
Proof.
  induction fuel as [| f IH]; intros n acc Hn Hacc.
  - simpl. change (2 ^ Z.of_nat 0) with 1 in Hn.
    assert (n = 0) by lia. subst n.
    rewrite Nat.sub_diag. simpl.
    repeat split; auto; try lia.
    intros a. f_equal. lia.
  - cbn [Text.digits_fuel].
    destruct (digit_char (n mod 10)) as [Hd Hv];
      [pose proof (Z.mod_pos_bound n 10); lia |].
    set (c := ascii_of_nat (Z.to_nat (48 + n mod 10))) in *.
    assert (Hacc' : all_digits (c :: acc)) by (constructor; assumption).
    destruct (n / 10 =? 0) eqn:E.
    + apply Z.eqb_eq in E.
      assert (Hsmall : n = n mod 10).
      { rewrite (Z.div_mod n 10) at 1 by lia. lia. }
      repeat split; auto; try (simpl; lia); try discriminate.
      intros a. simpl length.
      replace (S (length acc) - length acc)%nat with 1%nat by lia.
      simpl digits_value. rewrite Hv. f_equal.
      change (10 ^ Z.of_nat 1) with 10. lia.
    + apply Z.eqb_neq in E.
      assert (Hq : 0 <= n / 10 < 2 ^ Z.of_nat f).
      { split; [apply Z.div_pos; lia |].
        rewrite Nat2Z.inj_succ, Z.pow_succ_r in Hn by lia.
        apply Z.div_lt_upper_bound; lia. }
      destruct (IH (n / 10) (c :: acc) Hq Hacc') as (H1 & H2 & H3 & H4 & H5).
      split; [exact H1 |]. split; [| split; [| split]].
      * intros a. rewrite H2. simpl length in *. simpl digits_value.
        rewrite Hv. f_equal.
        set (len := length (Text.digits_fuel f (n / 10) (c :: acc))) in *.
        replace (Z.of_nat (len - length acc))
          with (Z.succ (Z.of_nat (len - S (length acc)))) by lia.
        rewrite Z.pow_succ_r by lia.
        rewrite (Z.div_mod n 10) at 3 by lia. lia.
      * simpl length in H3. lia.
      * simpl length in H4. lia.
      * intros _ Hnil. rewrite Hnil in H3. simpl in H3. lia.
Qed.

Lemma decimal_spec n :
  0 <= n ->
  all_digits (Text.decimal n)
  /\ digits_value 0 (Text.decimal n) = n
  /\ Text.decimal n <> []
  /\ (length (Text.decimal n) <= S (Z.to_nat (Z.log2 n)))%nat.
Proof.
  intros Hn. unfold Text.decimal.
  assert (Hb : 0 <= n < 2 ^ Z.of_nat (S (Z.to_nat (Z.log2 n)))).
  { split; [exact Hn |].
    rewrite Nat2Z.inj_succ, Z2Nat.id by apply Z.log2_nonneg.
    destruct (Z.eq_dec n 0) as [-> | Hz]; [reflexivity |].
    apply Z.log2_spec. lia. }
  destruct (digits_fuel_spec _ n [] Hb (List.Forall_nil _))
    as (H1 & H2 & _ & H4 & H5).
  split; [exact H1 |]. split; [| split].
  - rewrite (H2 0). unfold digits_value. cbn [fold_left].
    rewrite Z.mul_0_l. reflexivity.
  - apply H5. discriminate.
  - cbn [length] in H4. rewrite Nat.add_0_r in H4. exact H4.
Qed.

Lemma digit_plain c :
  Text.is_digit c = true ->
  Text.is_space [c] = false
  /\ Text.c_space c = false
  /\ Ascii.eqb c "_" = false
  /\ (forall ds, PyFloat.take_sign (c :: ds) = (false, c :: ds)).
Proof.
  destruct c as [[] [] [] [] [] [] [] []]; vm_compute;
    intros H; try discriminate H; repeat split.
Qed.

Lemma digits_ascii ds : all_digits ds -> Text.is_ascii ds = true.
Proof.
  unfold Text.is_ascii. induction 1 as [| c ds Hc _ IH]; [reflexivity |].
  cbn [forallb]. rewrite (digit_ascii c Hc), IH. reflexivity.
Qed.

Lemma chars_text l : Text.chars (Text.text l) = l.
Proof. apply list_ascii_of_string_of_list_ascii. Qed.

Lemma text_chars s : Text.text (Text.chars s) = s.
Proof. apply string_of_list_ascii_of_string. Qed.

Lemma concat_singletons (l : list ascii) : concat (map (fun c => [c]) l) = l.
Proof. induction l as [| c l IH]; [reflexivity |]. simpl. rewrite IH. reflexivity. Qed.

Lemma last_digit ds :
  all_digits ds -> ds <> [] ->
  exists l c, ds = (l ++ [c])%list /\ Text.is_digit c = true.
Proof.
  intros Hd Hne. destruct (exists_last Hne) as (l & c & ->).
  exists l, c. split; [reflexivity |].
  apply Forall_app in Hd as [_ Hc].
  apply List.Forall_cons_iff in Hc as [Hc _]. exact Hc.
Qed.

(** An ASCII text that starts and ends with a digit is left as it is
    by [strip]. *)
Lemma strip_between (L l l' : list ascii) (c c' : ascii) :
  Text.is_ascii L = true ->
  L = c :: l -> L = (l' ++ [c'])%list ->
  Text.is_digit c = true -> Text.is_digit c' = true ->
  Text.strip (Text.text L) = Text.text L.
Proof.
  intros Ha E1 E2 Hc Hc'. unfold Text.strip.
  rewrite chars_text, (characters_ascii L Ha).
  destruct (digit_plain c Hc) as (Hs & _).
  destruct (digit_plain c' Hc') as (Hs' & _).
  assert (Hl : Text.lstrip (map (fun c => [c]) L) = map (fun c => [c]) L).
  { rewrite E1. cbn [map Text.lstrip]. rewrite Hs. reflexivity. }
  rewrite Hl. unfold Text.rstrip.
  assert (Hr : Text.lstrip (rev (map (fun c => [c]) L))
               = rev (map (fun c => [c]) L)).
  { rewrite E2, map_app, rev_app_distr. cbn [map rev app Text.lstrip].
    rewrite Hs'. reflexivity. }
  rewrite Hr, rev_involutive, concat_singletons. reflexivity.
Qed.

Lemma scan_digits_app ds : forall rest acc n,
  all_digits ds ->
  PyInt.scan_digits (ds ++ rest) false acc n
  = PyInt.scan_digits rest false (digits_value acc ds) (n + length ds)%nat.
Proof.
  induction ds as [| c ds IH]; intros rest acc n H; simpl.
  - rewrite Nat.add_0_r. reflexivity.
  - apply List.Forall_cons_iff in H as [Hc Hds].
    rewrite Hc, IH by exact Hds. f_equal. lia.
Qed.

(** [int] reads a run of digits as the number they spell. *)
Lemma int_of_digits ds :
  all_digits ds -> ds <> [] ->
  (length ds <= PyInt.max_str_digits)%nat ->
  PyInt.of_string (Text.text ds) = Some (digits_value 0 ds).
Proof.
  intros Hd Hne Hlen. unfold PyInt.of_string, Text.to_ascii.
  rewrite chars_text, (digits_ascii ds Hd).
  destruct ds as [| c ds]; [congruence |].
  pose proof Hd as Hd'. apply List.Forall_cons_iff in Hd' as [Hc _].
  destruct (digit_plain c Hc) as (_ & Hsp & Hu & Hsign).
  cbn [Text.c_lstrip]. rewrite Hsp, (Hsign ds).
  assert (Hfirst : forall (A : Type) (x y : A),
             match c :: ds with
             | "_"%char :: _ => x
             | _ => y
             end = y).
  { intros A x y. destruct (Ascii.eqb_spec c "_") as [-> | Hn];
      [discriminate Hu |].
    destruct c as [[] [] [] [] [] [] [] []]; try reflexivity.
    congruence. }
  rewrite Hfirst.
  rewrite <- (app_nil_r (c :: ds)) at 1.
  rewrite (scan_digits_app (c :: ds) [] 0 0%nat Hd).
  cbn [PyInt.scan_digits Nat.add length Text.c_lstrip].
  apply Nat.leb_le in Hlen. cbn [length] in Hlen. rewrite Hlen. reflexivity.
Qed.

Lemma int_of_decimal n :
  0 <= n < 10 ^ 1000 ->
  PyInt.of_string (Text.of_Z n) = Some n.
Proof.
  intros Hn. destruct (decimal_spec n ltac:(lia)) as (Hd & Hv & Hne & Hlen).
  unfold Text.of_Z. destruct (Z.ltb_spec n 0); [lia |].
  rewrite (int_of_digits _ Hd Hne), Hv; [reflexivity |].
  unfold PyInt.max_str_digits.
  assert (Z.log2 n < 4299).
  { destruct (Z.eq_dec n 0) as [-> | Hz]; [reflexivity |].
    apply Z.log2_lt_pow2; [lia |].
    assert (10 ^ 1000 <= 2 ^ 4299) by (apply Z.leb_le; vm_compute; reflexivity).
    lia. }
  pose proof (Z.log2_nonneg n). lia.
Qed.

Lemma split_from_digits ds : forall rest word,
  all_digits ds ->
  Text.split_from (map (fun c => [c]) ds ++ rest) word
  = Text.split_from rest (rev (map (fun c => [c]) ds) ++ word).
Proof.
  induction ds as [| c ds IH]; intros rest word Hd; [reflexivity |].
  apply List.Forall_cons_iff in Hd as [Hc Hds].
  cbn [map app Text.split_from rev].
  destruct (digit_plain c Hc) as [-> _].
  rewrite (IH rest ([c] :: word) Hds), <- app_assoc. reflexivity.
Qed.

Lemma word_of_digits ds :
  ds <> [] ->
  rev (map (fun c : ascii => [c]) ds) <> []
  /\ Text.text (concat (rev (rev (map (fun c : ascii => [c]) ds))))
     = Text.text ds.
Proof.
  intros Hne. split.
  - intros E. apply (f_equal (@rev (list ascii))) in E.
    rewrite rev_involutive in E. destruct ds; [congruence | discriminate].
  - rewrite rev_involutive, concat_singletons. reflexivity.
Qed.

Lemma split_word_end ds :
  all_digits ds -> ds <> [] ->
  Text.split_from (map (fun c => [c]) ds) [] = [Text.text ds].
Proof.
  intros Hd Hne. rewrite <- (app_nil_r (map _ ds)).
  rewrite (split_from_digits ds [] [] Hd), app_nil_r.
  cbn [Text.split_from].
  destruct (word_of_digits ds Hne) as [Hw Ht].
  destruct (rev (map (fun c : ascii => [c]) ds)) as [| g gs] eqn:E;
    [congruence |].
  rewrite Ht. reflexivity.
Qed.

Lemma split_two_words a b :
  all_digits a -> a <> [] -> all_digits b -> b <> [] ->
  Text.split_from (map (fun c => [c]) (a ++ " "%char :: b)) []
  = [Text.text a; Text.text b].
Proof.
  intros Ha Hane Hb Hbne.
  rewrite map_app. cbn [map].
  rewrite (split_from_digits a _ [] Ha), app_nil_r.
  cbn [Text.split_from].
  change (Text.is_space [" "%char]) with true. cbv iota.
  rewrite (split_word_end b Hb Hbne).
  destruct (word_of_digits a Hane) as [Hw Ht].
  destruct (rev (map (fun c : ascii => [c]) a)) as [| g gs] eqn:E;
    [congruence |].
  rewrite Ht. reflexivity.
Qed.

Lemma month_year_chars m y :
  0 <= m -> 0 <= y ->
  Text.chars (month_year_line m y)
  = (Text.decimal m ++ " "%char :: Text.decimal y)%list.
Proof.
  intros Hm Hy. unfold month_year_line, Text.of_Z.
  destruct (Z.ltb_spec m 0); [lia |]. destruct (Z.ltb_spec y 0); [lia |].
  rewrite !chars_append, !chars_text. reflexivity.
Qed.

Lemma month_year_ascii m y :
  0 <= m -> 0 <= y ->
  Text.is_ascii (Text.chars (month_year_line m y)) = true.
Proof.
  intros Hm Hy. rewrite (month_year_chars m y Hm Hy), is_ascii_app.
  destruct (decimal_spec m Hm) as (Hdm & _).
  destruct (decimal_spec y Hy) as (Hdy & _).
  rewrite (digits_ascii _ Hdm).
  change (Text.is_ascii (" "%char :: Text.decimal y))
    with ((Text.code " " <? 128) && Text.is_ascii (Text.decimal y)).
  rewrite (digits_ascii _ Hdy). reflexivity.
Qed.

Lemma strip_month_year m y :
  0 <= m -> 0 <= y ->
  Text.strip (month_year_line m y) = month_year_line m y.
Proof.
  intros Hm Hy.
  destruct (decimal_spec m Hm) as (Hdm & _ & Hnm & _).
  destruct (decimal_spec y Hy) as (Hdy & _ & Hny & _).
  destruct (last_digit _ Hdy Hny) as (l & c' & E & Hc').
  assert (Hfirst : exists c dm, Text.decimal m = c :: dm
                                /\ Text.is_digit c = true).
  { destruct (Text.decimal m) as [| c dm]; [congruence |].
    apply List.Forall_cons_iff in Hdm as [Hc _]. eauto. }
  destruct Hfirst as (c & dm & Em & Hc).
  rewrite <- (text_chars (month_year_line m y)).
  apply (strip_between (Text.chars (month_year_line m y))
           (dm ++ " "%char :: Text.decimal y)
           (Text.decimal m ++ " "%char :: l) c c').
  - apply month_year_ascii; assumption.
  - rewrite (month_year_chars m y Hm Hy), Em. reflexivity.
  - rewrite (month_year_chars m y Hm Hy), E, <- app_assoc. reflexivity.
  - exact Hc.
  - exact Hc'.
Qed.

(** X29. When the month and the year are not both passed, the program
    asks for them with one prompt; a reply made of the decimal
    numerals of [m] and [y] with a space between is read back as
    these two numbers, and the summary of that month is produced on
    the rest of the console. *)
Theorem prompted_month_year_read_back :
  forall (m y : Z) (export_json export_csv : bool)
         (rest : list string) (w : world),
    0 <= m < 10 ^ 1000 ->
    0 <= y < 10 ^ 1000 ->
    stdin w = month_year_line m y :: rest ->
    generate_monthly_summary_call None None export_json export_csv w
    = generate_monthly_summary m y export_json export_csv
        (set_stdin rest
           (set_stdout (stdout w ++ [Prompt month_year_prompt]) w)).
Proof.
  intros m y ej ec rest w Hm Hy Hin.
  unfold generate_monthly_summary_call.
  unfold bind at 1. unfold input at 1. cbn [stdin set_stdout]. rewrite Hin.
  rewrite (strip_month_year m y) by lia.
  assert (Hne : Text.is_empty (month_year_line m y) = false).
  { destruct (month_year_line m y) eqn:E; [| reflexivity].
    pose proof (month_year_chars m y ltac:(lia) ltac:(lia)) as Hc.
    rewrite E in Hc. destruct (decimal_spec m ltac:(lia)) as (_ & _ & Hnm & _).
    destruct (Text.decimal m); [congruence | discriminate Hc]. }
  rewrite Hne. unfold Text.split.
  rewrite (characters_ascii _ (month_year_ascii m y ltac:(lia) ltac:(lia))).
  rewrite (month_year_chars m y) by lia.
  destruct (decimal_spec m ltac:(lia)) as (Hdm & _ & Hnm & _).
  destruct (decimal_spec y ltac:(lia)) as (Hdy & _ & Hny & _).
  rewrite (split_two_words _ _ Hdm Hnm Hdy Hny).
  pose proof (int_of_decimal m Hm) as Im.
  pose proof (int_of_decimal y Hy) as Iy.
  unfold Text.of_Z in Im, Iy.
  destruct (Z.ltb_spec m 0); [lia |]. destruct (Z.ltb_spec y 0); [lia |].
  rewrite Im, Iy. reflexivity.
Qed.

Lemma prompted_month_year_read_back_witness :
  generate_monthly_summary_call None None true false
    (set_stdin ["2 2025"] no_files)
  = generate_monthly_summary 2 2025 true false
      (set_stdin []
         (set_stdout
            (stdout (set_stdin ["2 2025"] no_files)
               ++ [Prompt month_year_prompt])
            (set_stdin ["2 2025"] no_files))).
Proof.
  apply (prompted_month_year_read_back 2 2025 true false []
           (set_stdin ["2 2025"] no_files)).
  - split; [lia |]. apply Z.ltb_lt. vm_compute. reflexivity.
  - split; [lia |]. apply Z.ltb_lt. vm_compute. reflexivity.
  - reflexivity.
Defined.
